(** * IoT device registry and sensor telemetry: model and verification

    A shallow embedding of [app/models/iot.py] (the two tables),
    [app/crud/iot.py] (the repository functions) and [app/api/iot.py]
    (the request handlers), followed by the properties of the device
    liveness and telemetry aggregation model.

    Conventions of the embedding.
    - Python [int] is [Z]; [skip] and [limit], which the handlers validate
      to be non-negative before they reach SQL [OFFSET]/[LIMIT], are [nat].
    - A [datetime] is the number of microseconds since the epoch, a
      [timedelta] a number of microseconds.  Every read of the clock
      ([datetime.now(UTC)], [datetime.utcnow()], both the instant of the
      call) is an explicit argument of the function that performs it.
    - A [Float] column holds an exact rational ([Qc]); rounding of the
      database's [avg] is not modelled.
    - A table is the list of its rows, in insertion order.
    - An [async def] working on an [AsyncSession] is a computation in the
      monad [Async]: it threads the session and may raise. *)

From Stdlib Require Import ZArith QArith Qcanon.
From stdpp Require Import base decidable option list sorting strings numbers pretty.

Open Scope Z_scope.

(** ** Time *)

Definition Time := Z.

Definition timedelta_minutes (minutes : Z) : Z := minutes * 60 * 1000000.
Definition timedelta_hours (hours : Z) : Z := hours * 3600 * 1000000.

(** ** Tables ([app/models/iot.py]) *)

Module IoTDevice.
(** [is_online], [last_seen] and [mqtt_topic] are nullable columns. *)
Record t := mk {
  id : Z;
  farm_id : Z;
  device_id : string;
  is_online : option bool;
  last_seen : option Time;
  mqtt_topic : option string;
  created_at : Time
}.

Definition set_is_online (v : option bool) (d : t) : t :=
  mk (id d) (farm_id d) (device_id d) v (last_seen d) (mqtt_topic d) (created_at d).
Definition set_last_seen (v : option Time) (d : t) : t :=
  mk (id d) (farm_id d) (device_id d) (is_online d) v (mqtt_topic d) (created_at d).
Definition set_mqtt_topic (v : option string) (d : t) : t :=
  mk (id d) (farm_id d) (device_id d) (is_online d) (last_seen d) v (created_at d).
End IoTDevice.

Module SensorReading.
(** [device_id] is a nullable foreign key; the seven metrics are
    independently nullable. *)
Record t := mk {
  id : Z;
  device_id : option Z;
  timestamp : Time;
  feed_rate : option Qc;
  water_intake : option Qc;
  temperature : option Qc;
  humidity : option Qc;
  avg_weight : option Qc;
  ammonia_level : option Qc;
  lux_level : option Qc
}.
End SensorReading.

Module Farm.
(** Modelled from the spec: the farm table of [app/models/farm.py], of
    which only the owner matters here (a farm belongs to one user). *)
Record t := mk { id : Z; owner_id : Z }.
End Farm.

Module User.
(** Modelled from the spec: the authenticated caller of
    [app/models/user.py], with its id and role. *)
Record t := mk { id : Z; role : string }.
End User.

#[global] Instance IoTDevice_eq_dec : EqDecision IoTDevice.t.
Proof. solve_decision. Defined.
#[global] Instance SensorReading_eq_dec : EqDecision SensorReading.t.
Proof. solve_decision. Defined.
#[global] Instance Farm_eq_dec : EqDecision Farm.t.
Proof. solve_decision. Defined.

(** ** The database, the session and the monad of [async] functions *)

Record Database := mkDatabase {
  farms : list Farm.t;
  iot_devices : list IoTDevice.t;
  sensor_readings : list SensorReading.t;
  (** the next values of the two primary-key sequences *)
  iot_devices_id_seq : Z;
  sensor_readings_id_seq : Z
}.

#[global] Instance Database_eq_dec : EqDecision Database.
Proof. solve_decision. Defined.

Definition with_iot_devices (ds : list IoTDevice.t) (db : Database) : Database :=
  mkDatabase (farms db) ds (sensor_readings db)
             (iot_devices_id_seq db) (sensor_readings_id_seq db).

(** A session works on [pending], its view of the transaction in
    progress; [commit] makes it the [committed] state.  A request that
    ends in an exception leaves [committed] as the stored state. *)
Record AsyncSession := mkSession {
  committed : Database;
  pending : Database
}.

#[global] Instance AsyncSession_eq_dec : EqDecision AsyncSession.
Proof. solve_decision. Defined.

Inductive Exception :=
  | HTTPException (status_code : Z) (detail : string)
  | IntegrityError
  | MultipleResultsFound
  | NoResultFound.

#[global] Instance Exception_eq_dec : EqDecision Exception.
Proof. solve_decision. Defined.

Definition HTTP_400_BAD_REQUEST : Z := 400.
Definition HTTP_403_FORBIDDEN : Z := 403.
Definition HTTP_404_NOT_FOUND : Z := 404.

Definition Async (A : Type) : Type := AsyncSession → (Exception + A) * AsyncSession.

#[global] Instance Async_ret : MRet Async := λ A (a : A) s, (inr a, s).
#[global] Instance Async_bind : MBind Async := λ A B (k : A → Async B) (m : Async A) s,
  match m s with
  | (inr a, s') => k a s'
  | (inl e, s') => (inl e, s')
  end.

Definition raise {A} (e : Exception) : Async A := λ s, (inl e, s).

(** [db.execute(select(...))]: read the transaction's view. *)
Definition select {A} (q : Database → A) : Async A := λ s, (inr (q (pending s)), s).

(** A write inside the transaction. *)
Definition modify (f : Database → Database) : Async unit :=
  λ s, (inr tt, mkSession (committed s) (f (pending s))).

(** [await db.commit()] *)
Definition commit : Async unit :=
  λ s, (inr tt, mkSession (pending s) (pending s)).

(** What a request leaves in the store: [get_db] opens a session on the
    stored state, and only what was committed survives. *)
Definition run_request {A} (handler : Async A) (db : Database) : (Exception + A) * Database :=
  let '(r, s) := handler (mkSession db db) in (r, committed s).

(** [result.scalar_one_or_none()] *)
Definition scalar_one_or_none {A} (rows : list A) : Async (option A) :=
  match rows with
  | [] => mret None
  | [x] => mret (Some x)
  | _ => raise MultipleResultsFound
  end.

(** ** SQL fragments *)

(** [col == True]: a NULL never matches. *)
Definition is_true (b : option bool) : bool :=
  match b with Some true => true | _ => false end.

(** [col < t] on a nullable timestamp: a NULL never matches. *)
Definition before (c : option Time) (t : Time) : bool :=
  match c with Some x => bool_decide (x < t) | None => false end.

(** [col.in_(ids)] *)
Definition in_ (c : option Z) (ids : list Z) : bool :=
  match c with Some x => bool_decide (x ∈ ids) | None => false end.

(** [ORDER BY created_at DESC] and [ORDER BY timestamp DESC].  The order
    of rows with equal keys is the database's choice; here it is the one
    of the merge sort. *)
Definition created_desc (d1 d2 : IoTDevice.t) : Prop :=
  IoTDevice.created_at d2 ≤ IoTDevice.created_at d1.
Definition timestamp_desc (r1 r2 : SensorReading.t) : Prop :=
  SensorReading.timestamp r2 ≤ SensorReading.timestamp r1.

#[global] Instance created_desc_dec : RelDecision created_desc.
Proof. intros d1 d2. unfold created_desc. apply _. Defined.
#[global] Instance timestamp_desc_dec : RelDecision timestamp_desc.
Proof. intros r1 r2. unfold timestamp_desc. apply _. Defined.

#[global] Instance created_desc_trans : Transitive created_desc.
Proof. unfold created_desc. intros x y z ? ?. lia. Qed.
#[global] Instance created_desc_total : Total created_desc.
Proof. unfold created_desc. intros x y. lia. Qed.
#[global] Instance timestamp_desc_trans : Transitive timestamp_desc.
Proof. unfold timestamp_desc. intros x y z ? ?. lia. Qed.
#[global] Instance timestamp_desc_total : Total timestamp_desc.
Proof. unfold timestamp_desc. intros x y. lia. Qed.

(** Aggregates ignore NULLs and are NULL over no value at all. *)
Definition non_null {A} (col : list (option A)) : list A := omap id col.

Definition Qc_of_nat (n : nat) : Qc := Q2Qc (inject_Z (Z.of_nat n)).

Definition func_avg (col : list (option Qc)) : option Qc :=
  match non_null col with
  | [] => None
  | x :: xs => Some (foldr Qcplus 0%Qc (x :: xs) / Qc_of_nat (length (x :: xs)))%Qc
  end.

Definition Qc_min (a b : Qc) : Qc := if Qclt_le_dec a b then a else b.
Definition Qc_max (a b : Qc) : Qc := if Qclt_le_dec a b then b else a.

Definition func_min (col : list (option Qc)) : option Qc :=
  match non_null col with
  | [] => None
  | x :: xs => Some (foldr Qc_min x xs)
  end.

Definition func_max (col : list (option Qc)) : option Qc :=
  match non_null col with
  | [] => None
  | x :: xs => Some (foldr Qc_max x xs)
  end.

(** Python's [float(x) if x else None]: [None] and a zero are both falsy. *)
Definition float_if_truthy (x : option Qc) : option Qc :=
  match x with
  | Some v => if bool_decide (v = 0%Qc) then None else Some v
  | None => None
  end.

(** ** Request schemas *)

Module IoTDeviceCreate.
(** Modelled from the spec: the body of a registration,
    [{farm_id, device_id, mqtt_topic?}] ([app/schemas/iot.py]). *)
Record t := mk { farm_id : Z; device_id : string; mqtt_topic : option string }.
End IoTDeviceCreate.

Module IoTDeviceUpdate.
(** Modelled from the spec: the partial body [{is_online?, mqtt_topic?}]
    ([app/schemas/iot.py]).  The outer [option] is the presence of the
    field in the request ([model_dump(exclude_unset=True)] keeps exactly
    the fields that were supplied), the inner one its value, which can be
    [null]. *)
Record t := mk { is_online : option (option bool); mqtt_topic : option (option string) }.
End IoTDeviceUpdate.

Module SensorReadingCreate.
(** Modelled from the spec: the body of an ingestion,
    [{device_id, feed_rate?, ..., lux_level?}] ([app/schemas/iot.py]). *)
Record t := mk {
  device_id : Z;
  feed_rate : option Qc;
  water_intake : option Qc;
  temperature : option Qc;
  humidity : option Qc;
  avg_weight : option Qc;
  ammonia_level : option Qc;
  lux_level : option Qc
}.
End SensorReadingCreate.

(** The dictionary returned by [get_reading_stats]. *)
Module Stats.
Record t := mk {
  readings_count : Z;
  avg_temperature : option Qc;
  min_temperature : option Qc;
  max_temperature : option Qc;
  avg_humidity : option Qc;
  avg_feed_rate : option Qc;
  avg_water_intake : option Qc;
  avg_weight : option Qc;
  avg_ammonia_level : option Qc;
  avg_lux_level : option Qc;
  hours_back : Z
}.
End Stats.

#[global] Instance Stats_eq_dec : EqDecision Stats.t.
Proof. solve_decision. Defined.

(** ** [app/crud/iot.py] *)

Module iot_crud.

(** *** Devices *)

Definition get_device_by_id (device_id : Z) : Async (option IoTDevice.t) :=
  rows ← select (λ db, filter (λ d, IoTDevice.id d = device_id) (iot_devices db));
  scalar_one_or_none rows.

Definition get_device_by_device_id (device_id_str : string) : Async (option IoTDevice.t) :=
  rows ← select (λ db, filter (λ d, IoTDevice.device_id d = device_id_str) (iot_devices db));
  scalar_one_or_none rows.

Definition get_devices_by_farm (farm_id : Z) (skip limit : nat)
  : Async (list IoTDevice.t * Z) :=
  total ← select (λ db,
    Z.of_nat (length (filter (λ d, IoTDevice.farm_id d = farm_id) (iot_devices db))));
  devices ← select (λ db,
    take limit (drop skip (merge_sort created_desc
      (filter (λ d, IoTDevice.farm_id d = farm_id) (iot_devices db)))));
  mret (devices, total).

Definition get_all_devices (online_only : bool) (skip limit : nat)
  : Async (list IoTDevice.t * Z) :=
  let query (db : Database) :=
    if online_only
    then filter (λ d, is_true (IoTDevice.is_online d) = true) (iot_devices db)
    else iot_devices db in
  total ← select (λ db, Z.of_nat (length (query db)));
  devices ← select (λ db, take limit (drop skip (merge_sort created_desc (query db))));
  mret (devices, total).

(** [device_in.mqtt_topic or f"farm/{device_in.farm_id}/sensors"]: an
    empty topic is falsy as well. *)
Definition default_mqtt_topic (device_in : IoTDeviceCreate.t) : string :=
  match IoTDeviceCreate.mqtt_topic device_in with
  | Some topic =>
      if bool_decide (topic = EmptyString)
      then "farm/" +:+ pretty (IoTDeviceCreate.farm_id device_in) +:+ "/sensors"
      else topic
  | None => "farm/" +:+ pretty (IoTDeviceCreate.farm_id device_in) +:+ "/sensors"
  end.

(** The constraints of [iot_devices] that the INSERT of [flush] checks:
    the foreign key to [farms], and the two unique columns. *)
Definition insert_device_ok (db : Database) (d : IoTDevice.t) : bool :=
  bool_decide (IoTDevice.farm_id d ∈ Farm.id <$> farms db)
  && bool_decide (IoTDevice.device_id d ∉ IoTDevice.device_id <$> iot_devices db)
  && bool_decide (IoTDevice.mqtt_topic d ∉ filter is_Some (IoTDevice.mqtt_topic <$> iot_devices db)).

Definition create_device (now_last_seen now_created_at : Time)
    (device_in : IoTDeviceCreate.t) : Async IoTDevice.t :=
  let mqtt_topic := default_mqtt_topic device_in in
  new_id ← select iot_devices_id_seq;
  let db_device :=
    IoTDevice.mk new_id
      (IoTDeviceCreate.farm_id device_in)
      (IoTDeviceCreate.device_id device_in)
      (Some true) (Some now_last_seen) (Some mqtt_topic) now_created_at in
  ok ← select (λ db, insert_device_ok db db_device);
  if ok : bool then
    modify (λ db, mkDatabase (farms db) (iot_devices db ++ [db_device])
                    (sensor_readings db) (new_id + 1) (sensor_readings_id_seq db));;
    mret db_device
  else raise IntegrityError.

(** [for field, value in update_data.items(): setattr(db_device, field, value)] *)
Definition apply_update (device_in : IoTDeviceUpdate.t) (d : IoTDevice.t) : IoTDevice.t :=
  let d1 := match IoTDeviceUpdate.is_online device_in with
            | Some v => IoTDevice.set_is_online v d
            | None => d
            end in
  match IoTDeviceUpdate.mqtt_topic device_in with
  | Some v => IoTDevice.set_mqtt_topic v d1
  | None => d1
  end.

(** The unique constraint on [mqtt_topic], which the UPDATE of [flush]
    checks against the other rows when the topic changes. *)
Definition update_device_ok (db : Database) (old new : IoTDevice.t) : bool :=
  bool_decide (IoTDevice.mqtt_topic new = IoTDevice.mqtt_topic old)
  || bool_decide (IoTDevice.mqtt_topic new ∉
       filter is_Some (IoTDevice.mqtt_topic <$>
         filter (λ d', IoTDevice.id d' ≠ IoTDevice.id new) (iot_devices db))).

Definition update_device (device_id : Z) (device_in : IoTDeviceUpdate.t)
  : Async (option IoTDevice.t) :=
  db_device ← get_device_by_id device_id;
  match db_device with
  | None => mret None
  | Some old =>
      let db_device := apply_update device_in old in
      ok ← select (λ db, update_device_ok db old db_device);
      if ok : bool then
        modify (λ db, with_iot_devices
          ((λ d, if bool_decide (IoTDevice.id d = device_id) then db_device else d)
             <$> iot_devices db) db);;
        mret (Some db_device)
      else raise IntegrityError
  end.

(** [update(IoTDevice).where(IoTDevice.id == device_id).values(...).returning(IoTDevice)] *)
Definition update_device_status (utcnow : Time) (device_id : Z) (is_online : bool)
  : Async (option IoTDevice.t) :=
  let values d :=
    IoTDevice.set_last_seen (Some utcnow) (IoTDevice.set_is_online (Some is_online) d) in
  modify (λ db, with_iot_devices
    ((λ d, if bool_decide (IoTDevice.id d = device_id) then values d else d)
       <$> iot_devices db) db);;
  rows ← select (λ db, filter (λ d, IoTDevice.id d = device_id) (iot_devices db));
  scalar_one_or_none rows.

(** [db.delete(db_device)]: the row goes, and with it, by the
    [cascade="all, delete-orphan"] of [IoTDevice.readings], its readings. *)
Definition delete_device (device_id : Z) : Async bool :=
  db_device ← get_device_by_id device_id;
  match db_device with
  | None => mret false
  | Some db_device =>
      modify (λ db, mkDatabase (farms db)
        (filter (λ d, IoTDevice.id d ≠ IoTDevice.id db_device) (iot_devices db))
        (filter (λ r, SensorReading.device_id r ≠ Some (IoTDevice.id db_device))
           (sensor_readings db))
        (iot_devices_id_seq db) (sensor_readings_id_seq db));;
      mret true
  end.

(** *** Readings *)

(** The foreign key of [sensor_readings.device_id]. *)
Definition insert_reading_ok (db : Database) (r : SensorReading.t) : bool :=
  match SensorReading.device_id r with
  | Some d => bool_decide (d ∈ IoTDevice.id <$> iot_devices db)
  | None => true
  end.

Definition create_sensor_reading (now_timestamp utcnow_status : Time)
    (reading_in : SensorReadingCreate.t) : Async SensorReading.t :=
  new_id ← select sensor_readings_id_seq;
  let db_reading :=
    SensorReading.mk new_id
      (Some (SensorReadingCreate.device_id reading_in))
      now_timestamp
      (SensorReadingCreate.feed_rate reading_in)
      (SensorReadingCreate.water_intake reading_in)
      (SensorReadingCreate.temperature reading_in)
      (SensorReadingCreate.humidity reading_in)
      (SensorReadingCreate.avg_weight reading_in)
      (SensorReadingCreate.ammonia_level reading_in)
      (SensorReadingCreate.lux_level reading_in) in
  ok ← select (λ db, insert_reading_ok db db_reading);
  if ok : bool then
    modify (λ db, mkDatabase (farms db) (iot_devices db)
                    (sensor_readings db ++ [db_reading])
                    (iot_devices_id_seq db) (new_id + 1));;
    update_device_status utcnow_status (SensorReadingCreate.device_id reading_in) true;;
    mret db_reading
  else raise IntegrityError.

Definition get_latest_reading (device_id : Z) : Async (option SensorReading.t) :=
  rows ← select (λ db,
    take 1 (merge_sort timestamp_desc
      (filter (λ r, SensorReading.device_id r = Some device_id) (sensor_readings db))));
  scalar_one_or_none rows.

Definition get_readings_by_device (utcnow : Time) (device_id : Z)
    (hours_back : option Z) (limit : nat) : Async (list SensorReading.t) :=
  let query (db : Database) :=
    filter (λ r, SensorReading.device_id r = Some device_id) (sensor_readings db) in
  let query (db : Database) :=
    match hours_back with
    | Some hours_back =>
        let cutoff_time := utcnow - timedelta_hours hours_back in
        filter (λ r, cutoff_time ≤ SensorReading.timestamp r) (query db)
    | None => query db
    end in
  select (λ db, take limit (merge_sort timestamp_desc (query db))).

Definition get_readings_by_farm (utcnow : Time) (farm_id : Z)
    (hours_back : option Z) (limit : nat) : Async (list SensorReading.t) :=
  device_ids ← select (λ db,
    IoTDevice.id <$> filter (λ d, IoTDevice.farm_id d = farm_id) (iot_devices db));
  match device_ids with
  | [] => mret []
  | _ =>
      let query (db : Database) :=
        filter (λ r, in_ (SensorReading.device_id r) device_ids = true)
               (sensor_readings db) in
      let query (db : Database) :=
        match hours_back with
        | Some hours_back =>
            let cutoff_time := utcnow - timedelta_hours hours_back in
            filter (λ r, cutoff_time ≤ SensorReading.timestamp r) (query db)
        | None => query db
        end in
      select (λ db, take limit (merge_sort timestamp_desc (query db)))
  end.

Definition get_reading_stats (utcnow : Time) (device_id : Z) (hours_back : Z)
  : Async Stats.t :=
  let cutoff_time := utcnow - timedelta_hours hours_back in
  rows ← select (λ db,
    filter (λ r, SensorReading.device_id r = Some device_id
                 ∧ cutoff_time ≤ SensorReading.timestamp r) (sensor_readings db));
  let count := Z.of_nat (length rows) in
  let avg_temp := func_avg (SensorReading.temperature <$> rows) in
  let min_temp := func_min (SensorReading.temperature <$> rows) in
  let max_temp := func_max (SensorReading.temperature <$> rows) in
  let avg_humidity := func_avg (SensorReading.humidity <$> rows) in
  let avg_feed := func_avg (SensorReading.feed_rate <$> rows) in
  let avg_water := func_avg (SensorReading.water_intake <$> rows) in
  let avg_weight := func_avg (SensorReading.avg_weight <$> rows) in
  let avg_ammonia := func_avg (SensorReading.ammonia_level <$> rows) in
  let avg_lux := func_avg (SensorReading.lux_level <$> rows) in
  mret (Stats.mk count
    (float_if_truthy avg_temp) (float_if_truthy min_temp) (float_if_truthy max_temp)
    (float_if_truthy avg_humidity) (float_if_truthy avg_feed) (float_if_truthy avg_water)
    (float_if_truthy avg_weight) (float_if_truthy avg_ammonia) (float_if_truthy avg_lux)
    hours_back).

(** [update(IoTDevice).where(and_(is_online == True, last_seen < cutoff_time))
    .values(is_online=False)], whose [rowcount] is the number of rows matched. *)
Definition stale (cutoff_time : Time) (d : IoTDevice.t) : bool :=
  is_true (IoTDevice.is_online d) && before (IoTDevice.last_seen d) cutoff_time.

Definition mark_offline_devices (utcnow : Time) (timeout_minutes : Z) : Async Z :=
  let cutoff_time := utcnow - timedelta_minutes timeout_minutes in
  rowcount ← select (λ db,
    Z.of_nat (length (filter (λ d, stale cutoff_time d = true) (iot_devices db))));
  modify (λ db, with_iot_devices
    ((λ d, if stale cutoff_time d then IoTDevice.set_is_online (Some false) d else d)
       <$> iot_devices db) db);;
  mret rowcount.

End iot_crud.

(** ** [app/crud/farm.py] *)

Module farm_crud.

(** Modelled from the spec: the ownership check
    [verify_farm_owner(farm_id, caller_id) → Farm?] of [app/crud/farm.py],
    the farm of that id when the caller owns it. *)
Definition get_farm_by_id (farm_id owner_id : Z) : Async (option Farm.t) :=
  select (λ db,
    head (filter (λ f, Farm.id f = farm_id ∧ Farm.owner_id f = owner_id) (farms db))).

End farm_crud.

(** ** [app/api/iot.py] *)

(** A device merged with its latest reading
    ([{**device.__dict__, "latest_reading": ..., "readings_count": 0}]). *)
Module IoTDeviceWithReadings.
Record t := mk {
  device : IoTDevice.t;
  latest_reading : option SensorReading.t;
  readings_count : Z
}.
End IoTDeviceWithReadings.

Module DeviceListResponse.
Record t := mk {
  total : Z;
  devices : list IoTDeviceWithReadings.t;
  skip : nat;
  limit : nat;
  online_count : Z;
  offline_count : Z
}.
End DeviceListResponse.

Module SensorDataSummary.
Record t := mk {
  device_id : Z;
  farm_id : Z;
  first_reading : option Time;
  last_reading : option Time;
  stats : Stats.t
}.
End SensorDataSummary.

(** The answer of the maintenance endpoint,
    [{"marked_offline": n, "message": f"Marked {n} devices as offline"}]. *)
Module MaintenanceResponse.
Record t := mk { marked_offline : Z; message : string }.
End MaintenanceResponse.

Module iot_api.

Definition list_devices (skip limit : nat) (online_only : bool) (current_user : User.t)
  : Async DeviceListResponse.t :=
  '(devices, total) ← iot_crud.get_all_devices online_only skip limit;
  devices_with_readings ← mapM (λ device,
      latest_reading ← iot_crud.get_latest_reading (IoTDevice.id device);
      mret (IoTDeviceWithReadings.mk device latest_reading 0)) devices;
  let online_count :=
    Z.of_nat (length (filter (λ d, is_true (IoTDevice.is_online d) = true) devices)) in
  let offline_count := Z.of_nat (length devices) - online_count in
  mret (DeviceListResponse.mk total devices_with_readings skip limit
          online_count offline_count).

Definition register_device (now_last_seen now_created_at : Time)
    (device_in : IoTDeviceCreate.t) (current_user : User.t) : Async IoTDevice.t :=
  farm ← farm_crud.get_farm_by_id (IoTDeviceCreate.farm_id device_in) (User.id current_user);
  match farm with
  | None => raise (HTTPException HTTP_404_NOT_FOUND "Farm not found or access denied")
  | Some _ =>
      existing_device ← iot_crud.get_device_by_device_id (IoTDeviceCreate.device_id device_in);
      match existing_device with
      | Some _ =>
          raise (HTTPException HTTP_400_BAD_REQUEST
                   ("Device with ID " +:+ IoTDeviceCreate.device_id device_in
                      +:+ " already exists"))
      | None =>
          device ← iot_crud.create_device now_last_seen now_created_at device_in;
          commit;;
          mret device
      end
  end.

(** The two checks that open every handler on a device, written out in
    each of them in the source: the device exists (404 otherwise), and
    the caller owns its farm (403 otherwise). *)
Definition get_owned_device (device_id : Z) (current_user : User.t) : Async IoTDevice.t :=
  device ← iot_crud.get_device_by_id device_id;
  match device with
  | None => raise (HTTPException HTTP_404_NOT_FOUND "Device not found")
  | Some device =>
      farm ← farm_crud.get_farm_by_id (IoTDevice.farm_id device) (User.id current_user);
      match farm with
      | None => raise (HTTPException HTTP_403_FORBIDDEN "Access denied")
      | Some _ => mret device
      end
  end.

Definition get_device (device_id : Z) (current_user : User.t)
  : Async IoTDeviceWithReadings.t :=
  device ← get_owned_device device_id current_user;
  latest_reading ← iot_crud.get_latest_reading device_id;
  mret (IoTDeviceWithReadings.mk device latest_reading 0).

Definition update_device (device_id : Z) (device_in : IoTDeviceUpdate.t)
    (current_user : User.t) : Async (option IoTDevice.t) :=
  get_owned_device device_id current_user;;
  updated_device ← iot_crud.update_device device_id device_in;
  commit;;
  mret updated_device.

Definition delete_device (device_id : Z) (current_user : User.t) : Async unit :=
  get_owned_device device_id current_user;;
  iot_crud.delete_device device_id;;
  commit;;
  mret tt.

Definition record_sensor_reading (now_timestamp utcnow_status : Time)
    (reading_in : SensorReadingCreate.t) : Async SensorReading.t :=
  device ← iot_crud.get_device_by_id (SensorReadingCreate.device_id reading_in);
  match device with
  | None => raise (HTTPException HTTP_404_NOT_FOUND "Device not found")
  | Some _ =>
      reading ← iot_crud.create_sensor_reading now_timestamp utcnow_status reading_in;
      commit;;
      mret reading
  end.

Definition get_device_readings (utcnow : Time) (device_id : Z) (hours_back : option Z)
    (limit : nat) (current_user : User.t) : Async (list SensorReading.t) :=
  get_owned_device device_id current_user;;
  iot_crud.get_readings_by_device utcnow device_id hours_back limit.

Definition get_latest_reading (device_id : Z) (current_user : User.t)
  : Async SensorReading.t :=
  get_owned_device device_id current_user;;
  reading ← iot_crud.get_latest_reading device_id;
  match reading with
  | None => raise (HTTPException HTTP_404_NOT_FOUND "No readings found for this device")
  | Some reading => mret reading
  end.

Definition get_reading_statistics (utcnow_stats utcnow_readings : Time) (device_id : Z)
    (hours_back : Z) (current_user : User.t) : Async SensorDataSummary.t :=
  device ← get_owned_device device_id current_user;
  stats ← iot_crud.get_reading_stats utcnow_stats device_id hours_back;
  readings ← iot_crud.get_readings_by_device utcnow_readings device_id (Some hours_back) 1000;
  let first_reading := SensorReading.timestamp <$> last readings in
  let last_reading := SensorReading.timestamp <$> head readings in
  mret (SensorDataSummary.mk device_id (IoTDevice.farm_id device)
          first_reading last_reading stats).

Definition get_farm_devices (farm_id : Z) (current_user : User.t)
  : Async (list IoTDeviceWithReadings.t) :=
  farm ← farm_crud.get_farm_by_id farm_id (User.id current_user);
  match farm with
  | None => raise (HTTPException HTTP_404_NOT_FOUND "Farm not found")
  | Some _ =>
      (* [get_devices_by_farm(db, farm_id)]: the defaults [skip=0], [limit=100] *)
      '(devices, _) ← iot_crud.get_devices_by_farm farm_id 0 100;
      mapM (λ device,
          latest_reading ← iot_crud.get_latest_reading (IoTDevice.id device);
          mret (IoTDeviceWithReadings.mk device latest_reading 0)) devices
  end.

Definition get_farm_readings (utcnow : Time) (farm_id : Z) (hours_back : Z) (limit : nat)
    (current_user : User.t) : Async (list SensorReading.t) :=
  farm ← farm_crud.get_farm_by_id farm_id (User.id current_user);
  match farm with
  | None => raise (HTTPException HTTP_404_NOT_FOUND "Farm not found")
  | Some _ => iot_crud.get_readings_by_farm utcnow farm_id (Some hours_back) limit
  end.

Definition check_offline_devices_endpoint (utcnow : Time) (timeout_minutes : Z)
    (current_user : User.t) : Async MaintenanceResponse.t :=
  if bool_decide (User.role current_user ≠ "admin")
  then raise (HTTPException HTTP_403_FORBIDDEN "Admin access required")
  else
    marked_offline ← iot_crud.mark_offline_devices utcnow timeout_minutes;
    commit;;
    mret (MaintenanceResponse.mk marked_offline
            ("Marked " +:+ pretty marked_offline +:+ " devices as offline")).

End iot_api.

(** * Properties *)

(** ** Vocabulary of the statements *)

(** A device that is online and whose last report is older than
    [utcnow - timeout_minutes]. *)
Definition lapsed (utcnow timeout_minutes : Z) (d : IoTDevice.t) : Prop :=
  IoTDevice.is_online d = Some true ∧
  match IoTDevice.last_seen d with
  | Some t => t < utcnow - timeout_minutes * 60000000
  | None => False
  end.

#[global] Instance lapsed_dec utcnow timeout_minutes d :
  Decision (lapsed utcnow timeout_minutes d).
Proof. unfold lapsed. destruct (IoTDevice.last_seen d); apply _. Defined.

(** A device that is online and becomes stale between two sweeps, run at
    [utcnow1] and at [utcnow2]. *)
Definition newly_stale (utcnow1 utcnow2 timeout_minutes : Z) (d : IoTDevice.t) : Prop :=
  IoTDevice.is_online d = Some true ∧
  match IoTDevice.last_seen d with
  | Some t => utcnow1 - timeout_minutes * 60000000 ≤ t < utcnow2 - timeout_minutes * 60000000
  | None => False
  end.

#[global] Instance newly_stale_dec utcnow1 utcnow2 timeout_minutes d :
  Decision (newly_stale utcnow1 utcnow2 timeout_minutes d).
Proof. unfold newly_stale. destruct (IoTDevice.last_seen d); apply _. Defined.

(** The caller [owner_id] owns the farm [farm_id]. *)
Definition owns_farm (db : Database) (owner_id farm_id : Z) : Prop :=
  Exists (λ f, Farm.id f = farm_id ∧ Farm.owner_id f = owner_id) (farms db).

#[global] Instance owns_farm_dec db owner_id farm_id :
  Decision (owns_farm db owner_id farm_id).
Proof. unfold owns_farm. apply _. Defined.

(** The primary key of [iot_devices], and its unique [device_id]. *)
Definition unique_ids (db : Database) : Prop :=
  NoDup (IoTDevice.id <$> iot_devices db).
Definition unique_device_ids (db : Database) : Prop :=
  NoDup (IoTDevice.device_id <$> iot_devices db).

#[global] Instance unique_ids_dec db : Decision (unique_ids db).
Proof. unfold unique_ids. apply _. Defined.
#[global] Instance unique_device_ids_dec db : Decision (unique_device_ids db).
Proof. unfold unique_device_ids. apply _. Defined.

(** The states that the repository functions produce: the key and the
    unique [device_id] hold, and the sequence is ahead of every id. *)
Definition well_formed (db : Database) : Prop :=
  unique_ids db ∧ unique_device_ids db
  ∧ Forall (λ d, IoTDevice.id d < iot_devices_id_seq db) (iot_devices db).

#[global] Instance well_formed_dec db : Decision (well_formed db).
Proof. unfold well_formed. apply _. Defined.

(** A reading inside the window of [hours_back] hours that ends at
    [utcnow]; without [hours_back] every reading is. *)
Definition in_window (utcnow : Time) (hours_back : option Z) (r : SensorReading.t) : Prop :=
  match hours_back with
  | Some h => utcnow - h * 3600000000 ≤ SensorReading.timestamp r
  | None => True
  end.

#[global] Instance in_window_dec utcnow hours_back r :
  Decision (in_window utcnow hours_back r).
Proof. unfold in_window. destruct hours_back; apply _. Defined.

(** A handler that raises [e] on the session [s] and hands the session
    back as it found it: nothing written, nothing committed. *)
Definition rejects {A : Type} (handler : Async A) (e : Exception) (s : AsyncSession) : Prop :=
  handler s = (inl e, s).

(** A computation that hands every session back as it found it,
    whatever it answers or raises. *)
Definition only_reads {A : Type} (h : Async A) : Prop :=
  ∀ s r s', h s = (r, s') → s' = s.

(** ** Example data *)

Definition minute : Z := 60000000.
Definition hour : Z := 3600000000.

(** Noon of some day, in microseconds. *)
Definition noon : Time := 1700000000000000.

Definition device_A : IoTDevice.t :=
  IoTDevice.mk 1 1 "IOT-0001-M" (Some true) (Some (noon - 45 * minute))
               (Some "farm/1/sensors") (noon - 48 * hour).
Definition device_B : IoTDevice.t :=
  IoTDevice.mk 2 1 "IOT-0002-M" (Some true) (Some (noon - 30 * minute))
               (Some "farm/1/coop") (noon - 47 * hour).
Definition device_C : IoTDevice.t :=
  IoTDevice.mk 3 2 "IOT-0003-M" (Some false) (Some (noon - 90 * minute))
               (Some "farm/2/sensors") (noon - 46 * hour).

Definition farm_1 : Farm.t := Farm.mk 1 10.
Definition farm_2 : Farm.t := Farm.mk 2 20.
Definition user_U1 : User.t := User.mk 10 "farmer".
Definition user_U2 : User.t := User.mk 20 "farmer".

Definition open_session (db : Database) : AsyncSession := mkSession db db.

Definition db_devices : Database :=
  mkDatabase [farm_1; farm_2] [device_A; device_B; device_C] [] 4 1.

Definition reading_C : SensorReadingCreate.t :=
  SensorReadingCreate.mk 3 None None (Some (Q2Qc (57 # 2))) None None None None.

Definition stored_reading_C : SensorReading.t :=
  SensorReading.mk 1 (Some 3) noon None None (Some (Q2Qc (57 # 2))) None None None None.

Definition session_after_reading_C : AsyncSession :=
  mkSession db_devices
    (mkDatabase [farm_1; farm_2]
       [device_A; device_B;
        IoTDevice.mk 3 2 "IOT-0003-M" (Some true) (Some (noon + 1))
                     (Some "farm/2/sensors") (noon - 46 * hour)]
       [stored_reading_C] 4 2).

(** Three readings of device A within the last hour, with temperatures
    20, 30 and none. *)
Definition reading_of (id : Z) (device_id : Z) (timestamp : Time)
    (temperature : option Qc) : SensorReading.t :=
  SensorReading.mk id (Some device_id) timestamp None None temperature None None None None.

Definition db_scenario : Database :=
  mkDatabase [farm_1; farm_2] [device_A; device_B; device_C]
    [reading_of 1 1 (noon - 50 * minute) (Some (Q2Qc 20));
     reading_of 2 1 (noon - 40 * minute) (Some (Q2Qc 30));
     reading_of 3 1 (noon - 30 * minute) None;
     reading_of 4 2 (noon - 20 * minute) (Some (Q2Qc 99))] 4 5.

(** A frosty morning: device A reports 0 and 10 degrees. *)
Definition db_frost : Database :=
  mkDatabase [farm_1; farm_2] [device_A; device_B; device_C]
    [reading_of 1 1 (noon - 50 * minute) (Some (Q2Qc 0));
     reading_of 2 1 (noon - 40 * minute) (Some (Q2Qc 10))] 4 3.

(** Device A reports 0 degrees once. *)
Definition db_zero : Database :=
  mkDatabase [farm_1; farm_2] [device_A; device_B; device_C]
    [reading_of 1 1 (noon - 50 * minute) (Some (Q2Qc 0))] 4 2.

(** The partial body [{mqtt_topic: x}] and what it makes of device A. *)
Definition only_topic_x : IoTDeviceUpdate.t := IoTDeviceUpdate.mk None (Some (Some "x")).

Definition device_A_topic_x : IoTDevice.t :=
  IoTDevice.mk 1 1 "IOT-0001-M" (Some true) (Some (noon - 45 * minute))
               (Some "x") (noon - 48 * hour).

Definition session_topic_x : AsyncSession :=
  mkSession db_devices
    (mkDatabase [farm_1; farm_2] [device_A_topic_x; device_B; device_C] [] 4 1).

(** Device A reported two hours ago, an hour ago, half an hour ago and
    ten minutes ago; device B five minutes ago. *)
Definition reading_2h : SensorReading.t := reading_of 1 1 (noon - 2 * hour) None.
Definition reading_1h : SensorReading.t := reading_of 2 1 (noon - 1 * hour) None.
Definition reading_30min : SensorReading.t := reading_of 3 1 (noon - 30 * minute) None.
Definition reading_10min : SensorReading.t := reading_of 4 1 (noon - 10 * minute) None.
Definition reading_B : SensorReading.t := reading_of 5 2 (noon - 5 * minute) None.

Definition db_window : Database :=
  mkDatabase [farm_1; farm_2] [device_A; device_B; device_C]
    [reading_2h; reading_1h; reading_30min; reading_10min; reading_B] 4 6.

(** The scenario of the specification: the farms without any device, the
    registration of device A on farm 1, and what it stores. *)
Definition db_farms : Database := mkDatabase [farm_1; farm_2] [] [] 1 1.

Definition registration_A : IoTDeviceCreate.t := IoTDeviceCreate.mk 1 "IOT-0001-M" None.

Definition registered_A : IoTDevice.t :=
  IoTDevice.mk 1 1 "IOT-0001-M" (Some true) (Some noon) (Some "farm/1/sensors") noon.

Definition db_registered_A : Database :=
  mkDatabase [farm_1; farm_2] [registered_A] [] 2 1.

(** The session after device A, in [db_window], reports 21 degrees at
    noon and is seen a microsecond later. *)
Definition session_after_reading_A : AsyncSession :=
  mkSession db_window
    (mkDatabase [farm_1; farm_2]
       [IoTDevice.mk 1 1 "IOT-0001-M" (Some true) (Some (noon + 1))
                     (Some "farm/1/sensors") (noon - 48 * hour);
        device_B; device_C]
       [reading_2h; reading_1h; reading_30min; reading_10min; reading_B;
        reading_of 6 1 noon (Some (Q2Qc 21))] 4 7).

(** ** Running the monad *)

(** Unfolds the primitives of [Async] and the session projections. *)
Ltac run_async :=
  unfold scalar_one_or_none, select, modify, raise, commit in *;
  unfold mbind, Async_bind, mret, Async_ret in *;
  cbn [pending committed fst snd] in *.

(** ** Facts about lists *)

Section list_facts.
Context {A : Type} (P : A → Prop) `{!∀ x, Decision (P x)}.

Lemma filter_none (l : list A) : Forall (λ x, ¬ P x) l → filter P l = [].
Proof.
  induction 1 as [|x l Hx _ IH]; [done|].
  by rewrite filter_cons, decide_False.
Qed.

Lemma filter_all (l : list A) : Forall P l → filter P l = l.
Proof.
  induction 1 as [|x l Hx _ IH]; [done|].
  by rewrite filter_cons, decide_True, IH.
Qed.

End list_facts.

Lemma filter_fmap {A B : Type} (f : A → B) (P : B → Prop) `{!∀ y, Decision (P y)}
    (l : list A) :
  filter P (f <$> l) = f <$> filter (λ x, P (f x)) l.
Proof.
  induction l as [|x l IH]; [done|].
  rewrite fmap_cons, !filter_cons.
  destruct (decide (P (f x))); by rewrite IH.
Qed.

(** [ORDER BY ... LIMIT n]: the first [n] rows of the sorted list. *)
Section order_by_limit.
Context {A : Type} (R : relation A) `{!RelDecision R, !Transitive R, !Total R}.

Lemma order_by_limit_sorted (l : list A) (n : nat) :
  StronglySorted R (take n (merge_sort R l)).
Proof.
  apply (StronglySorted_app_1_l R _ (drop n (merge_sort R l))).
  rewrite take_drop. by apply StronglySorted_merge_sort.
Qed.

Lemma order_by_limit_length (l : list A) (n : nat) :
  length (take n (merge_sort R l)) = Nat.min n (length l).
Proof. by rewrite length_take, (Permutation_length (merge_sort_Permutation R l)). Qed.

Lemma order_by_limit_submseteq (l : list A) (n : nat) :
  take n (merge_sort R l) ⊆+ l.
Proof.
  rewrite <- (merge_sort_Permutation R l) at 2.
  apply sublist_submseteq, sublist_take.
Qed.

Lemma order_by_limit_elem_of (l : list A) (n : nat) (x : A) :
  x ∈ take n (merge_sort R l) → x ∈ l.
Proof.
  intros Hx. eapply elem_of_submseteq; [exact Hx|apply order_by_limit_submseteq].
Qed.

Lemma order_by_limit_cut (l : list A) (n : nat) (x : A) :
  x ∈ l → x ∉ take n (merge_sort R l) →
  length (take n (merge_sort R l)) = n ∧ ∀ y, y ∈ take n (merge_sort R l) → R y x.
Proof.
  intros Hx Hnot.
  assert (Hd : x ∈ drop n (merge_sort R l)).
  { rewrite <- (merge_sort_Permutation R l), <- (take_drop n (merge_sort R l)) in Hx.
    apply elem_of_app in Hx as [?|?]; done. }
  split.
  - rewrite length_take. apply Nat.min_l.
    destruct (decide (n ≤ length (merge_sort R l))%nat) as [|Hlt]; [done|].
    rewrite drop_ge in Hd by lia. by apply elem_of_nil in Hd.
  - intros y Hy. eapply (StronglySorted_app_1_elem_of R); [|exact Hy|exact Hd].
    rewrite take_drop. by apply StronglySorted_merge_sort.
Qed.

Lemma order_by_limit_all (l : list A) (n : nat) :
  (length l ≤ n)%nat → take n (merge_sort R l) ≡ₚ l.
Proof.
  intros Hn. rewrite take_ge; [apply merge_sort_Permutation|].
  by rewrite (Permutation_length (merge_sort_Permutation R l)).
Qed.

End order_by_limit.

Lemma filter_key_unique {A B : Type} `{EqDecision B} (f : A → B) (l : list A)
    (x : A) (k : B) :
  NoDup (f <$> l) → x ∈ l → f x = k → filter (λ y, f y = k) l = [x].
Proof.
  intros Hl Hx <-. revert Hl Hx.
  induction l as [|y l IH]; [by intros _ ?%elem_of_nil|].
  rewrite fmap_cons, NoDup_cons, elem_of_cons, filter_cons.
  intros [Hy Hl] [->|Hx].
  - rewrite decide_True by done. f_equal. apply filter_none, Forall_forall.
    intros z Hz Heq. apply Hy. rewrite <- Heq. by apply list_elem_of_fmap_2.
  - rewrite decide_False; [by apply IH|].
    intros Heq. apply Hy. rewrite Heq. by apply list_elem_of_fmap_2.
Qed.

Lemma filter_key_missing {A B : Type} `{EqDecision B} (f : A → B) (l : list A) (k : B) :
  k ∉ f <$> l → filter (λ y, f y = k) l = [].
Proof.
  intros Hk. apply filter_none, Forall_forall. intros y Hy Heq.
  apply Hk. rewrite <- Heq. by apply list_elem_of_fmap_2.
Qed.

(** ** Lookups *)

Lemma get_device_by_id_found (s : AsyncSession) (d : IoTDevice.t) :
  unique_ids (pending s) → d ∈ iot_devices (pending s) →
  iot_crud.get_device_by_id (IoTDevice.id d) s = (inr (Some d), s).
Proof.
  intros Hu Hd. unfold iot_crud.get_device_by_id. run_async.
  by rewrite (filter_key_unique IoTDevice.id _ d _ Hu Hd eq_refl).
Qed.

Lemma get_device_by_id_missing (s : AsyncSession) (device_id : Z) :
  device_id ∉ IoTDevice.id <$> iot_devices (pending s) →
  iot_crud.get_device_by_id device_id s = (inr None, s).
Proof.
  intros Hd. unfold iot_crud.get_device_by_id. run_async.
  by rewrite (filter_key_missing IoTDevice.id _ _ Hd).
Qed.

Lemma get_device_by_id_inv (s s' : AsyncSession) (device_id : Z) r :
  iot_crud.get_device_by_id device_id s = (inr r, s') →
  s' = s ∧
  match r with
  | Some d => d ∈ iot_devices (pending s) ∧ IoTDevice.id d = device_id
              ∧ filter (λ d, IoTDevice.id d = device_id) (iot_devices (pending s)) = [d]
  | None => device_id ∉ IoTDevice.id <$> iot_devices (pending s)
  end.
Proof.
  unfold iot_crud.get_device_by_id. run_async.
  destruct (filter _ _) as [|d [|? ?]] eqn:E; cbv beta; intros ?; simplify_eq;
    split; try done.
  - intros (d & ? & Hd)%list_elem_of_fmap.
    eapply (filter_nil_not_elem_of _ _ d); [exact E| |exact Hd]. done.
  - assert (Hin : d ∈ [d]) by left. rewrite <- E in Hin.
    apply list_elem_of_filter in Hin as [? ?]. done.
Qed.

Lemma get_device_by_device_id_found (s : AsyncSession) (d : IoTDevice.t) :
  unique_device_ids (pending s) → d ∈ iot_devices (pending s) →
  iot_crud.get_device_by_device_id (IoTDevice.device_id d) s = (inr (Some d), s).
Proof.
  intros Hu Hd. unfold iot_crud.get_device_by_device_id. run_async.
  by rewrite (filter_key_unique IoTDevice.device_id _ d _ Hu Hd eq_refl).
Qed.

Lemma get_farm_by_id_owned (farm_id owner_id : Z) (s : AsyncSession) :
  owns_farm (pending s) owner_id farm_id →
  ∃ f, farm_crud.get_farm_by_id farm_id owner_id s = (inr (Some f), s).
Proof.
  intros (f & Hf & Hid & Hown)%Exists_exists. unfold farm_crud.get_farm_by_id. run_async.
  destruct (filter _ _) as [|f' l] eqn:E; [|by eexists].
  exfalso. eapply (filter_nil_not_elem_of _ _ f); [exact E| |exact Hf]. done.
Qed.

Lemma get_farm_by_id_not_owned (farm_id owner_id : Z) (s : AsyncSession) :
  ¬ owns_farm (pending s) owner_id farm_id →
  farm_crud.get_farm_by_id farm_id owner_id s = (inr None, s).
Proof.
  intros Hn. unfold farm_crud.get_farm_by_id. run_async.
  destruct (filter _ _) as [|f l] eqn:E; [done|].
  exfalso. apply Hn, Exists_exists. exists f.
  assert (Hin : f ∈ f :: l) by left. rewrite <- E in Hin.
  apply list_elem_of_filter in Hin as [[? ?] ?]. done.
Qed.

(** ** Liveness sweep *)

Lemma stale_lapsed utcnow timeout_minutes d :
  iot_crud.stale (utcnow - timedelta_minutes timeout_minutes) d = true
  ↔ lapsed utcnow timeout_minutes d.
Proof.
  unfold iot_crud.stale, lapsed, is_true, before, timedelta_minutes.
  replace (timeout_minutes * 60 * 1000000) with (timeout_minutes * 60000000) by lia.
  destruct (IoTDevice.is_online d) as [[]|], (IoTDevice.last_seen d) as [t|];
    simpl; rewrite ?bool_decide_eq_true; intuition congruence.
Qed.

Lemma mark_offline_devices_run utcnow timeout_minutes s :
  iot_crud.mark_offline_devices utcnow timeout_minutes s =
  (inr (Z.of_nat (length (filter (lapsed utcnow timeout_minutes) (iot_devices (pending s))))),
   mkSession (committed s)
     (with_iot_devices
        ((λ d, if decide (lapsed utcnow timeout_minutes d)
               then IoTDevice.set_is_online (Some false) d else d)
           <$> iot_devices (pending s)) (pending s))).
Proof.
  unfold iot_crud.mark_offline_devices, mbind, Async_bind, select, modify, mret, Async_ret.
  simpl. f_equal.
  - do 3 f_equal. apply list_filter_iff. intros d. apply stale_lapsed.
  - f_equal. f_equal. apply list_fmap_ext. intros _ d _.
    destruct (decide (lapsed utcnow timeout_minutes d)) as [H|H].
    + apply stale_lapsed in H. by rewrite H.
    + destruct (iot_crud.stale _ d) eqn:E; [|done].
      apply stale_lapsed in E. done.
Qed.

Lemma sweep_changes_lapsed utcnow timeout_minutes (ds : list IoTDevice.t) :
  length (filter (lapsed utcnow timeout_minutes) ds) =
  length (filter (λ p : IoTDevice.t * IoTDevice.t, p.1 ≠ p.2)
    (zip ds ((λ d, if decide (lapsed utcnow timeout_minutes d)
                   then IoTDevice.set_is_online (Some false) d else d) <$> ds))).
Proof.
  induction ds as [|d ds IH]; [done|].
  cbn [fmap list_fmap zip zip_with]. rewrite !filter_cons. cbn [fst snd].
  destruct (decide (lapsed utcnow timeout_minutes d)) as [H|H].
  - rewrite decide_True; [simpl; by rewrite IH|].
    destruct H as [H _]. destruct d; simpl in *. unfold IoTDevice.set_is_online.
    simpl. congruence.
  - rewrite decide_False; [done|]. intros Hne. by apply Hne.
Qed.

(** C3.  A sweep run at [utcnow] with [timeout_minutes] returns the number
    of devices that are online with [last_seen] older than
    [utcnow - timeout_minutes]; it sets [is_online] to false on exactly
    those and changes nothing else of them, leaves every other device as
    it was, never changes a [last_seen], touches no other table and
    commits nothing; the number returned is the number of rows that
    changed. *)
Theorem mark_offline_devices_exact (utcnow timeout_minutes : Z) (s : AsyncSession) :
  ∃ (n : Z) (s' : AsyncSession),
    iot_crud.mark_offline_devices utcnow timeout_minutes s = (inr n, s')
    ∧ n = Z.of_nat (length (filter (lapsed utcnow timeout_minutes) (iot_devices (pending s))))
    ∧ Forall2 (λ d d',
        (lapsed utcnow timeout_minutes d →
           d' = IoTDevice.mk (IoTDevice.id d) (IoTDevice.farm_id d) (IoTDevice.device_id d)
                  (Some false) (IoTDevice.last_seen d) (IoTDevice.mqtt_topic d)
                  (IoTDevice.created_at d))
        ∧ (¬ lapsed utcnow timeout_minutes d → d' = d)
        ∧ IoTDevice.last_seen d' = IoTDevice.last_seen d)
        (iot_devices (pending s)) (iot_devices (pending s'))
    ∧ n = Z.of_nat (length (filter (λ p : IoTDevice.t * IoTDevice.t, p.1 ≠ p.2)
                      (zip (iot_devices (pending s)) (iot_devices (pending s')))))
    ∧ farms (pending s') = farms (pending s)
    ∧ sensor_readings (pending s') = sensor_readings (pending s)
    ∧ committed s' = committed s.
Proof.
  eexists _, _. split; [apply mark_offline_devices_run|].
  cbn [pending committed with_iot_devices iot_devices farms sensor_readings].
  split_and!; try done.
  - apply Forall2_fmap_r, Forall_Forall2_diag, Forall_forall. intros d _.
    unfold compose. destruct (decide (lapsed utcnow timeout_minutes d));
      split_and!; intros; done.
  - f_equal. f_equal. apply sweep_changes_lapsed.
Qed.

Lemma sweep_twice_no_newly_stale utcnow1 utcnow2 timeout_minutes (ds : list IoTDevice.t) :
  Forall (λ d, ¬ newly_stale utcnow1 utcnow2 timeout_minutes d) ds →
  let ds1 := (λ d, if decide (lapsed utcnow1 timeout_minutes d)
                   then IoTDevice.set_is_online (Some false) d else d) <$> ds in
  Forall (λ d, ¬ lapsed utcnow2 timeout_minutes d) ds1.
Proof.
  intros Hns ds1. subst ds1. apply Forall_fmap. eapply Forall_impl; [exact Hns|].
  intros d Hd. simpl. destruct (decide (lapsed utcnow1 timeout_minutes d)) as [H|H].
  - unfold lapsed, IoTDevice.set_is_online. simpl. intros [? _]. done.
  - intros H2. unfold lapsed, newly_stale in *.
    destruct H2 as [Hon H2]. destruct (IoTDevice.last_seen d) as [t|]; [|done].
    destruct (decide (t < utcnow1 - timeout_minutes * 60000000)).
    + apply H. done.
    + apply Hd. split; [done|lia].
Qed.

Lemma sweep_nothing_lapsed utcnow timeout_minutes (s : AsyncSession) :
  Forall (λ d, ¬ lapsed utcnow timeout_minutes d) (iot_devices (pending s)) →
  iot_crud.mark_offline_devices utcnow timeout_minutes s = (inr 0, s).
Proof.
  intros H. rewrite mark_offline_devices_run. f_equal.
  - f_equal. by rewrite filter_none.
  - destruct s as [c p]. simpl in *. f_equal. destruct p. unfold with_iot_devices. simpl in *.
    f_equal. rewrite <- (list_fmap_id iot_devices0) at 2.
    apply Forall_fmap_ext_1. eapply Forall_impl; [exact H|].
    intros d Hd. simpl. by rewrite decide_False.
Qed.

(** C4 (as amended).  When no online device becomes stale between two
    sweeps with the same timeout (in particular when both read the same
    clock value), and nothing else happens in between, the second sweep
    marks zero devices and leaves the state reached after the first one
    unchanged. *)
Theorem mark_offline_devices_idempotent (utcnow1 utcnow2 timeout_minutes : Z)
    (s : AsyncSession) :
  Forall (λ d, ¬ newly_stale utcnow1 utcnow2 timeout_minutes d) (iot_devices (pending s)) →
  iot_crud.mark_offline_devices utcnow2 timeout_minutes
    (iot_crud.mark_offline_devices utcnow1 timeout_minutes s).2
  = (inr 0, (iot_crud.mark_offline_devices utcnow1 timeout_minutes s).2).
Proof.
  intros H. apply sweep_nothing_lapsed. rewrite mark_offline_devices_run.
  cbn [snd pending with_iot_devices iot_devices].
  by apply sweep_twice_no_newly_stale.
Qed.

(** The same at one clock value: no hypothesis is needed. *)
Lemma sweep_same_instant_marks_nothing (utcnow timeout_minutes : Z)
    (s : AsyncSession) :
  iot_crud.mark_offline_devices utcnow timeout_minutes
    (iot_crud.mark_offline_devices utcnow timeout_minutes s).2
  = (inr 0, (iot_crud.mark_offline_devices utcnow timeout_minutes s).2).
Proof.
  apply sweep_nothing_lapsed. rewrite mark_offline_devices_run.
  cbn [snd pending with_iot_devices iot_devices].
  apply sweep_twice_no_newly_stale, Forall_forall. intros d _ [_ H].
  destruct (IoTDevice.last_seen d); [lia|done].
Qed.

Lemma mark_offline_devices_idempotent_witness :
  Forall (λ d, ¬ newly_stale (noon + minute) (noon + 5 * minute) 30 d)
         (iot_devices (pending (open_session db_devices)))
  ∧ iot_crud.mark_offline_devices (noon + 5 * minute) 30
      (iot_crud.mark_offline_devices (noon + minute) 30 (open_session db_devices)).2
    = (inr 0, (iot_crud.mark_offline_devices (noon + minute) 30
                 (open_session db_devices)).2).
Proof.
  assert (H : Forall (λ d, ¬ newly_stale (noon + minute) (noon + 5 * minute) 30 d)
                (iot_devices (pending (open_session db_devices)))) by compute_done.
  split; [exact H|].
  apply (mark_offline_devices_idempotent (noon + minute) (noon + 5 * minute) 30
           (open_session db_devices) H).
Defined.

(** C4 (as stated) fails when the clock advances between the two sweeps:
    device B, last seen exactly 30 minutes before noon, survives the
    sweep of noon and is marked by the one run a microsecond later. *)
Lemma mark_offline_devices_not_idempotent :
  let s1 := (iot_crud.mark_offline_devices noon 30 (open_session db_devices)).2 in
  let s2 := (iot_crud.mark_offline_devices (noon + 1) 30 s1).2 in
  (iot_crud.mark_offline_devices noon 30 (open_session db_devices)).1 = inr 1
  ∧ (iot_crud.mark_offline_devices (noon + 1) 30 s1).1 = inr 1
  ∧ s2 ≠ s1
  ∧ iot_devices (pending s1) = [IoTDevice.set_is_online (Some false) device_A; device_B; device_C]
  ∧ iot_devices (pending s2)
    = [IoTDevice.set_is_online (Some false) device_A;
       IoTDevice.set_is_online (Some false) device_B; device_C].
Proof. vm_compute. split_and!; try done. Qed.

(** ** Reading ingestion refreshes liveness *)

(** What a successful ingestion leaves behind. *)
Lemma create_sensor_reading_effect
    (now_timestamp utcnow_status : Time) (reading_in : SensorReadingCreate.t)
    (s s' : AsyncSession) (r : SensorReading.t) :
  iot_crud.create_sensor_reading now_timestamp utcnow_status reading_in s = (inr r, s') →
  Forall2 (λ d d',
      (IoTDevice.id d = SensorReadingCreate.device_id reading_in →
         d' = IoTDevice.mk (IoTDevice.id d) (IoTDevice.farm_id d) (IoTDevice.device_id d)
                (Some true) (Some utcnow_status) (IoTDevice.mqtt_topic d)
                (IoTDevice.created_at d))
      ∧ (IoTDevice.id d ≠ SensorReadingCreate.device_id reading_in → d' = d))
    (iot_devices (pending s)) (iot_devices (pending s'))
  ∧ (∃ d, d ∈ iot_devices (pending s)
          ∧ IoTDevice.id d = SensorReadingCreate.device_id reading_in)
  ∧ sensor_readings (pending s') = sensor_readings (pending s) ++ [r]
  ∧ SensorReading.device_id r = Some (SensorReadingCreate.device_id reading_in)
  ∧ SensorReading.timestamp r = now_timestamp.
Proof.
  unfold iot_crud.create_sensor_reading, iot_crud.update_device_status. run_async.
  destruct (iot_crud.insert_reading_ok _ _) eqn:Hok; [|done].
  cbn [iot_devices with_iot_devices] in *.
  intros Hrun.
  assert (Hs : r = SensorReading.mk (sensor_readings_id_seq (pending s))
                 (Some (SensorReadingCreate.device_id reading_in)) now_timestamp
                 (SensorReadingCreate.feed_rate reading_in)
                 (SensorReadingCreate.water_intake reading_in)
                 (SensorReadingCreate.temperature reading_in)
                 (SensorReadingCreate.humidity reading_in)
                 (SensorReadingCreate.avg_weight reading_in)
                 (SensorReadingCreate.ammonia_level reading_in)
                 (SensorReadingCreate.lux_level reading_in)
               ∧ pending s' = mkDatabase (farms (pending s))
                   ((λ d, if bool_decide (IoTDevice.id d = SensorReadingCreate.device_id reading_in)
                          then IoTDevice.set_last_seen (Some utcnow_status)
                                 (IoTDevice.set_is_online (Some true) d)
                          else d) <$> iot_devices (pending s))
                   (sensor_readings (pending s) ++ [r])
                   (iot_devices_id_seq (pending s))
                   (sensor_readings_id_seq (pending s) + 1)).
  { destruct (filter _ _) as [|? [|? ?]] in Hrun; run_async; simpl in Hrun;
      simplify_eq; done. }
  clear Hrun. destruct Hs as [-> Hs']. rewrite Hs'. cbn [iot_devices sensor_readings].
  split_and!; try done.
  - apply Forall2_fmap_r, Forall_Forall2_diag, Forall_forall. intros d _.
    unfold compose. case_bool_decide; split; intros; done.
  - unfold iot_crud.insert_reading_ok in Hok. cbn in Hok.
    apply bool_decide_eq_true in Hok. apply list_elem_of_fmap in Hok as (d & ? & ?).
    by exists d.
Qed.

Lemma update_device_status_ids (utcnow : Time) (device_id : Z) (b : bool)
    (ds : list IoTDevice.t) :
  IoTDevice.id <$>
    ((λ d, if bool_decide (IoTDevice.id d = device_id)
           then IoTDevice.set_last_seen (Some utcnow) (IoTDevice.set_is_online (Some b) d)
           else d) <$> ds)
  = IoTDevice.id <$> ds.
Proof.
  rewrite <- list_fmap_compose. apply list_fmap_ext. intros _ d _.
  unfold compose. by case_bool_decide.
Qed.

(** Ingestion does succeed for a device that exists. *)
Lemma create_sensor_reading_succeeds
    (now_timestamp utcnow_status : Time) (reading_in : SensorReadingCreate.t)
    (s : AsyncSession) (d : IoTDevice.t) :
  unique_ids (pending s) → d ∈ iot_devices (pending s) →
  IoTDevice.id d = SensorReadingCreate.device_id reading_in →
  ∃ r s', iot_crud.create_sensor_reading now_timestamp utcnow_status reading_in s
          = (inr r, s').
Proof.
  intros Hu Hd Hid.
  unfold iot_crud.create_sensor_reading, iot_crud.update_device_status. run_async.
  unfold iot_crud.insert_reading_ok. cbn [SensorReading.device_id].
  rewrite bool_decide_eq_true_2
    by (rewrite <- Hid; by apply list_elem_of_fmap_2).
  cbn [iot_devices with_iot_devices]. rewrite <- Hid.
  set (g := λ d0 : IoTDevice.t, if bool_decide (IoTDevice.id d0 = IoTDevice.id d)
        then IoTDevice.set_last_seen (Some utcnow_status)
               (IoTDevice.set_is_online (Some true) d0) else d0).
  assert (Hg : IoTDevice.id (g d) = IoTDevice.id d)
    by (unfold g; by rewrite bool_decide_eq_true_2).
  rewrite (filter_key_unique IoTDevice.id (g <$> iot_devices (pending s)) (g d)).
  - by eexists _, _.
  - unfold g. by rewrite update_device_status_ids.
  - by apply list_elem_of_fmap_2.
  - done.
Qed.

(** The handler of [POST /readings] commits what the ingestion did. *)
Lemma record_sensor_reading_commits
    (now_timestamp utcnow_status : Time) (reading_in : SensorReadingCreate.t)
    (s s' : AsyncSession) (r : SensorReading.t) :
  iot_api.record_sensor_reading now_timestamp utcnow_status reading_in s = (inr r, s') →
  ∃ s1, iot_crud.create_sensor_reading now_timestamp utcnow_status reading_in s = (inr r, s1)
        ∧ s' = mkSession (pending s1) (pending s1).
Proof.
  unfold iot_api.record_sensor_reading. unfold mbind at 1, Async_bind at 1.
  destruct (iot_crud.get_device_by_id _ s) as [[e|[d|]] s0] eqn:E; try done.
  apply get_device_by_id_inv in E as [-> _].
  unfold mbind at 1, Async_bind at 1.
  destruct (iot_crud.create_sensor_reading _ _ _ s) as [[e|r'] s1]; [done|].
  run_async. intros ?; simplify_eq. by eexists.
Qed.

(** C2.  A successful ingestion leaves, in place of every device row with
    the id of the reading, the same row with [is_online] true and
    [last_seen] the clock value read by the status update of that
    ingestion, whatever [is_online] was before; such a row exists; every
    other device is unchanged; and the reading is appended with the
    timestamp read when it was created.  For a device that exists the
    ingestion does succeed, and the handler of [POST /readings] commits
    what it did. *)
Theorem create_sensor_reading_refreshes_liveness
    (now_timestamp utcnow_status : Time) (reading_in : SensorReadingCreate.t)
    (s : AsyncSession) :
  (∀ r s',
     iot_crud.create_sensor_reading now_timestamp utcnow_status reading_in s = (inr r, s') →
     Forall2 (λ d d',
         (IoTDevice.id d = SensorReadingCreate.device_id reading_in →
            d' = IoTDevice.mk (IoTDevice.id d) (IoTDevice.farm_id d) (IoTDevice.device_id d)
                   (Some true) (Some utcnow_status) (IoTDevice.mqtt_topic d)
                   (IoTDevice.created_at d))
         ∧ (IoTDevice.id d ≠ SensorReadingCreate.device_id reading_in → d' = d))
       (iot_devices (pending s)) (iot_devices (pending s'))
     ∧ (∃ d, d ∈ iot_devices (pending s)
             ∧ IoTDevice.id d = SensorReadingCreate.device_id reading_in)
     ∧ sensor_readings (pending s') = sensor_readings (pending s) ++ [r]
     ∧ SensorReading.device_id r = Some (SensorReadingCreate.device_id reading_in)
     ∧ SensorReading.timestamp r = now_timestamp)
  ∧ (∀ d, unique_ids (pending s) → d ∈ iot_devices (pending s) →
       IoTDevice.id d = SensorReadingCreate.device_id reading_in →
       ∃ r s', iot_crud.create_sensor_reading now_timestamp utcnow_status reading_in s
               = (inr r, s'))
  ∧ (∀ r s',
       iot_api.record_sensor_reading now_timestamp utcnow_status reading_in s = (inr r, s') →
       ∃ s1, iot_crud.create_sensor_reading now_timestamp utcnow_status reading_in s
             = (inr r, s1)
         ∧ committed s' = pending s1 ∧ pending s' = pending s1).
Proof.
  split_and!.
  - intros r s'. apply create_sensor_reading_effect.
  - intros d. apply create_sensor_reading_succeeds.
  - intros r s' (s1 & Hrun & ->)%record_sensor_reading_commits. by exists s1.
Qed.

Lemma create_sensor_reading_refreshes_liveness_witness :
  iot_crud.create_sensor_reading noon (noon + 1) reading_C (open_session db_devices)
    = (inr stored_reading_C, session_after_reading_C)
  ∧ IoTDevice.is_online device_C = Some false
  ∧ Forall2 (λ d d',
      (IoTDevice.id d = SensorReadingCreate.device_id reading_C →
         d' = IoTDevice.mk (IoTDevice.id d) (IoTDevice.farm_id d) (IoTDevice.device_id d)
                (Some true) (Some (noon + 1)) (IoTDevice.mqtt_topic d)
                (IoTDevice.created_at d))
      ∧ (IoTDevice.id d ≠ SensorReadingCreate.device_id reading_C → d' = d))
    (iot_devices (pending (open_session db_devices)))
    (iot_devices (pending session_after_reading_C)).
Proof.
  assert (H : iot_crud.create_sensor_reading noon (noon + 1) reading_C
                (open_session db_devices)
              = (inr stored_reading_C, session_after_reading_C))
    by (vm_compute; reflexivity).
  split; [exact H|]. split; [reflexivity|].
  pose proof (create_sensor_reading_refreshes_liveness noon (noon + 1) reading_C
                (open_session db_devices)) as (Heffect & _).
  exact (proj1 (Heffect stored_reading_C session_after_reading_C H)).
Defined.

(** ** Statistics *)

Lemma float_if_truthy_None (x : option Qc) :
  float_if_truthy x = None ↔ x = None ∨ x = Some 0%Qc.
Proof.
  unfold float_if_truthy. destruct x as [v|]; [|by split; [left|]].
  case_bool_decide; split.
  - subst. by right.
  - done.
  - done.
  - intros [?|?]; congruence.
Qed.

Lemma float_if_truthy_Some (x : option Qc) (v : Qc) :
  float_if_truthy x = Some v ↔ x = Some v ∧ v ≠ 0%Qc.
Proof.
  unfold float_if_truthy. destruct x as [w|]; [|by split; [|intros [? _]]].
  case_bool_decide; split.
  - done.
  - intros [? ?]. congruence.
  - intros [= ->]. done.
  - intros [? _]. done.
Qed.

Lemma func_avg_None (col : list (option Qc)) :
  func_avg col = None ↔ non_null col = [].
Proof. unfold func_avg. destruct (non_null col); naive_solver. Qed.

Lemma func_min_None (col : list (option Qc)) :
  func_min col = None ↔ non_null col = [].
Proof. unfold func_min. destruct (non_null col); naive_solver. Qed.

Lemma func_max_None (col : list (option Qc)) :
  func_max col = None ↔ non_null col = [].
Proof. unfold func_max. destruct (non_null col); naive_solver. Qed.

(** What [get_reading_stats] does report for a metric: it is absent when
    the window holds no non-null sample of it, and also when the average
    of the samples is zero; otherwise it is that average. *)
Lemma reported_avg_absent_iff (col : list (option Qc)) :
  float_if_truthy (func_avg col) = None
  ↔ non_null col = [] ∨ func_avg col = Some 0%Qc.
Proof. by rewrite float_if_truthy_None, func_avg_None. Qed.

Lemma reported_avg_value (col : list (option Qc)) (v : Qc) :
  func_avg col = Some v → v ≠ 0%Qc → float_if_truthy (func_avg col) = Some v.
Proof. intros. by apply float_if_truthy_Some. Qed.


(** The scenario of the specification: temperatures 20, 30 and none give
    an average of 25, a minimum of 20, a maximum of 30 and a count of 3. *)
Lemma get_reading_stats_scenario :
  (iot_crud.get_reading_stats noon 1 1 (open_session db_scenario)).1
  = inr (Stats.mk 3 (Some (Q2Qc 25)) (Some (Q2Qc 20)) (Some (Q2Qc 30))
           None None None None None None 1).
Proof. compute_done. Qed.

(** C1 fails on a sample of zero.  Device A has one reading in the window
    and its temperature, 0, is not null; the statistics count the reading
    and report the average, the minimum and the maximum of the
    temperature as absent.  With the samples 0 and 10 the average 5 and
    the maximum 10 are reported and the minimum, 0, is absent. *)
Theorem get_reading_stats_drops_zero :
  non_null (SensorReading.temperature <$> sensor_readings db_zero) = [Q2Qc 0]
  ∧ (iot_crud.get_reading_stats noon 1 1 (open_session db_zero)).1
    = inr (Stats.mk 1 None None None None None None None None None 1)
  ∧ non_null (SensorReading.temperature <$> sensor_readings db_frost) = [Q2Qc 0; Q2Qc 10]
  ∧ (iot_crud.get_reading_stats noon 1 1 (open_session db_frost)).1
    = inr (Stats.mk 2 (Some (Q2Qc 5)) None (Some (Q2Qc 10))
             None None None None None None 1).
Proof. split_and!; compute_done. Qed.

(** ** Registration *)

(** C5 (as amended).  A registration whose [device_id] is the one of a
    registered device fails and creates nothing, the duplicate being
    found before any insert: with 400 and the duplicate named when the
    caller owns the targeted farm, whichever farm that is, and with 404
    when the caller does not own it. *)
Theorem register_device_duplicate (now_last_seen now_created_at : Time)
    (device_in : IoTDeviceCreate.t) (current_user : User.t)
    (s : AsyncSession) (d : IoTDevice.t) :
  unique_device_ids (pending s) →
  d ∈ iot_devices (pending s) →
  IoTDevice.device_id d = IoTDeviceCreate.device_id device_in →
  (owns_farm (pending s) (User.id current_user) (IoTDeviceCreate.farm_id device_in) →
     iot_api.register_device now_last_seen now_created_at device_in current_user s
     = (inl (HTTPException 400
               ("Device with ID " +:+ IoTDeviceCreate.device_id device_in
                  +:+ " already exists")), s))
  ∧ (¬ owns_farm (pending s) (User.id current_user) (IoTDeviceCreate.farm_id device_in) →
     iot_api.register_device now_last_seen now_created_at device_in current_user s
     = (inl (HTTPException 404 "Farm not found or access denied"), s)).
Proof.
  intros Hu Hd Hid. unfold iot_api.register_device. split; intros Hown.
  - apply (get_farm_by_id_owned _ _ s) in Hown as [f Hf].
    unfold mbind at 1, Async_bind at 1. rewrite Hf.
    unfold mbind at 1, Async_bind at 1. rewrite <- Hid.
    by rewrite (get_device_by_device_id_found s d Hu Hd).
  - apply (get_farm_by_id_not_owned _ _ s) in Hown.
    unfold mbind at 1, Async_bind at 1. by rewrite Hown.
Qed.

Lemma register_device_duplicate_witness :
  unique_device_ids (pending (open_session db_devices))
  ∧ device_A ∈ iot_devices (pending (open_session db_devices))
  ∧ owns_farm (pending (open_session db_devices)) (User.id user_U2) 2
  ∧ iot_api.register_device noon noon (IoTDeviceCreate.mk 2 "IOT-0001-M" None) user_U2
      (open_session db_devices)
    = (inl (HTTPException 400 "Device with ID IOT-0001-M already exists"),
       open_session db_devices).
Proof.
  assert (Hu : unique_device_ids (pending (open_session db_devices))) by compute_done.
  assert (Hd : device_A ∈ iot_devices (pending (open_session db_devices))) by compute_done.
  assert (Ho : owns_farm (pending (open_session db_devices)) (User.id user_U2) 2)
    by compute_done.
  split_and!; [exact Hu|exact Hd|exact Ho|].
  exact (proj1 (register_device_duplicate noon noon (IoTDeviceCreate.mk 2 "IOT-0001-M" None)
                  user_U2 (open_session db_devices) device_A Hu Hd eq_refl) Ho).
Defined.

(** C5 (as stated) fails: user U2, who does not own farm 1, registers on
    farm 1 the [device_id] of device A and gets 404, not a conflict; so
    does anyone who targets a farm that does not exist. *)
Lemma register_duplicate_on_unowned_farm :
  IoTDevice.device_id device_A = "IOT-0001-M"
  ∧ device_A ∈ iot_devices db_devices
  ∧ iot_api.register_device noon noon (IoTDeviceCreate.mk 1 "IOT-0001-M" None) user_U2
      (open_session db_devices)
    = (inl (HTTPException 404 "Farm not found or access denied"), open_session db_devices)
  ∧ iot_api.register_device noon noon (IoTDeviceCreate.mk 99 "IOT-0001-M" None) user_U1
      (open_session db_devices)
    = (inl (HTTPException 404 "Farm not found or access denied"), open_session db_devices).
Proof. split_and!; compute_done. Qed.

(** ** Partial update *)

Lemma apply_update_fields (device_in : IoTDeviceUpdate.t) (d : IoTDevice.t) :
  iot_crud.apply_update device_in d
  = IoTDevice.mk (IoTDevice.id d) (IoTDevice.farm_id d) (IoTDevice.device_id d)
      (default (IoTDevice.is_online d) (IoTDeviceUpdate.is_online device_in))
      (IoTDevice.last_seen d)
      (default (IoTDevice.mqtt_topic d) (IoTDeviceUpdate.mqtt_topic device_in))
      (IoTDevice.created_at d).
Proof.
  unfold iot_crud.apply_update. destruct d, device_in as [[?|] [?|]]; done.
Qed.

Lemma update_device_inv (device_id : Z) (device_in : IoTDeviceUpdate.t)
    (s s' : AsyncSession) r :
  iot_crud.update_device device_id device_in s = (r, s') →
  match r with
  | inl _ => s' = s
  | inr None => s' = s ∧ device_id ∉ IoTDevice.id <$> iot_devices (pending s)
  | inr (Some d') =>
      ∃ d, d ∈ iot_devices (pending s) ∧ IoTDevice.id d = device_id
        ∧ d' = iot_crud.apply_update device_in d
        ∧ s' = mkSession (committed s)
                 (with_iot_devices
                    ((λ x, if bool_decide (IoTDevice.id x = device_id) then d' else x)
                       <$> iot_devices (pending s)) (pending s))
  end.
Proof.
  unfold iot_crud.update_device. unfold mbind at 1, Async_bind at 1.
  destruct (iot_crud.get_device_by_id device_id s) as [[e|[d|]] s0] eqn:E.
  - unfold iot_crud.get_device_by_id in E. run_async.
    destruct (filter _ _) as [|? [|? ?]]; cbv beta in E; simplify_eq. by intros [= <- <-].
  - apply get_device_by_id_inv in E as [-> (Hd & Hid & _)].
    run_async. destruct (iot_crud.update_device_ok _ _ _).
    + intros [= <- <-]. by exists d.
    + by intros [= <- <-].
  - apply get_device_by_id_inv in E as [-> Hd]. run_async. by intros [= <- <-].
Qed.

(** C6.  An update of a device that does not exist returns nothing and
    changes nothing.  An update that returns a device returns the stored
    one with the supplied fields set and every other field as it was (a
    field that is not supplied keeps its value), stores it in its place,
    and changes no other device, no reading and nothing committed.  For
    an existing device the update does return when the topic it supplies,
    if any, is held by no other device; and an update that raises changes
    nothing. *)
Theorem update_device_partial (device_id : Z) (device_in : IoTDeviceUpdate.t)
    (s : AsyncSession) :
  (device_id ∉ IoTDevice.id <$> iot_devices (pending s) →
     iot_crud.update_device device_id device_in s = (inr None, s))
  ∧ (∀ d' s', iot_crud.update_device device_id device_in s = (inr (Some d'), s') →
       ∃ d, d ∈ iot_devices (pending s) ∧ IoTDevice.id d = device_id
         ∧ d' = IoTDevice.mk (IoTDevice.id d) (IoTDevice.farm_id d) (IoTDevice.device_id d)
                  (match IoTDeviceUpdate.is_online device_in with
                   | Some v => v | None => IoTDevice.is_online d end)
                  (IoTDevice.last_seen d)
                  (match IoTDeviceUpdate.mqtt_topic device_in with
                   | Some v => v | None => IoTDevice.mqtt_topic d end)
                  (IoTDevice.created_at d)
         ∧ Forall2 (λ x x', (IoTDevice.id x = device_id → x' = d')
                            ∧ (IoTDevice.id x ≠ device_id → x' = x))
             (iot_devices (pending s)) (iot_devices (pending s'))
         ∧ sensor_readings (pending s') = sensor_readings (pending s)
         ∧ farms (pending s') = farms (pending s)
         ∧ committed s' = committed s)
  ∧ (∀ d, unique_ids (pending s) → d ∈ iot_devices (pending s) →
       IoTDevice.id d = device_id →
       (∀ topic x, IoTDeviceUpdate.mqtt_topic device_in = Some (Some topic) →
          x ∈ iot_devices (pending s) → IoTDevice.id x ≠ device_id →
          IoTDevice.mqtt_topic x ≠ Some topic) →
       ∃ d' s', iot_crud.update_device device_id device_in s = (inr (Some d'), s'))
  ∧ (∀ e s', iot_crud.update_device device_id device_in s = (inl e, s') → s' = s).
Proof.
  split_and!.
  - intros Hd. unfold iot_crud.update_device. unfold mbind at 1, Async_bind at 1.
    by rewrite get_device_by_id_missing.
  - intros d' s' (d & Hd & Hid & -> & ->)%update_device_inv.
    exists d. rewrite apply_update_fields. split_and!; try done.
    cbn [pending with_iot_devices iot_devices].
    apply Forall2_fmap_r, Forall_Forall2_diag, Forall_forall. intros x _.
    unfold compose. case_bool_decide; split; intros; done.
  - intros d Hu Hd Hid Hfree. unfold iot_crud.update_device.
    unfold mbind at 1, Async_bind at 1. rewrite <- Hid.
    rewrite (get_device_by_id_found s d Hu Hd). run_async.
    assert (Hok : iot_crud.update_device_ok (pending s) d (iot_crud.apply_update device_in d)
                  = true).
    { unfold iot_crud.update_device_ok. rewrite apply_update_fields.
      cbn [IoTDevice.mqtt_topic IoTDevice.id].
      destruct (IoTDeviceUpdate.mqtt_topic device_in) as [[topic|]|] eqn:Et; cbn [default].
      - apply orb_true_intro. right. apply bool_decide_eq_true.
        intros (_ & Hin)%list_elem_of_filter.
        apply list_elem_of_fmap in Hin as (x & Hx & (Hne & Hin)%list_elem_of_filter).
        apply (Hfree topic x); try done. congruence.
      - apply orb_true_intro. right. apply bool_decide_eq_true.
        intros ([? ?] & _)%list_elem_of_filter. done.
      - apply orb_true_intro. left. by apply bool_decide_eq_true. }
    rewrite Hok. by eexists _, _.
  - intros e s' H%update_device_inv. done.
Qed.

Lemma update_device_partial_witness :
  iot_crud.update_device 1 only_topic_x (open_session db_devices)
    = (inr (Some device_A_topic_x), session_topic_x)
  ∧ IoTDevice.is_online device_A_topic_x = IoTDevice.is_online device_A
  ∧ (99 ∉ IoTDevice.id <$> iot_devices (pending (open_session db_devices)))
  ∧ iot_crud.update_device 99 only_topic_x (open_session db_devices)
    = (inr None, open_session db_devices)
  ∧ (∃ d, d ∈ iot_devices (pending (open_session db_devices)) ∧ IoTDevice.id d = 1
      ∧ device_A_topic_x
        = IoTDevice.mk (IoTDevice.id d) (IoTDevice.farm_id d) (IoTDevice.device_id d)
            (IoTDevice.is_online d) (IoTDevice.last_seen d) (Some "x")
            (IoTDevice.created_at d)).
Proof.
  assert (H1 : iot_crud.update_device 1 only_topic_x (open_session db_devices)
               = (inr (Some device_A_topic_x), session_topic_x)) by compute_done.
  assert (H2 : 99 ∉ IoTDevice.id <$> iot_devices (pending (open_session db_devices)))
    by compute_done.
  pose proof (update_device_partial 99 only_topic_x (open_session db_devices)) as (Ha & _).
  pose proof (update_device_partial 1 only_topic_x (open_session db_devices)) as (_ & Hb & _).
  destruct (Hb _ _ H1) as (d & Hd & Hid & Heq & _).
  split_and!; [exact H1|reflexivity|exact H2|exact (Ha H2)|].
  exists d. split_and!; [exact Hd|exact Hid|exact Heq].
Defined.

(** ** Deletion *)

Lemma filter_filter_implied {A : Type} (P Q : A → Prop)
    `{!∀ x, Decision (P x), !∀ x, Decision (Q x)} (l : list A) :
  (∀ x, P x → Q x) → filter P (filter Q l) = filter P l.
Proof.
  intros HPQ. induction l as [|x l IH]; [done|].
  rewrite (filter_cons Q), (filter_cons P).
  destruct (decide (Q x)) as [HQ|HQ].
  - rewrite filter_cons. destruct (decide (P x)); by rewrite IH.
  - rewrite decide_False by (intros HP; by apply HQ, HPQ). done.
Qed.

Lemma filter_filter_excluded {A : Type} (P Q : A → Prop)
    `{!∀ x, Decision (P x), !∀ x, Decision (Q x)} (l : list A) :
  (∀ x, P x → ¬ Q x) → filter P (filter Q l) = [].
Proof.
  intros HPQ. apply filter_none, Forall_forall.
  intros x (HQ & _)%list_elem_of_filter HP. by apply (HPQ x).
Qed.

Lemma delete_device_run (s : AsyncSession) (d : IoTDevice.t) :
  unique_ids (pending s) → d ∈ iot_devices (pending s) →
  iot_crud.delete_device (IoTDevice.id d) s
  = (inr true,
     mkSession (committed s)
       (mkDatabase (farms (pending s))
          (filter (λ x, IoTDevice.id x ≠ IoTDevice.id d) (iot_devices (pending s)))
          (filter (λ r, SensorReading.device_id r ≠ Some (IoTDevice.id d))
             (sensor_readings (pending s)))
          (iot_devices_id_seq (pending s)) (sensor_readings_id_seq (pending s)))).
Proof.
  intros Hu Hd. unfold iot_crud.delete_device. unfold mbind at 1, Async_bind at 1.
  by rewrite (get_device_by_id_found s d Hu Hd).
Qed.

(** C7.  Deleting a device that does not exist returns false and changes
    nothing.  Deleting an existing device returns true; the device is
    gone and the other devices stay; exactly the readings of that device
    are gone, so that its latest reading is none; the latest reading and
    the reading lists of every other device are what they were. *)
Theorem delete_device_cascades (device_id : Z) (s : AsyncSession) :
  (device_id ∉ IoTDevice.id <$> iot_devices (pending s) →
     iot_crud.delete_device device_id s = (inr false, s))
  ∧ (∀ d, unique_ids (pending s) → d ∈ iot_devices (pending s) →
       IoTDevice.id d = device_id →
       ∃ s', iot_crud.delete_device device_id s = (inr true, s')
         ∧ (device_id ∉ IoTDevice.id <$> iot_devices (pending s'))
         ∧ (∀ x, x ∈ iot_devices (pending s') ↔
                 x ∈ iot_devices (pending s) ∧ IoTDevice.id x ≠ device_id)
         ∧ (∀ r, r ∈ sensor_readings (pending s') ↔
                 r ∈ sensor_readings (pending s)
                 ∧ SensorReading.device_id r ≠ Some device_id)
         ∧ iot_crud.get_latest_reading device_id s' = (inr None, s')
         ∧ (∀ other, other ≠ device_id →
              (iot_crud.get_latest_reading other s').1
              = (iot_crud.get_latest_reading other s).1
              ∧ ∀ utcnow hours_back limit,
                  (iot_crud.get_readings_by_device utcnow other hours_back limit s').1
                  = (iot_crud.get_readings_by_device utcnow other hours_back limit s).1)
         ∧ farms (pending s') = farms (pending s)
         ∧ committed s' = committed s).
Proof.
  split.
  - intros Hd. unfold iot_crud.delete_device. unfold mbind at 1, Async_bind at 1.
    by rewrite get_device_by_id_missing.
  - intros d Hu Hd <-. eexists. split; [by apply delete_device_run|].
    cbn [pending committed iot_devices sensor_readings farms].
    split_and!; try done.
    + intros (x & Hx & (? & _)%list_elem_of_filter)%list_elem_of_fmap. done.
    + intros x. rewrite list_elem_of_filter. tauto.
    + intros r. rewrite list_elem_of_filter. tauto.
    + unfold iot_crud.get_latest_reading. run_async. cbn [sensor_readings].
      rewrite filter_filter_excluded; [done|]. intros r ? ?. done.
    + intros other Hne.
      assert (Hf : filter (λ r, SensorReading.device_id r = Some other)
                     (filter (λ r, SensorReading.device_id r ≠ Some (IoTDevice.id d))
                        (sensor_readings (pending s)))
                   = filter (λ r, SensorReading.device_id r = Some other)
                       (sensor_readings (pending s))).
      { apply filter_filter_implied. intros r Hr. rewrite Hr. congruence. }
      split.
      * unfold iot_crud.get_latest_reading. run_async. cbn [sensor_readings].
        rewrite Hf. by destruct (take 1 _) as [|? [|? ?]].
      * intros utcnow hours_back limit.
        unfold iot_crud.get_readings_by_device. run_async. cbn [sensor_readings].
        by rewrite Hf.
Qed.

Lemma delete_device_cascades_witness :
  unique_ids (pending (open_session db_scenario))
  ∧ device_A ∈ iot_devices (pending (open_session db_scenario))
  ∧ (99 ∉ IoTDevice.id <$> iot_devices (pending (open_session db_scenario)))
  ∧ iot_crud.delete_device 99 (open_session db_scenario)
    = (inr false, open_session db_scenario)
  ∧ (∃ s', iot_crud.delete_device 1 (open_session db_scenario) = (inr true, s')
       ∧ iot_crud.get_latest_reading 1 s' = (inr None, s')).
Proof.
  assert (Hu : unique_ids (pending (open_session db_scenario))) by compute_done.
  assert (Hd : device_A ∈ iot_devices (pending (open_session db_scenario)))
    by compute_done.
  assert (Hn : 99 ∉ IoTDevice.id <$> iot_devices (pending (open_session db_scenario)))
    by compute_done.
  pose proof (delete_device_cascades 99 (open_session db_scenario)) as (Ha & _).
  pose proof (delete_device_cascades 1 (open_session db_scenario)) as (_ & Hb).
  destruct (Hb device_A Hu Hd eq_refl) as (s' & Hrun & _ & _ & _ & Hlatest & _).
  split_and!; [exact Hu|exact Hd|exact Hn|exact (Ha Hn)|].
  exists s'. split; [exact Hrun|exact Hlatest].
Defined.

(** ** Reading lists *)

Lemma get_readings_by_device_run (utcnow : Time) (device_id : Z)
    (hours_back : option Z) (limit : nat) (s : AsyncSession) :
  iot_crud.get_readings_by_device utcnow device_id hours_back limit s
  = (inr (take limit (merge_sort timestamp_desc
            (filter (λ r, SensorReading.device_id r = Some device_id
                          ∧ in_window utcnow hours_back r)
                    (sensor_readings (pending s))))), s).
Proof.
  unfold iot_crud.get_readings_by_device. run_async. do 4 f_equal.
  destruct hours_back as [h|]; unfold in_window.
  - rewrite list_filter_filter. apply list_filter_iff. intros r.
    unfold timedelta_hours.
    replace (h * 3600 * 1000000) with (h * 3600000000) by lia. tauto.
  - apply list_filter_iff. intros r. tauto.
Qed.

(** C8.  The list of a device's readings is ordered by descending
    timestamp and is the first [limit] of them: it has [limit] rows or all
    the matching ones if there are fewer; each row is a stored reading of
    the device, inside the window when one is given, taken no more often
    than it is stored; and a matching reading that is left out is left
    out because the list is full of readings that are at least as recent.
    With a window of one hour a reading of two hours ago is left out and
    one of thirty minutes ago matches. *)
Theorem get_readings_by_device_window (utcnow : Time) (device_id : Z)
    (hours_back : option Z) (limit : nat) (s : AsyncSession) :
  ∃ rs, iot_crud.get_readings_by_device utcnow device_id hours_back limit s = (inr rs, s)
    ∧ StronglySorted (λ r1 r2, SensorReading.timestamp r2 ≤ SensorReading.timestamp r1) rs
    ∧ length rs
      = Nat.min limit
          (length (filter (λ r, SensorReading.device_id r = Some device_id
                                ∧ in_window utcnow hours_back r)
                     (sensor_readings (pending s))))
    ∧ rs ⊆+ sensor_readings (pending s)
    ∧ (∀ r, r ∈ rs →
         SensorReading.device_id r = Some device_id
         ∧ ∀ h, hours_back = Some h → utcnow - h * 3600000000 ≤ SensorReading.timestamp r)
    ∧ (∀ r, r ∈ sensor_readings (pending s) →
         SensorReading.device_id r = Some device_id →
         (∀ h, hours_back = Some h → utcnow - h * 3600000000 ≤ SensorReading.timestamp r) →
         r ∈ rs
         ∨ (length rs = limit
            ∧ ∀ r', r' ∈ rs → SensorReading.timestamp r ≤ SensorReading.timestamp r'))
    ∧ (hours_back = Some 1 →
         (∀ r, SensorReading.timestamp r = utcnow - 2 * 3600000000 → r ∉ rs)
         ∧ (∀ r, r ∈ sensor_readings (pending s) →
              SensorReading.device_id r = Some device_id →
              SensorReading.timestamp r = utcnow - 30 * 60000000 →
              (length (filter (λ r, SensorReading.device_id r = Some device_id
                                    ∧ in_window utcnow hours_back r)
                         (sensor_readings (pending s))) ≤ limit)%nat →
              r ∈ rs)).
Proof.
  eexists. split; [apply get_readings_by_device_run|].
  set (matching := filter _ (sensor_readings (pending s))).
  assert (Hin : ∀ r, r ∈ take limit (merge_sort timestamp_desc matching) →
            SensorReading.device_id r = Some device_id
            ∧ ∀ h, hours_back = Some h → utcnow - h * 3600000000 ≤ SensorReading.timestamp r).
  { intros r Hr%order_by_limit_elem_of.
    apply list_elem_of_filter in Hr as [[Hdev Hwin] _]. split; [done|].
    intros h ->. exact Hwin. }
  assert (Hcut : ∀ r, r ∈ sensor_readings (pending s) →
            SensorReading.device_id r = Some device_id →
            (∀ h, hours_back = Some h → utcnow - h * 3600000000 ≤ SensorReading.timestamp r) →
            r ∈ take limit (merge_sort timestamp_desc matching)
            ∨ (length (take limit (merge_sort timestamp_desc matching)) = limit
               ∧ ∀ r', r' ∈ take limit (merge_sort timestamp_desc matching) →
                   SensorReading.timestamp r ≤ SensorReading.timestamp r')).
  { intros r Hr Hdev Hwin.
    destruct (decide (r ∈ take limit (merge_sort timestamp_desc matching))) as [|Hnot];
      [by left|right].
    apply (order_by_limit_cut timestamp_desc matching limit r); [|done].
    apply list_elem_of_filter. split; [|done]. split; [done|].
    unfold in_window. destruct hours_back; [by apply Hwin|done]. }
  split_and!.
  - apply (order_by_limit_sorted timestamp_desc).
  - apply (order_by_limit_length timestamp_desc).
  - etrans; [apply (order_by_limit_submseteq timestamp_desc)|].
    apply sublist_submseteq, sublist_filter.
  - exact Hin.
  - exact Hcut.
  - intros ->. split.
    + intros r Hts Hr. apply Hin in Hr as [_ Hr]. specialize (Hr 1 eq_refl). lia.
    + intros r Hr Hdev Hts Hlen.
      assert (Hm : r ∈ matching).
      { apply list_elem_of_filter. split; [|done]. split; [done|].
        unfold in_window. lia. }
      by rewrite (order_by_limit_all timestamp_desc matching limit Hlen).
Qed.

Lemma get_readings_by_device_window_witness :
  iot_crud.get_readings_by_device noon 1 (Some 1) 100 (open_session db_window)
    = (inr [reading_10min; reading_30min; reading_1h], open_session db_window)
  ∧ iot_crud.get_readings_by_device noon 1 (Some 1) 2 (open_session db_window)
    = (inr [reading_10min; reading_30min], open_session db_window)
  ∧ SensorReading.timestamp reading_2h = noon - 2 * 3600000000
  ∧ SensorReading.timestamp reading_30min = noon - 30 * 60000000
  ∧ (reading_2h ∉ [reading_10min; reading_30min; reading_1h])
  ∧ reading_30min ∈ [reading_10min; reading_30min; reading_1h].
Proof.
  assert (H100 : iot_crud.get_readings_by_device noon 1 (Some 1) 100 (open_session db_window)
                 = (inr [reading_10min; reading_30min; reading_1h], open_session db_window))
    by compute_done.
  assert (H2 : iot_crud.get_readings_by_device noon 1 (Some 1) 2 (open_session db_window)
               = (inr [reading_10min; reading_30min], open_session db_window))
    by compute_done.
  destruct (get_readings_by_device_window noon 1 (Some 1) 100 (open_session db_window))
    as (rs & Hrun & _ & _ & _ & _ & _ & Hscen).
  rewrite H100 in Hrun. injection Hrun as <-.
  destruct (Hscen eq_refl) as [Hout Hin].
  split_and!; [exact H100|exact H2|reflexivity|reflexivity| |].
  - apply (Hout reading_2h). reflexivity.
  - apply (Hin reading_30min); [compute_done|reflexivity|reflexivity|].
    vm_compute. lia.
Defined.

(** ** Ownership checks of the per-device handlers *)

Lemma get_owned_device_missing (device_id : Z) (current_user : User.t) (s : AsyncSession) :
  device_id ∉ IoTDevice.id <$> iot_devices (pending s) →
  iot_api.get_owned_device device_id current_user s
  = (inl (HTTPException 404 "Device not found"), s).
Proof.
  intros Hd. unfold iot_api.get_owned_device. unfold mbind at 1, Async_bind at 1.
  by rewrite get_device_by_id_missing.
Qed.

Lemma get_owned_device_forbidden (d : IoTDevice.t) (current_user : User.t)
    (s : AsyncSession) :
  unique_ids (pending s) → d ∈ iot_devices (pending s) →
  ¬ owns_farm (pending s) (User.id current_user) (IoTDevice.farm_id d) →
  iot_api.get_owned_device (IoTDevice.id d) current_user s
  = (inl (HTTPException 403 "Access denied"), s).
Proof.
  intros Hu Hd Hown. unfold iot_api.get_owned_device. unfold mbind at 1, Async_bind at 1.
  rewrite (get_device_by_id_found s d Hu Hd).
  unfold mbind at 1, Async_bind at 1.
  by rewrite (get_farm_by_id_not_owned _ _ s Hown).
Qed.

Lemma get_owned_device_owned (d : IoTDevice.t) (current_user : User.t) (s : AsyncSession) :
  unique_ids (pending s) → d ∈ iot_devices (pending s) →
  owns_farm (pending s) (User.id current_user) (IoTDevice.farm_id d) →
  iot_api.get_owned_device (IoTDevice.id d) current_user s = (inr d, s).
Proof.
  intros Hu Hd Hown. unfold iot_api.get_owned_device. unfold mbind at 1, Async_bind at 1.
  rewrite (get_device_by_id_found s d Hu Hd).
  unfold mbind at 1, Async_bind at 1.
  by destruct (get_farm_by_id_owned _ _ s Hown) as [f ->].
Qed.

(** Every per-device handler starts with the two checks, and raises what
    they raise. *)
Lemma per_device_handlers_reject (device_id : Z) (current_user : User.t)
    (s : AsyncSession) (e : Exception)
    (device_in : IoTDeviceUpdate.t) (utcnow utcnow' : Time)
    (hours_back : option Z) (hours : Z) (limit : nat) :
  iot_api.get_owned_device device_id current_user s = (inl e, s) →
  rejects (iot_api.get_device device_id current_user) e s
  ∧ rejects (iot_api.update_device device_id device_in current_user) e s
  ∧ rejects (iot_api.delete_device device_id current_user) e s
  ∧ rejects (iot_api.get_device_readings utcnow device_id hours_back limit current_user) e s
  ∧ rejects (iot_api.get_latest_reading device_id current_user) e s
  ∧ rejects (iot_api.get_reading_statistics utcnow utcnow' device_id hours current_user) e s.
Proof.
  intros H. unfold rejects.
  unfold iot_api.get_device, iot_api.update_device, iot_api.delete_device,
    iot_api.get_device_readings, iot_api.get_latest_reading, iot_api.get_reading_statistics.
  split_and!; unfold mbind at 1, Async_bind at 1; by rewrite H.
Qed.

(** C9.  A read, update or delete of a device that does not exist raises
    404, and one of a device whose farm the caller does not own raises
    403; in both cases the session is handed back as it was, so that no
    device and no reading has changed, in the transaction or in what is
    committed. *)
Theorem per_device_requests_abort (device_id : Z) (current_user : User.t)
    (s : AsyncSession) (device_in : IoTDeviceUpdate.t) (utcnow utcnow' : Time)
    (hours_back : option Z) (hours : Z) (limit : nat) :
  (device_id ∉ IoTDevice.id <$> iot_devices (pending s) →
     let e := HTTPException 404 "Device not found" in
     rejects (iot_api.get_device device_id current_user) e s
     ∧ rejects (iot_api.update_device device_id device_in current_user) e s
     ∧ rejects (iot_api.delete_device device_id current_user) e s
     ∧ rejects (iot_api.get_device_readings utcnow device_id hours_back limit current_user) e s
     ∧ rejects (iot_api.get_latest_reading device_id current_user) e s
     ∧ rejects (iot_api.get_reading_statistics utcnow utcnow' device_id hours current_user) e s)
  ∧ (∀ d, unique_ids (pending s) → d ∈ iot_devices (pending s) →
       IoTDevice.id d = device_id →
       ¬ owns_farm (pending s) (User.id current_user) (IoTDevice.farm_id d) →
       let e := HTTPException 403 "Access denied" in
       rejects (iot_api.get_device device_id current_user) e s
       ∧ rejects (iot_api.update_device device_id device_in current_user) e s
       ∧ rejects (iot_api.delete_device device_id current_user) e s
       ∧ rejects (iot_api.get_device_readings utcnow device_id hours_back limit current_user) e s
       ∧ rejects (iot_api.get_latest_reading device_id current_user) e s
       ∧ rejects (iot_api.get_reading_statistics utcnow utcnow' device_id hours current_user) e s).
Proof.
  split.
  - intros Hd e. apply per_device_handlers_reject.
    by apply get_owned_device_missing.
  - intros d Hu Hd <- Hown e. apply per_device_handlers_reject.
    by apply get_owned_device_forbidden.
Qed.

(** What the store holds after such a request is what it held before. *)
Lemma rejects_run_request {A : Type} (handler : Async A) (e : Exception) (db : Database) :
  rejects handler e (open_session db) → run_request handler db = (inl e, db).
Proof. unfold rejects, run_request, open_session. by intros ->. Qed.

Lemma per_device_requests_abort_witness :
  (99 ∉ IoTDevice.id <$> iot_devices (pending (open_session db_scenario)))
  ∧ unique_ids (pending (open_session db_scenario))
  ∧ device_A ∈ iot_devices (pending (open_session db_scenario))
  ∧ ¬ owns_farm (pending (open_session db_scenario)) (User.id user_U2)
        (IoTDevice.farm_id device_A)
  ∧ rejects (iot_api.delete_device 99 user_U1) (HTTPException 404 "Device not found")
      (open_session db_scenario)
  ∧ rejects (iot_api.delete_device 1 user_U2) (HTTPException 403 "Access denied")
      (open_session db_scenario)
  ∧ rejects (iot_api.update_device 1 only_topic_x user_U2) (HTTPException 403 "Access denied")
      (open_session db_scenario)
  ∧ rejects (iot_api.get_device 1 user_U2) (HTTPException 403 "Access denied")
      (open_session db_scenario).
Proof.
  assert (Hn : 99 ∉ IoTDevice.id <$> iot_devices (pending (open_session db_scenario)))
    by compute_done.
  assert (Hu : unique_ids (pending (open_session db_scenario))) by compute_done.
  assert (Hd : device_A ∈ iot_devices (pending (open_session db_scenario)))
    by compute_done.
  assert (Ho : ¬ owns_farm (pending (open_session db_scenario)) (User.id user_U2)
                   (IoTDevice.farm_id device_A)) by compute_done.
  pose proof (per_device_requests_abort 99 user_U1 (open_session db_scenario)
                only_topic_x noon noon (Some 1) 1 100) as (H404 & _).
  pose proof (per_device_requests_abort 1 user_U2 (open_session db_scenario)
                only_topic_x noon noon (Some 1) 1 100) as (_ & H403).
  destruct (H404 Hn) as (_ & _ & Hdel404 & _).
  destruct (H403 device_A Hu Hd eq_refl Ho) as (Hget & Hupd & Hdel & _).
  split_and!; [exact Hn|exact Hu|exact Hd|exact Ho|exact Hdel404|exact Hdel|exact Hupd|
               exact Hget].
Defined.

(** ** Device listing *)

Lemma get_latest_reading_run (device_id : Z) (s : AsyncSession) :
  iot_crud.get_latest_reading device_id s
  = (inr (head (merge_sort timestamp_desc
            (filter (λ r, SensorReading.device_id r = Some device_id)
                    (sensor_readings (pending s))))), s).
Proof.
  unfold iot_crud.get_latest_reading. run_async.
  by destruct (merge_sort _ _) as [|? [|? ?]].
Qed.

Lemma mapM_pure {A B : Type} (f : A → Async B) (g : A → B) (l : list A) (s : AsyncSession) :
  (∀ x, f x s = (inr (g x), s)) → mapM f l s = (inr (g <$> l), s).
Proof.
  intros Hf. induction l as [|x l IH]; [done|].
  cbn [mapM]. unfold mbind at 1, Async_bind at 1. rewrite Hf.
  unfold mbind at 1, Async_bind at 1. by rewrite IH.
Qed.

Lemma is_true_Some_true (b : option bool) : is_true b = true ↔ b = Some true.
Proof. destruct b as [[]|]; simpl; intuition congruence. Qed.

Lemma length_filter_complement {A : Type} (P : A → Prop) `{!∀ x, Decision (P x)}
    (l : list A) :
  (length (filter P l) + length (filter (λ x, ¬ P x) l) = length l)%nat.
Proof.
  rewrite <- length_app. apply Permutation_length, filter_app_complement.
Qed.

Lemma list_devices_run (skip limit : nat) (online_only : bool) (current_user : User.t)
    (s : AsyncSession) :
  let filtered :=
    filter (λ d, online_only = true → IoTDevice.is_online d = Some true)
           (iot_devices (pending s)) in
  let page := take limit (drop skip (merge_sort created_desc filtered)) in
  iot_api.list_devices skip limit online_only current_user s
  = (inr (DeviceListResponse.mk
            (Z.of_nat (length filtered))
            ((λ d, IoTDeviceWithReadings.mk d
                     (head (merge_sort timestamp_desc
                        (filter (λ r, SensorReading.device_id r = Some (IoTDevice.id d))
                                (sensor_readings (pending s))))) 0) <$> page)
            skip limit
            (Z.of_nat (length (filter (λ d, IoTDevice.is_online d = Some true) page)))
            (Z.of_nat (length page)
             - Z.of_nat (length (filter (λ d, IoTDevice.is_online d = Some true) page)))), s).
Proof.
  intros filtered page.
  assert (Hq : (if online_only
                then filter (λ d, is_true (IoTDevice.is_online d) = true)
                       (iot_devices (pending s))
                else iot_devices (pending s)) = filtered).
  { unfold filtered. destruct online_only.
    - apply list_filter_iff. intros d. rewrite is_true_Some_true. naive_solver.
    - symmetry. apply filter_all, Forall_forall. intros d _ ?. done. }
  unfold iot_api.list_devices, iot_crud.get_all_devices.
  unfold mbind at 1, Async_bind at 1. run_async. rewrite Hq. fold page.
  erewrite mapM_pure; [|intros d; rewrite get_latest_reading_run; reflexivity].
  do 3 f_equal.
  - do 2 f_equal. apply list_filter_iff. intros d. apply is_true_Some_true.
  - do 3 f_equal. apply list_filter_iff. intros d. apply is_true_Some_true.
Qed.

(** C10.  The listing always answers; its page is what [skip] and [limit]
    leave of the filtered devices; [online_count] and [offline_count]
    count the online and the other devices of that page, so their sum is
    the number of devices returned; [total] counts the filtered devices
    before pagination, and can be larger than that sum. *)
Theorem list_devices_counts_page :
  (∀ (skip limit : nat) (online_only : bool) (current_user : User.t) (s : AsyncSession),
     ∃ resp, iot_api.list_devices skip limit online_only current_user s = (inr resp, s)
       ∧ DeviceListResponse.online_count resp + DeviceListResponse.offline_count resp
         = Z.of_nat (length (DeviceListResponse.devices resp))
       ∧ DeviceListResponse.online_count resp
         = Z.of_nat (length (filter
             (λ d, IoTDevice.is_online (IoTDeviceWithReadings.device d) = Some true)
             (DeviceListResponse.devices resp)))
       ∧ DeviceListResponse.offline_count resp
         = Z.of_nat (length (filter
             (λ d, IoTDevice.is_online (IoTDeviceWithReadings.device d) ≠ Some true)
             (DeviceListResponse.devices resp)))
       ∧ DeviceListResponse.total resp
         = Z.of_nat (length (filter
             (λ d, online_only = true → IoTDevice.is_online d = Some true)
             (iot_devices (pending s))))
       ∧ length (DeviceListResponse.devices resp)
         = Nat.min limit
             (length (filter (λ d, online_only = true → IoTDevice.is_online d = Some true)
                        (iot_devices (pending s))) - skip)
       ∧ (IoTDeviceWithReadings.device <$> DeviceListResponse.devices resp)
           ⊆+ filter (λ d, online_only = true → IoTDevice.is_online d = Some true)
                (iot_devices (pending s))
       ∧ Z.of_nat (length (DeviceListResponse.devices resp)) ≤ DeviceListResponse.total resp)
  ∧ (∃ resp, iot_api.list_devices 0 2 false user_U1 (open_session db_devices)
             = (inr resp, open_session db_devices)
       ∧ DeviceListResponse.total resp = 3
       ∧ DeviceListResponse.online_count resp = 1
       ∧ DeviceListResponse.offline_count resp = 1
       ∧ IoTDeviceWithReadings.device <$> DeviceListResponse.devices resp
         = [device_C; device_B]).
Proof.
  split.
  - intros skip limit online_only current_user s.
    eexists. split; [apply list_devices_run|].
    cbn [DeviceListResponse.online_count DeviceListResponse.offline_count
         DeviceListResponse.devices DeviceListResponse.total].
    set (filtered := filter _ (iot_devices (pending s))).
    set (page := take limit (drop skip (merge_sort created_desc filtered))).
    set (with_reading := λ d : IoTDevice.t, IoTDeviceWithReadings.mk d _ 0).
    assert (Hfilter : ∀ P : IoTDevice.t → Prop, ∀ HP : (∀ d, Decision (P d)),
              length (filter (λ d, P (IoTDeviceWithReadings.device d)) (with_reading <$> page))
              = length (filter P page)).
    { intros P HP. by rewrite (filter_fmap with_reading _ page), length_fmap. }
    assert (Hlen : length page = Nat.min limit (length filtered - skip)).
    { unfold page. rewrite length_take, length_drop.
      by rewrite (Permutation_length (merge_sort_Permutation created_desc filtered)). }
    rewrite length_fmap.
    pose proof (Hfilter (λ d, IoTDevice.is_online d = Some true) _) as Hon.
    pose proof (Hfilter (λ d, IoTDevice.is_online d ≠ Some true) _) as Hoff.
    cbv beta in Hon, Hoff. rewrite Hon, Hoff. clear Hfilter Hon Hoff.
    pose proof (length_filter_complement (λ d, IoTDevice.is_online d = Some true) page)
      as Hsum.
    cbv beta in Hsum.
    split_and!; try done; try lia.
    rewrite <- list_fmap_compose.
    rewrite (list_fmap_ext (IoTDeviceWithReadings.device ∘ with_reading) id page)
      by done.
    rewrite list_fmap_id. unfold page.
    etrans; [apply sublist_submseteq, sublist_take|].
    etrans; [apply sublist_submseteq, sublist_drop|].
    apply Permutation_submseteq, merge_sort_Permutation.
  - eexists. split; [compute_done|]. split_and!; compute_done.
Qed.

(** ** The repository keeps the store well formed *)

Lemma unique_key_eq {A B : Type} `{EqDecision B} (f : A → B) (l : list A) (x y : A) :
  NoDup (f <$> l) → x ∈ l → y ∈ l → f x = f y → x = y.
Proof.
  intros Hl Hx Hy Hxy.
  assert (Hin : x ∈ filter (λ z, f z = f y) l) by by apply list_elem_of_filter.
  rewrite (filter_key_unique f l y (f y) Hl Hy eq_refl) in Hin.
  by apply list_elem_of_singleton in Hin.
Qed.

Lemma well_formed_fmap (f : IoTDevice.t → IoTDevice.t) (db : Database) :
  (∀ d, d ∈ iot_devices db → IoTDevice.id (f d) = IoTDevice.id d) →
  (∀ d, d ∈ iot_devices db → IoTDevice.device_id (f d) = IoTDevice.device_id d) →
  well_formed db → well_formed (with_iot_devices (f <$> iot_devices db) db).
Proof.
  intros Hid Hdev (Hu & Hd & Hseq).
  unfold well_formed, unique_ids, unique_device_ids.
  cbn [with_iot_devices iot_devices iot_devices_id_seq].
  rewrite <- !list_fmap_compose.
  rewrite (list_fmap_ext (IoTDevice.id ∘ f) IoTDevice.id)
    by (intros i d ?%list_elem_of_lookup_2; by apply Hid).
  rewrite (list_fmap_ext (IoTDevice.device_id ∘ f) IoTDevice.device_id)
    by (intros i d ?%list_elem_of_lookup_2; by apply Hdev).
  split_and!; [done|done|].
  apply Forall_fmap, Forall_forall. intros d Hin. unfold compose.
  rewrite Hid by done. by eapply (proj1 (Forall_forall _ _) Hseq).
Qed.

Lemma mark_offline_devices_well_formed (utcnow timeout_minutes : Z) (s : AsyncSession) :
  well_formed (pending s) →
  well_formed (pending (iot_crud.mark_offline_devices utcnow timeout_minutes s).2).
Proof.
  intros Hwf. rewrite mark_offline_devices_run. cbn [snd pending].
  apply well_formed_fmap; [| |done]; intros d _; by destruct (decide _).
Qed.

Lemma update_device_well_formed (device_id : Z) (device_in : IoTDeviceUpdate.t)
    (s : AsyncSession) :
  well_formed (pending s) →
  well_formed (pending (iot_crud.update_device device_id device_in s).2).
Proof.
  intros Hwf.
  destruct (iot_crud.update_device device_id device_in s) as [r s'] eqn:E.
  apply update_device_inv in E. cbn [snd].
  destruct r as [e|[d'|]]; [by subst| |by destruct E as [-> _]].
  destruct E as (d & Hd & Hid & -> & ->). cbn [pending].
  assert (Hsame : ∀ x, x ∈ iot_devices (pending s) → IoTDevice.id x = device_id → x = d).
  { intros x Hx Hxid. destruct Hwf as (Hu & _).
    apply (unique_key_eq IoTDevice.id (iot_devices (pending s))); [done..|].
    by rewrite Hxid, Hid. }
  apply well_formed_fmap; [| |done]; intros x Hx; case_bool_decide; try done;
    rewrite (Hsame x Hx) by done; by rewrite apply_update_fields.
Qed.

Lemma update_device_status_well_formed (utcnow : Time) (device_id : Z) (b : bool)
    (s : AsyncSession) :
  well_formed (pending s) →
  well_formed (pending (iot_crud.update_device_status utcnow device_id b s).2).
Proof.
  intros Hwf. unfold iot_crud.update_device_status. run_async.
  set (db' := with_iot_devices _ (pending s)).
  assert (Hwf' : well_formed db').
  { apply well_formed_fmap; [| |done]; intros d _; by case_bool_decide. }
  by destruct (filter _ _) as [|? [|? ?]].
Qed.

Lemma delete_device_well_formed (device_id : Z) (s : AsyncSession) :
  well_formed (pending s) →
  well_formed (pending (iot_crud.delete_device device_id s).2).
Proof.
  intros Hwf. unfold iot_crud.delete_device. unfold mbind at 1, Async_bind at 1.
  destruct (iot_crud.get_device_by_id device_id s) as [[e|[d|]] s0] eqn:E.
  - unfold iot_crud.get_device_by_id in E. run_async.
    destruct (filter _ _) as [|? [|? ?]]; cbv beta in E; by simplify_eq.
  - apply get_device_by_id_inv in E as [-> _]. run_async.
    destruct Hwf as (Hu & Hd & Hseq).
    unfold well_formed, unique_ids, unique_device_ids. cbn.
    split_and!.
    + eapply sublist_NoDup; [exact Hu|]. apply fmap_sublist, sublist_filter.
    + eapply sublist_NoDup; [exact Hd|]. apply fmap_sublist, sublist_filter.
    + apply Forall_forall. intros x (_ & Hx)%list_elem_of_filter.
      by apply (proj1 (Forall_forall _ _) Hseq).
  - apply get_device_by_id_inv in E as [-> _]. done.
Qed.

Lemma create_device_well_formed (now_last_seen now_created_at : Time)
    (device_in : IoTDeviceCreate.t) (s : AsyncSession) :
  well_formed (pending s) →
  well_formed (pending (iot_crud.create_device now_last_seen now_created_at device_in s).2).
Proof.
  intros (Hu & Hd & Hseq). unfold iot_crud.create_device. run_async.
  destruct (iot_crud.insert_device_ok _ _) eqn:Hok; [|done].
  unfold iot_crud.insert_device_ok in Hok. cbn in Hok.
  apply andb_prop in Hok as [[_ Hfresh%bool_decide_eq_true]%andb_prop _].
  unfold well_formed, unique_ids, unique_device_ids. cbn.
  rewrite !fmap_app. cbn. split_and!.
  - apply NoDup_app. split_and!; [done| |apply NoDup_singleton].
    intros k (d & Hk & Hin)%list_elem_of_fmap Hnew%list_elem_of_singleton.
    pose proof (proj1 (Forall_forall _ _) Hseq d Hin). simpl in *. lia.
  - apply NoDup_app. split_and!; [done| |apply NoDup_singleton].
    intros k Hk Hnew%list_elem_of_singleton. by subst.
  - apply Forall_app. split.
    + eapply Forall_impl; [exact Hseq|]. intros d ?. simpl in *. lia.
    + apply Forall_singleton. simpl. lia.
Qed.

Lemma create_sensor_reading_well_formed (now_timestamp utcnow_status : Time)
    (reading_in : SensorReadingCreate.t) (s : AsyncSession) :
  well_formed (pending s) →
  well_formed (pending (iot_crud.create_sensor_reading now_timestamp utcnow_status
                          reading_in s).2).
Proof.
  intros Hwf. unfold iot_crud.create_sensor_reading, iot_crud.update_device_status.
  run_async. destruct (iot_crud.insert_reading_ok _ _); [|done].
  set (db0 := mkDatabase _ _ (sensor_readings (pending s) ++ _) _ _).
  assert (Hwf0 : well_formed db0) by exact Hwf.
  assert (Hwf' : well_formed
            (with_iot_devices
               ((λ d, if bool_decide (IoTDevice.id d = SensorReadingCreate.device_id reading_in)
                      then IoTDevice.set_last_seen (Some utcnow_status)
                             (IoTDevice.set_is_online (Some true) d)
                      else d) <$> iot_devices db0) db0)).
  { apply well_formed_fmap; [| |done]; intros d _; by case_bool_decide. }
  by destruct (filter _ _) as [|? [|? ?]].
Qed.

(** ** Scenarios of the specification *)

(** Device A is registered on farm 1 by its owner U1; U2, who does not
    own farm 1, is refused the device, and U1 gets it with no latest
    reading. *)
Lemma scenario_register_then_get :
  run_request (iot_api.register_device noon noon registration_A user_U1) db_farms
    = (inr registered_A, db_registered_A)
  ∧ run_request (iot_api.get_device 1 user_U2) db_registered_A
    = (inl (HTTPException 403 "Access denied"), db_registered_A)
  ∧ run_request (iot_api.get_device 1 user_U1) db_registered_A
    = (inr (IoTDeviceWithReadings.mk registered_A None 0), db_registered_A).
Proof. split_and!; compute_done. Qed.

(** A reading posted for a device that was swept offline brings it back,
    and the handler commits both the reading and the status. *)
Lemma scenario_offline_device_reports :
  run_request (iot_api.record_sensor_reading noon (noon + 1) reading_C) db_devices
  = (inr stored_reading_C, pending session_after_reading_C).
Proof. compute_done. Qed.

(** The sweep is for administrators only. *)
Lemma scenario_sweep_needs_admin :
  run_request (iot_api.check_offline_devices_endpoint noon 30 user_U1) db_devices
  = (inl (HTTPException 403 "Admin access required"), db_devices).
Proof. compute_done. Qed.

(** * Further properties of the repository and of the handlers *)

(** ** Lookups and registration in the repository *)

Lemma with_iot_devices_same (db : Database) : with_iot_devices (iot_devices db) db = db.
Proof. by destruct db. Qed.

Lemma fmap_unchanged {A : Type} (f : A → A) (l : list A) :
  (∀ x, x ∈ l → f x = x) → f <$> l = l.
Proof.
  intros Hf. rewrite <- (list_fmap_id l) at 2.
  apply list_fmap_ext. intros i x Hx%list_elem_of_lookup_2. by apply Hf.
Qed.

Lemma get_device_by_device_id_inv (s s' : AsyncSession) (device_id_str : string) r :
  iot_crud.get_device_by_device_id device_id_str s = (inr r, s') →
  s' = s ∧
  match r with
  | Some d => d ∈ iot_devices (pending s) ∧ IoTDevice.device_id d = device_id_str
  | None => device_id_str ∉ IoTDevice.device_id <$> iot_devices (pending s)
  end.
Proof.
  unfold iot_crud.get_device_by_device_id. run_async.
  destruct (filter _ _) as [|d [|? ?]] eqn:E; cbv beta; intros ?; simplify_eq;
    split; try done.
  - intros (d & ? & Hd)%list_elem_of_fmap.
    eapply (filter_nil_not_elem_of _ _ d); [exact E| |exact Hd]. done.
  - assert (Hin : d ∈ [d]) by left. rewrite <- E in Hin.
    apply list_elem_of_filter in Hin as [? ?]. done.
Qed.

(** X1.  In a store whose ids are unique, the lookup by id answers a
    device exactly when that device is stored under that id, answers
    nothing exactly when no device has the id, and the same holds for the
    lookup by [device_id] when the [device_id]s are unique; a lookup that
    answers hands the session back as it was. *)
Theorem device_lookups_exact (s : AsyncSession) :
  (unique_ids (pending s) →
     ∀ k, (∀ d, iot_crud.get_device_by_id k s = (inr (Some d), s)
                ↔ d ∈ iot_devices (pending s) ∧ IoTDevice.id d = k)
          ∧ (iot_crud.get_device_by_id k s = (inr None, s)
             ↔ k ∉ IoTDevice.id <$> iot_devices (pending s)))
  ∧ (unique_device_ids (pending s) →
       ∀ k, (∀ d, iot_crud.get_device_by_device_id k s = (inr (Some d), s)
                  ↔ d ∈ iot_devices (pending s) ∧ IoTDevice.device_id d = k)
            ∧ (iot_crud.get_device_by_device_id k s = (inr None, s)
               ↔ k ∉ IoTDevice.device_id <$> iot_devices (pending s)))
  ∧ (∀ k r s', iot_crud.get_device_by_id k s = (inr r, s') → s' = s)
  ∧ (∀ k r s', iot_crud.get_device_by_device_id k s = (inr r, s') → s' = s).
Proof.
  split_and!.
  - intros Hu k. split; [intros d|]; split.
    + intros (_ & ? & ? & _)%get_device_by_id_inv. done.
    + intros [Hd <-]. by apply get_device_by_id_found.
    + intros [_ ?]%get_device_by_id_inv. done.
    + apply get_device_by_id_missing.
  - intros Hu k. split; [intros d|]; split.
    + intros (_ & ? & ?)%get_device_by_device_id_inv. done.
    + intros [Hd <-]. by apply get_device_by_device_id_found.
    + intros [_ ?]%get_device_by_device_id_inv. done.
    + intros Hk. unfold iot_crud.get_device_by_device_id. run_async.
      by rewrite (filter_key_missing IoTDevice.device_id _ _ Hk).
  - intros k r s' [? _]%get_device_by_id_inv. done.
  - intros k r s' [? _]%get_device_by_device_id_inv. done.
Qed.

Lemma device_lookups_exact_witness :
  unique_ids (pending (open_session db_devices))
  ∧ unique_device_ids (pending (open_session db_devices))
  ∧ iot_crud.get_device_by_id 2 (open_session db_devices)
    = (inr (Some device_B), open_session db_devices)
  ∧ iot_crud.get_device_by_device_id "IOT-0009-M" (open_session db_devices)
    = (inr None, open_session db_devices).
Proof.
  assert (Hu : unique_ids (pending (open_session db_devices))) by compute_done.
  assert (Hd : unique_device_ids (pending (open_session db_devices))) by compute_done.
  destruct (device_lookups_exact (open_session db_devices)) as (Hid & Hdev & _).
  split_and!; [exact Hu|exact Hd| |].
  - apply (proj1 (Hid Hu 2) device_B). split; [compute_done|reflexivity].
  - apply (proj2 (Hdev Hd "IOT-0009-M")). compute_done.
Defined.

Lemma create_device_inv (now_last_seen now_created_at : Time)
    (device_in : IoTDeviceCreate.t) (s s' : AsyncSession) r :
  iot_crud.create_device now_last_seen now_created_at device_in s = (r, s') →
  match r with
  | inl e => e = IntegrityError ∧ s' = s
  | inr d =>
      d = IoTDevice.mk (iot_devices_id_seq (pending s))
            (IoTDeviceCreate.farm_id device_in) (IoTDeviceCreate.device_id device_in)
            (Some true) (Some now_last_seen)
            (Some (iot_crud.default_mqtt_topic device_in)) now_created_at
      ∧ iot_crud.insert_device_ok (pending s) d = true
      ∧ s' = mkSession (committed s)
               (mkDatabase (farms (pending s)) (iot_devices (pending s) ++ [d])
                  (sensor_readings (pending s)) (iot_devices_id_seq (pending s) + 1)
                  (sensor_readings_id_seq (pending s)))
  end.
Proof.
  unfold iot_crud.create_device. run_async.
  destruct (iot_crud.insert_device_ok _ _) eqn:Hok; intros ?; simplify_eq; done.
Qed.

(** X2.  In a well-formed store a device that [create_device] returns can
    be looked up at once by its id and by its [device_id]; it is online,
    last seen at the first clock value and created at the second, takes
    the next id of the sequence, carries the supplied topic, or
    [farm/<farm_id>/sensors] when none or an empty one is supplied, and
    is appended to the devices, the readings and what is committed
    staying as they were. *)
Theorem create_device_round_trip (now_last_seen now_created_at : Time)
    (device_in : IoTDeviceCreate.t) (s s' : AsyncSession) (d : IoTDevice.t) :
  well_formed (pending s) →
  iot_crud.create_device now_last_seen now_created_at device_in s = (inr d, s') →
  iot_crud.get_device_by_id (IoTDevice.id d) s' = (inr (Some d), s')
  ∧ iot_crud.get_device_by_device_id (IoTDeviceCreate.device_id device_in) s'
    = (inr (Some d), s')
  ∧ IoTDevice.id d = iot_devices_id_seq (pending s)
  ∧ IoTDevice.farm_id d = IoTDeviceCreate.farm_id device_in
  ∧ IoTDevice.device_id d = IoTDeviceCreate.device_id device_in
  ∧ IoTDevice.is_online d = Some true
  ∧ IoTDevice.last_seen d = Some now_last_seen
  ∧ IoTDevice.created_at d = now_created_at
  ∧ (IoTDeviceCreate.mqtt_topic device_in = None
     ∨ IoTDeviceCreate.mqtt_topic device_in = Some EmptyString →
     IoTDevice.mqtt_topic d
     = Some ("farm/" +:+ pretty (IoTDeviceCreate.farm_id device_in) +:+ "/sensors"))
  ∧ (∀ topic, IoTDeviceCreate.mqtt_topic device_in = Some topic → topic ≠ EmptyString →
       IoTDevice.mqtt_topic d = Some topic)
  ∧ iot_devices (pending s') = iot_devices (pending s) ++ [d]
  ∧ sensor_readings (pending s') = sensor_readings (pending s)
  ∧ committed s' = committed s.
Proof.
  intros Hwf Hrun.
  assert (Hwf' : well_formed (pending s')).
  { pose proof (create_device_well_formed now_last_seen now_created_at device_in s Hwf)
      as H. by rewrite Hrun in H. }
  apply create_device_inv in Hrun as (Hd & Hok & Hs').
  assert (Hin : d ∈ iot_devices (pending s')).
  { rewrite Hs'. cbn. apply elem_of_app. right. by apply list_elem_of_singleton. }
  destruct Hwf' as (Hu & Hdev & _).
  split_and!.
  - by apply get_device_by_id_found.
  - replace (IoTDeviceCreate.device_id device_in) with (IoTDevice.device_id d)
      by by rewrite Hd.
    by apply get_device_by_device_id_found.
  - by rewrite Hd.
  - by rewrite Hd.
  - by rewrite Hd.
  - by rewrite Hd.
  - by rewrite Hd.
  - by rewrite Hd.
  - rewrite Hd. cbn. unfold iot_crud.default_mqtt_topic. by intros [->| ->].
  - intros topic Ht Hne. rewrite Hd. cbn. unfold iot_crud.default_mqtt_topic.
    rewrite Ht. by rewrite bool_decide_eq_false_2.
  - by rewrite Hs'.
  - by rewrite Hs'.
  - by rewrite Hs'.
Qed.

Lemma create_device_round_trip_witness :
  well_formed (pending (open_session db_farms))
  ∧ iot_crud.create_device noon noon registration_A (open_session db_farms)
    = (inr registered_A, mkSession db_farms db_registered_A)
  ∧ iot_crud.get_device_by_id 1 (mkSession db_farms db_registered_A)
    = (inr (Some registered_A), mkSession db_farms db_registered_A)
  ∧ IoTDevice.mqtt_topic registered_A = Some "farm/1/sensors".
Proof.
  assert (Hwf : well_formed (pending (open_session db_farms))) by compute_done.
  assert (Hrun : iot_crud.create_device noon noon registration_A (open_session db_farms)
                 = (inr registered_A, mkSession db_farms db_registered_A)) by compute_done.
  destruct (create_device_round_trip noon noon registration_A (open_session db_farms)
              (mkSession db_farms db_registered_A) registered_A Hwf Hrun)
    as (Hget & _ & _ & _ & _ & _ & _ & _ & Htopic & _).
  split_and!; [exact Hwf|exact Hrun|exact Hget|].
  apply Htopic. by left.
Defined.





(** ** Status updates and the invariant of the store *)

(** X5.  [update_device_status] on an id that no device has answers
    nothing and leaves the session as it was.  On the id of a stored
    device it answers that device with [is_online] as asked and
    [last_seen] set to the clock value, also when it marks the device
    offline; the stored row becomes the answer, and no other device, no
    reading and nothing committed changes. *)
Theorem update_device_status_exact (utcnow : Time) (device_id : Z) (is_online : bool)
    (s : AsyncSession) :
  (device_id ∉ IoTDevice.id <$> iot_devices (pending s) →
     iot_crud.update_device_status utcnow device_id is_online s = (inr None, s))
  ∧ (∀ d, unique_ids (pending s) → d ∈ iot_devices (pending s) →
       IoTDevice.id d = device_id →
       ∃ s', iot_crud.update_device_status utcnow device_id is_online s
             = (inr (Some (IoTDevice.mk (IoTDevice.id d) (IoTDevice.farm_id d)
                             (IoTDevice.device_id d) (Some is_online) (Some utcnow)
                             (IoTDevice.mqtt_topic d) (IoTDevice.created_at d))), s')
         ∧ Forall2 (λ x x',
               (x = d → x' = IoTDevice.mk (IoTDevice.id d) (IoTDevice.farm_id d)
                               (IoTDevice.device_id d) (Some is_online) (Some utcnow)
                               (IoTDevice.mqtt_topic d) (IoTDevice.created_at d))
               ∧ (x ≠ d → x' = x))
             (iot_devices (pending s)) (iot_devices (pending s'))
         ∧ sensor_readings (pending s') = sensor_readings (pending s)
         ∧ farms (pending s') = farms (pending s)
         ∧ committed s' = committed s).
Proof.
  split.
  - intros Hk. unfold iot_crud.update_device_status. run_async.
    rewrite fmap_unchanged.
    + rewrite with_iot_devices_same.
      rewrite (filter_key_missing IoTDevice.id _ _ Hk). by destruct s.
    + intros x Hx. rewrite bool_decide_eq_false_2; [done|].
      intros Heq. apply Hk. rewrite <- Heq. by apply list_elem_of_fmap_2.
  - intros d Hu Hd Hid. unfold iot_crud.update_device_status. run_async.
    set (g := λ x : IoTDevice.t, if bool_decide (IoTDevice.id x = device_id)
          then IoTDevice.set_last_seen (Some utcnow)
                 (IoTDevice.set_is_online (Some is_online) x) else x).
    cbn [with_iot_devices iot_devices].
    rewrite (filter_key_unique IoTDevice.id (g <$> iot_devices (pending s)) (g d)).
    + eexists. split.
      * unfold g. rewrite bool_decide_eq_true_2 by done. reflexivity.
      * cbn [pending iot_devices sensor_readings farms committed].
        split_and!; try done.
        apply Forall2_fmap_r, Forall_Forall2_diag, Forall_forall. intros x Hx.
        unfold compose, g. split.
        -- intros ->. by rewrite bool_decide_eq_true_2.
        -- intros Hne. rewrite bool_decide_eq_false_2; [done|].
           intros Heq. apply Hne.
           apply (unique_key_eq IoTDevice.id (iot_devices (pending s))); [done..|].
           by rewrite Heq, Hid.
    + unfold g. by rewrite update_device_status_ids.
    + by apply list_elem_of_fmap_2.
    + unfold g. by rewrite bool_decide_eq_true_2.
Qed.

Lemma update_device_status_exact_witness :
  unique_ids (pending (open_session db_devices))
  ∧ device_A ∈ iot_devices (pending (open_session db_devices))
  ∧ (99 ∉ IoTDevice.id <$> iot_devices (pending (open_session db_devices)))
  ∧ iot_crud.update_device_status noon 99 true (open_session db_devices)
    = (inr None, open_session db_devices)
  ∧ (∃ s', iot_crud.update_device_status noon 1 false (open_session db_devices)
           = (inr (Some (IoTDevice.mk 1 1 "IOT-0001-M" (Some false) (Some noon)
                           (Some "farm/1/sensors") (noon - 48 * hour))), s')).
Proof.
  assert (Hu : unique_ids (pending (open_session db_devices))) by compute_done.
  assert (Hd : device_A ∈ iot_devices (pending (open_session db_devices)))
    by compute_done.
  assert (Hn : 99 ∉ IoTDevice.id <$> iot_devices (pending (open_session db_devices)))
    by compute_done.
  pose proof (update_device_status_exact noon 99 true (open_session db_devices))
    as (Hmiss & _).
  pose proof (update_device_status_exact noon 1 false (open_session db_devices))
    as (_ & Hhit).
  destruct (Hhit device_A Hu Hd eq_refl) as (s' & Hrun & _).
  split_and!; [exact Hu|exact Hd|exact Hn|exact (Hmiss Hn)|].
  exists s'. exact Hrun.
Defined.

(** X6.  Every write of the repository keeps the store well formed: ids
    and [device_id]s stay unique and below the sequence, whether the
    write succeeds or raises. *)
Theorem repository_writes_keep_well_formed (s : AsyncSession) :
  well_formed (pending s) →
  (∀ t1 t2 device_in, well_formed (pending (iot_crud.create_device t1 t2 device_in s).2))
  ∧ (∀ k device_in, well_formed (pending (iot_crud.update_device k device_in s).2))
  ∧ (∀ t k b, well_formed (pending (iot_crud.update_device_status t k b s).2))
  ∧ (∀ k, well_formed (pending (iot_crud.delete_device k s).2))
  ∧ (∀ t1 t2 reading_in,
       well_formed (pending (iot_crud.create_sensor_reading t1 t2 reading_in s).2))
  ∧ (∀ t m, well_formed (pending (iot_crud.mark_offline_devices t m s).2)).
Proof.
  intros Hwf. split_and!; intros.
  - by apply create_device_well_formed.
  - by apply update_device_well_formed.
  - by apply update_device_status_well_formed.
  - by apply delete_device_well_formed.
  - by apply create_sensor_reading_well_formed.
  - by apply mark_offline_devices_well_formed.
Qed.

Lemma repository_writes_keep_well_formed_witness :
  well_formed (pending (open_session db_devices))
  ∧ well_formed (pending (iot_crud.create_device noon noon
                            (IoTDeviceCreate.mk 2 "IOT-0004-M" None)
                            (open_session db_devices)).2)
  ∧ well_formed (pending (iot_crud.delete_device 2 (open_session db_devices)).2).
Proof.
  assert (Hwf : well_formed (pending (open_session db_devices))) by compute_done.
  destruct (repository_writes_keep_well_formed (open_session db_devices) Hwf)
    as (Hcreate & _ & _ & Hdelete & _).
  split_and!; [exact Hwf|apply Hcreate|apply Hdelete].
Defined.



(** ** Paging and ordering *)

Section order_by_offset_limit.
Context {A : Type} (R : relation A) `{!RelDecision R, !Transitive R, !Total R}.

Lemma page_sorted (l : list A) (skip limit : nat) :
  StronglySorted R (take limit (drop skip (merge_sort R l))).
Proof.
  apply (StronglySorted_app_1_l R _ (drop limit (drop skip (merge_sort R l)))).
  rewrite take_drop.
  apply (StronglySorted_app_1_r R (take skip (merge_sort R l))).
  rewrite take_drop. by apply StronglySorted_merge_sort.
Qed.

Lemma page_length (l : list A) (skip limit : nat) :
  length (take limit (drop skip (merge_sort R l))) = Nat.min limit (length l - skip).
Proof.
  by rewrite length_take, length_drop, (Permutation_length (merge_sort_Permutation R l)).
Qed.

Lemma page_submseteq (l : list A) (skip limit : nat) :
  take limit (drop skip (merge_sort R l)) ⊆+ l.
Proof.
  etrans; [apply sublist_submseteq, sublist_take|].
  etrans; [apply sublist_submseteq, sublist_drop|].
  apply Permutation_submseteq, merge_sort_Permutation.
Qed.


End order_by_offset_limit.


(** X9.  [get_all_devices] answers a page ordered by descending creation
    time out of the stored devices and the total before pagination; with
    [online_only] every device of the page is online and the total counts
    the online devices, a device whose [is_online] is null being left
    out; without it the total is the number of devices. *)
Theorem get_all_devices_pages (online_only : bool) (skip limit : nat) (s : AsyncSession) :
  ∃ page total,
    iot_crud.get_all_devices online_only skip limit s = (inr (page, total), s)
    ∧ StronglySorted (λ d1 d2, IoTDevice.created_at d2 ≤ IoTDevice.created_at d1) page
    ∧ length page = Nat.min limit (Z.to_nat total - skip)
    ∧ page ⊆+ iot_devices (pending s)
    ∧ (online_only = true →
         Forall (λ d, IoTDevice.is_online d = Some true) page
         ∧ total = Z.of_nat (length (filter (λ d, IoTDevice.is_online d = Some true)
                                       (iot_devices (pending s)))))
    ∧ (online_only = false → total = Z.of_nat (length (iot_devices (pending s)))).
Proof.
  set (query := if online_only
                then filter (λ d, is_true (IoTDevice.is_online d) = true)
                       (iot_devices (pending s))
                else iot_devices (pending s)).
  exists (take limit (drop skip (merge_sort created_desc query))), (Z.of_nat (length query)).
  split; [reflexivity|].
  assert (Hsub : query `sublist_of` iot_devices (pending s)).
  { unfold query. destruct online_only; [apply sublist_filter|done]. }
  split_and!.
  - apply (page_sorted created_desc).
  - rewrite Nat2Z.id. apply (page_length created_desc).
  - etrans; [apply (page_submseteq created_desc)|]. by apply sublist_submseteq.
  - intros ->. unfold query. split.
    + apply Forall_forall. intros d Hd.
      eapply elem_of_submseteq in Hd; [|apply (page_submseteq created_desc)].
      apply list_elem_of_filter in Hd as [Hon _]. by apply is_true_Some_true.
    + do 2 f_equal. apply list_filter_iff. intros d. apply is_true_Some_true.
  - intros ->. done.
Qed.

Lemma get_all_devices_pages_witness :
  ∃ page total,
    iot_crud.get_all_devices true 0 100 (open_session db_devices)
    = (inr (page, total), open_session db_devices)
    ∧ Forall (λ d, IoTDevice.is_online d = Some true) page
    ∧ total = 2.
Proof.
  destruct (get_all_devices_pages true 0 100 (open_session db_devices))
    as (page & total & Hrun & _ & _ & _ & Hon & _).
  destruct (Hon eq_refl) as [Hall Htotal].
  exists page, total. split_and!; [exact Hrun|exact Hall|].
  rewrite Htotal. reflexivity.
Defined.

(** ** Latest reading and readings of a farm *)

Lemma latest_of_sorted (l : list SensorReading.t) :
  match head (merge_sort timestamp_desc l) with
  | None => l = []
  | Some x => x ∈ l ∧ ∀ y, y ∈ l → SensorReading.timestamp y ≤ SensorReading.timestamp x
  end.
Proof.
  pose proof (merge_sort_Permutation timestamp_desc l) as Hp.
  pose proof (StronglySorted_merge_sort timestamp_desc l) as Hs.
  destruct (merge_sort timestamp_desc l) as [|x k]; cbn [head].
  - symmetry. by apply Permutation_nil_l.
  - split; [rewrite <- Hp; left|].
    intros y Hy. rewrite <- Hp in Hy.
    apply StronglySorted_cons in Hs as [Hx _].
    apply elem_of_cons in Hy as [->|Hy]; [done|].
    by apply (proj1 (Forall_forall _ _) Hx).
Qed.

(** X10.  [get_latest_reading] never raises and only reads.  It answers
    nothing exactly when no reading of the device is stored; otherwise it
    answers a stored reading of the device that no other reading of the
    device is more recent than. *)
Theorem get_latest_reading_exact (device_id : Z) (s : AsyncSession) :
  ∃ latest, iot_crud.get_latest_reading device_id s = (inr latest, s)
    ∧ match latest with
      | None => ∀ r, r ∈ sensor_readings (pending s) →
                     SensorReading.device_id r ≠ Some device_id
      | Some x =>
          x ∈ sensor_readings (pending s)
          ∧ SensorReading.device_id x = Some device_id
          ∧ ∀ r, r ∈ sensor_readings (pending s) →
                 SensorReading.device_id r = Some device_id →
                 SensorReading.timestamp r ≤ SensorReading.timestamp x
      end.
Proof.
  eexists. split; [apply get_latest_reading_run|].
  set (mine := filter _ (sensor_readings (pending s))).
  pose proof (latest_of_sorted mine) as H.
  destruct (head (merge_sort timestamp_desc mine)) as [x|].
  - destruct H as [Hx Hmax]. apply list_elem_of_filter in Hx as [Hdev Hx].
    split_and!; [done|done|]. intros r Hr Hrdev. apply Hmax.
    by apply list_elem_of_filter.
  - intros r Hr Hdev. eapply (filter_nil_not_elem_of _ _ r); [exact H| |exact Hr]. done.
Qed.

(** X11.  After a successful ingestion whose timestamp is later than
    every stored reading of the device, the latest reading of the device
    is the one just ingested. *)
Theorem ingested_reading_is_latest (now_timestamp utcnow_status : Time)
    (reading_in : SensorReadingCreate.t) (s s' : AsyncSession) (r : SensorReading.t) :
  (∀ x, x ∈ sensor_readings (pending s) →
        SensorReading.device_id x = Some (SensorReadingCreate.device_id reading_in) →
        SensorReading.timestamp x < now_timestamp) →
  iot_crud.create_sensor_reading now_timestamp utcnow_status reading_in s = (inr r, s') →
  iot_crud.get_latest_reading (SensorReadingCreate.device_id reading_in) s'
  = (inr (Some r), s').
Proof.
  intros Hold Hrun.
  apply create_sensor_reading_effect in Hrun as (_ & _ & Hreadings & Hdev & Hts).
  rewrite get_latest_reading_run. do 2 f_equal.
  set (mine := filter _ (sensor_readings (pending s'))).
  assert (Hr : r ∈ mine).
  { apply list_elem_of_filter. split; [done|]. rewrite Hreadings.
    apply elem_of_app. right. by apply list_elem_of_singleton. }
  pose proof (latest_of_sorted mine) as H.
  destruct (head (merge_sort timestamp_desc mine)) as [x|];
    [|rewrite H in Hr; by apply elem_of_nil in Hr].
  destruct H as [Hx Hmax]. f_equal.
  apply list_elem_of_filter in Hx as [Hxdev Hx]. rewrite Hreadings in Hx.
  apply elem_of_app in Hx as [Hx|Hx]; [|by apply list_elem_of_singleton in Hx].
  specialize (Hold x Hx Hxdev). specialize (Hmax r Hr). lia.
Qed.

Lemma ingested_reading_is_latest_witness :
  iot_crud.create_sensor_reading noon (noon + 1)
    (SensorReadingCreate.mk 1 None None (Some (Q2Qc 21)) None None None None)
    (open_session db_window)
  = (inr (reading_of 6 1 noon (Some (Q2Qc 21))), session_after_reading_A)
  ∧ iot_crud.get_latest_reading 1 session_after_reading_A
    = (inr (Some (reading_of 6 1 noon (Some (Q2Qc 21)))), session_after_reading_A).
Proof.
  assert (Hrun : iot_crud.create_sensor_reading noon (noon + 1)
                   (SensorReadingCreate.mk 1 None None (Some (Q2Qc 21)) None None None None)
                   (open_session db_window)
                 = (inr (reading_of 6 1 noon (Some (Q2Qc 21))), session_after_reading_A))
    by compute_done.
  assert (Hold : ∀ x, x ∈ sensor_readings (pending (open_session db_window)) →
            SensorReading.device_id x = Some 1 → SensorReading.timestamp x < noon).
  { apply (proj1 (Forall_forall
      (λ x, SensorReading.device_id x = Some 1 → SensorReading.timestamp x < noon) _)).
    compute_done. }
  split; [exact Hrun|].
  exact (ingested_reading_is_latest noon (noon + 1)
           (SensorReadingCreate.mk 1 None None (Some (Q2Qc 21)) None None None None)
           (open_session db_window) session_after_reading_A
           (reading_of 6 1 noon (Some (Q2Qc 21))) Hold Hrun).
Defined.

Lemma get_readings_by_farm_run (utcnow : Time) (farm_id : Z) (hours_back : option Z)
    (limit : nat) (s : AsyncSession) :
  let of_farm (r : SensorReading.t) :=
    Exists (λ d, IoTDevice.farm_id d = farm_id
                 ∧ SensorReading.device_id r = Some (IoTDevice.id d))
           (iot_devices (pending s)) in
  iot_crud.get_readings_by_farm utcnow farm_id hours_back limit s
  = (inr (take limit (merge_sort timestamp_desc
            (filter (λ r, of_farm r ∧ in_window utcnow hours_back r)
                    (sensor_readings (pending s))))), s).
Proof.
  intros of_farm. unfold iot_crud.get_readings_by_farm. run_async.
  set (ids := IoTDevice.id <$> filter _ (iot_devices (pending s))).
  assert (Hids : ∀ r, in_ (SensorReading.device_id r) ids = true ↔ of_farm r).
  { intros r. unfold in_, of_farm, ids. rewrite Exists_exists.
    destruct (SensorReading.device_id r) as [k|].
    - rewrite bool_decide_eq_true, list_elem_of_fmap. split.
      + intros (d & -> & [? ?]%list_elem_of_filter). by exists d.
      + intros (d & Hd & Hfarm & [= ->]). exists d. split; [done|].
        by apply list_elem_of_filter.
    - split; [intros [=]|]. intros (d & _ & _ & [=]). }
  destruct ids as [|k ids'] eqn:E.
  - f_equal. f_equal. rewrite filter_none.
    + change (merge_sort timestamp_desc []) with (@nil SensorReading.t).
      by rewrite take_nil.
    + apply Forall_forall. intros r _ [Hr%Hids _]. unfold in_ in Hr.
      destruct (SensorReading.device_id r); [|done].
      apply bool_decide_eq_true in Hr. by apply elem_of_nil in Hr.
  - f_equal. do 3 f_equal.
    destruct hours_back as [h|]; unfold in_window.
    + rewrite list_filter_filter. apply list_filter_iff. intros r.
      unfold timedelta_hours.
      replace (h * 3600 * 1000000) with (h * 3600000000) by lia.
      rewrite Hids. tauto.
    + apply list_filter_iff. intros r. rewrite Hids. tauto.
Qed.

(** X12.  [get_readings_by_farm] never raises and only reads.  For a farm
    without devices it answers the empty list.  Its answer is ordered by
    descending timestamp, has at most [limit] rows, and holds only stored
    readings of devices of the farm (never a reading without device or of
    another farm's device), inside the window when one is given; a reading
    of the farm inside the window that is left out is left out because
    the list is full of readings at least as recent. *)
Theorem get_readings_by_farm_exact (utcnow : Time) (farm_id : Z) (hours_back : option Z)
    (limit : nat) (s : AsyncSession) :
  ∃ rs, iot_crud.get_readings_by_farm utcnow farm_id hours_back limit s = (inr rs, s)
    ∧ ((∀ d, d ∈ iot_devices (pending s) → IoTDevice.farm_id d ≠ farm_id) → rs = [])
    ∧ StronglySorted (λ r1 r2, SensorReading.timestamp r2 ≤ SensorReading.timestamp r1) rs
    ∧ (length rs ≤ limit)%nat
    ∧ rs ⊆+ sensor_readings (pending s)
    ∧ (∀ r, r ∈ rs →
         (∃ d, d ∈ iot_devices (pending s) ∧ IoTDevice.farm_id d = farm_id
               ∧ SensorReading.device_id r = Some (IoTDevice.id d))
         ∧ ∀ h, hours_back = Some h → utcnow - h * 3600000000 ≤ SensorReading.timestamp r)
    ∧ (∀ r d, r ∈ sensor_readings (pending s) → d ∈ iot_devices (pending s) →
         IoTDevice.farm_id d = farm_id →
         SensorReading.device_id r = Some (IoTDevice.id d) →
         (∀ h, hours_back = Some h → utcnow - h * 3600000000 ≤ SensorReading.timestamp r) →
         r ∈ rs
         ∨ (length rs = limit
            ∧ ∀ r', r' ∈ rs → SensorReading.timestamp r ≤ SensorReading.timestamp r')).
Proof.
  eexists. split; [apply get_readings_by_farm_run|].
  set (matching := filter _ (sensor_readings (pending s))).
  assert (Hin : ∀ r, r ∈ matching →
            (∃ d, d ∈ iot_devices (pending s) ∧ IoTDevice.farm_id d = farm_id
                  ∧ SensorReading.device_id r = Some (IoTDevice.id d))
            ∧ ∀ h, hours_back = Some h → utcnow - h * 3600000000 ≤ SensorReading.timestamp r).
  { intros r [[Hfarm Hwin] _]%list_elem_of_filter. split.
    - by apply Exists_exists in Hfarm.
    - intros h ->. exact Hwin. }
  split_and!.
  - intros Hnone.
    assert (Hnil : matching = []).
    { destruct matching as [|r l]; [done|].
      destruct (Hin r) as [(d & Hd & Hfarm & _) _]; [left|]. by destruct (Hnone d Hd). }
    rewrite Hnil. change (merge_sort timestamp_desc []) with (@nil SensorReading.t).
    by rewrite take_nil.
  - apply (order_by_limit_sorted timestamp_desc).
  - rewrite (order_by_limit_length timestamp_desc). lia.
  - etrans; [apply (order_by_limit_submseteq timestamp_desc)|].
    apply sublist_submseteq, sublist_filter.
  - intros r Hr%order_by_limit_elem_of. by apply Hin.
  - intros r d Hr Hd Hfarm Hdev Hwin.
    destruct (decide (r ∈ take limit (merge_sort timestamp_desc matching))) as [|Hnot];
      [by left|right].
    apply (order_by_limit_cut timestamp_desc matching limit r); [|done].
    apply list_elem_of_filter. split; [|done]. split.
    + apply Exists_exists. by exists d.
    + unfold in_window. destruct hours_back; [by apply Hwin|done].
Qed.

Lemma get_readings_by_farm_exact_witness :
  (∀ d, d ∈ iot_devices (pending (open_session db_window)) → IoTDevice.farm_id d ≠ 7)
  ∧ iot_crud.get_readings_by_farm noon 7 None 100 (open_session db_window)
    = (inr [], open_session db_window)
  ∧ iot_crud.get_readings_by_farm noon 1 (Some 1) 3 (open_session db_window)
    = (inr [reading_B; reading_10min; reading_30min], open_session db_window).
Proof.
  assert (Hnone : ∀ d, d ∈ iot_devices (pending (open_session db_window)) →
            IoTDevice.farm_id d ≠ 7).
  { apply (proj1 (Forall_forall (λ d, IoTDevice.farm_id d ≠ 7) _)). compute_done. }
  destruct (get_readings_by_farm_exact noon 7 None 100 (open_session db_window))
    as (rs & Hrun & Hempty & _).
  rewrite (Hempty Hnone) in Hrun.
  split_and!; [exact Hnone|exact Hrun|compute_done].
Defined.

(** ** Handlers that write *)

Lemma get_farm_by_id_inv (farm_id owner_id : Z) (s : AsyncSession) :
  ∃ farm, farm_crud.get_farm_by_id farm_id owner_id s = (inr farm, s)
    ∧ (is_Some farm ↔ owns_farm (pending s) owner_id farm_id).
Proof.
  destruct (decide (owns_farm (pending s) owner_id farm_id)) as [Hown|Hown].
  - destruct (get_farm_by_id_owned _ _ s Hown) as [f Hf]. exists (Some f).
    split; [done|]. split; [done|by eexists].
  - exists None. split; [by apply get_farm_by_id_not_owned|].
    split; [by intros [? ?]|done].
Qed.

Lemma create_device_succeeds (now_last_seen now_created_at : Time)
    (device_in : IoTDeviceCreate.t) (s : AsyncSession) :
  IoTDeviceCreate.farm_id device_in ∈ Farm.id <$> farms (pending s) →
  IoTDeviceCreate.device_id device_in ∉ IoTDevice.device_id <$> iot_devices (pending s) →
  (∀ x, x ∈ iot_devices (pending s) →
        IoTDevice.mqtt_topic x ≠ Some (iot_crud.default_mqtt_topic device_in)) →
  ∃ d s', iot_crud.create_device now_last_seen now_created_at device_in s = (inr d, s').
Proof.
  intros Hfarm Hfresh Hfree. unfold iot_crud.create_device. run_async.
  unfold iot_crud.insert_device_ok.
  cbn [IoTDevice.farm_id IoTDevice.device_id IoTDevice.mqtt_topic].
  rewrite !bool_decide_eq_true_2; [by eexists _, _|..|done]; [|done].
  intros [_ (x & Hx & Hin)%list_elem_of_fmap]%list_elem_of_filter.
  by apply (Hfree x).
Qed.

Lemma owns_farm_exists (db : Database) (owner_id farm_id : Z) :
  owns_farm db owner_id farm_id → farm_id ∈ Farm.id <$> farms db.
Proof.
  intros (f & Hf & <- & _)%Exists_exists. by apply list_elem_of_fmap_2.
Qed.

Lemma register_device_run (now_last_seen now_created_at : Time)
    (device_in : IoTDeviceCreate.t) (current_user : User.t) (s : AsyncSession) :
  iot_api.register_device now_last_seen now_created_at device_in current_user s
  = if decide (owns_farm (pending s) (User.id current_user)
                 (IoTDeviceCreate.farm_id device_in))
    then match filter (λ d, IoTDevice.device_id d = IoTDeviceCreate.device_id device_in)
                 (iot_devices (pending s)) with
         | [] =>
             match iot_crud.create_device now_last_seen now_created_at device_in s with
             | (inr d, s1) => (inr d, mkSession (pending s1) (pending s1))
             | (inl e, s1) => (inl e, s1)
             end
         | [_] => (inl (HTTPException 400
                          ("Device with ID " +:+ IoTDeviceCreate.device_id device_in
                             +:+ " already exists")), s)
         | _ => (inl MultipleResultsFound, s)
         end
    else (inl (HTTPException 404 "Farm not found or access denied"), s).
Proof.
  unfold iot_api.register_device.
  destruct (get_farm_by_id_inv (IoTDeviceCreate.farm_id device_in) (User.id current_user) s)
    as (farm & Hfarm & Hown).
  unfold mbind at 1, Async_bind at 1. rewrite Hfarm.
  destruct farm as [f|].
  - rewrite decide_True by by apply Hown.
    unfold mbind at 1, Async_bind at 1. unfold iot_crud.get_device_by_device_id.
    run_async. by destruct (filter _ _) as [|? [|? ?]].
  - rewrite decide_False; [done|]. intros Ho%Hown. by destruct Ho.
Qed.

(** X13.  A registration is all or nothing.  When it raises, the session
    is as it was.  When it answers a device, the caller owns the farm,
    the [device_id] was not taken, the device is appended to the devices,
    online and last seen at the first clock value, and all of that is
    committed.  It does answer when the caller owns the farm and neither
    the [device_id] nor the topic of the device is taken. *)
Theorem register_device_all_or_nothing (now_last_seen now_created_at : Time)
    (device_in : IoTDeviceCreate.t) (current_user : User.t) (s : AsyncSession) :
  (∀ e s', iot_api.register_device now_last_seen now_created_at device_in current_user s
           = (inl e, s') → s' = s)
  ∧ (∀ d s', iot_api.register_device now_last_seen now_created_at device_in current_user s
             = (inr d, s') →
       owns_farm (pending s) (User.id current_user) (IoTDeviceCreate.farm_id device_in)
       ∧ (IoTDeviceCreate.device_id device_in ∉ IoTDevice.device_id <$> iot_devices (pending s))
       ∧ iot_devices (pending s') = iot_devices (pending s) ++ [d]
       ∧ sensor_readings (pending s') = sensor_readings (pending s)
       ∧ committed s' = pending s'
       ∧ IoTDevice.device_id d = IoTDeviceCreate.device_id device_in
       ∧ IoTDevice.farm_id d = IoTDeviceCreate.farm_id device_in
       ∧ IoTDevice.is_online d = Some true
       ∧ IoTDevice.last_seen d = Some now_last_seen)
  ∧ (owns_farm (pending s) (User.id current_user) (IoTDeviceCreate.farm_id device_in) →
     IoTDeviceCreate.device_id device_in ∉ IoTDevice.device_id <$> iot_devices (pending s) →
     (∀ x, x ∈ iot_devices (pending s) →
           IoTDevice.mqtt_topic x ≠ Some (iot_crud.default_mqtt_topic device_in)) →
     ∃ d s', iot_api.register_device now_last_seen now_created_at device_in current_user s
             = (inr d, s')).
Proof.
  rewrite register_device_run.
  destruct (decide (owns_farm _ _ _)) as [Hown|Hown]; cycle 1.
  { split_and!; [by intros e s' [= _ <-]|intros d s' [=]|done]. }
  destruct (filter _ (iot_devices (pending s))) as [|x [|y l]] eqn:Hlookup.
  - destruct (iot_crud.create_device _ _ _ s) as [[e|d] s1] eqn:Hcreate.
    + split_and!.
      * intros e' s' [= _ <-]. by apply create_device_inv in Hcreate as [_ ->].
      * intros d s' [=].
      * intros _ Hfresh Hfree.
        destruct (create_device_succeeds now_last_seen now_created_at device_in s)
          as (d & s' & Hok); [by eapply owns_farm_exists|done|done|].
        by rewrite Hok in Hcreate.
    + apply create_device_inv in Hcreate as (Hd & _ & Hs1). split_and!.
      * intros e s' [=].
      * intros d' s' [= <- <-]. rewrite Hs1, Hd. cbn. split_and!; try done.
        intros (z & Hz & Hin)%list_elem_of_fmap.
        eapply (filter_nil_not_elem_of _ _ z); [exact Hlookup|by symmetry|exact Hin].
      * intros _ _ _. by eexists _, _.
  - assert (Hx : x ∈ [x]) by left. rewrite <- Hlookup in Hx.
    apply list_elem_of_filter in Hx as [Hxid Hx]. split_and!.
    + by intros e s' [= _ <-].
    + intros d s' [=].
    + intros _ Hfresh _. destruct Hfresh. rewrite <- Hxid. by apply list_elem_of_fmap_2.
  - assert (Hx : x ∈ x :: y :: l) by left. rewrite <- Hlookup in Hx.
    apply list_elem_of_filter in Hx as [Hxid Hx]. split_and!.
    + by intros e s' [= _ <-].
    + intros d s' [=].
    + intros _ Hfresh _. destruct Hfresh. rewrite <- Hxid. by apply list_elem_of_fmap_2.
Qed.

Lemma register_device_all_or_nothing_witness :
  owns_farm (pending (open_session db_farms)) (User.id user_U1) 1
  ∧ iot_api.register_device noon noon registration_A user_U1 (open_session db_farms)
    = (inr registered_A, open_session db_registered_A)
  ∧ committed (open_session db_registered_A) = pending (open_session db_registered_A)
  ∧ IoTDevice.is_online registered_A = Some true.
Proof.
  assert (Hrun : iot_api.register_device noon noon registration_A user_U1
                   (open_session db_farms)
                 = (inr registered_A, open_session db_registered_A)) by compute_done.
  destruct (register_device_all_or_nothing noon noon registration_A user_U1
              (open_session db_farms)) as (_ & Hok & _).
  destruct (Hok registered_A (open_session db_registered_A) Hrun)
    as (Hown & _ & _ & _ & Hcommit & _ & _ & Honline & _).
  split_and!; [exact Hown|exact Hrun|exact Hcommit|exact Honline].
Defined.

(** X14.  Posting a reading asks for no caller and no ownership.  For an
    id that no device has it raises 404 and stores nothing.  For a stored
    device it answers the reading, which carries the device, the clock
    value and the seven metrics as posted, appends it to the readings and
    commits; and whatever it raises, nothing is committed. *)
Theorem record_sensor_reading_exact (now_timestamp utcnow_status : Time)
    (reading_in : SensorReadingCreate.t) (s : AsyncSession) :
  (SensorReadingCreate.device_id reading_in ∉ IoTDevice.id <$> iot_devices (pending s) →
     iot_api.record_sensor_reading now_timestamp utcnow_status reading_in s
     = (inl (HTTPException 404 "Device not found"), s))
  ∧ (∀ d, unique_ids (pending s) → d ∈ iot_devices (pending s) →
       IoTDevice.id d = SensorReadingCreate.device_id reading_in →
       ∃ r s', iot_api.record_sensor_reading now_timestamp utcnow_status reading_in s
               = (inr r, s')
         ∧ r = SensorReading.mk (sensor_readings_id_seq (pending s))
                 (Some (SensorReadingCreate.device_id reading_in)) now_timestamp
                 (SensorReadingCreate.feed_rate reading_in)
                 (SensorReadingCreate.water_intake reading_in)
                 (SensorReadingCreate.temperature reading_in)
                 (SensorReadingCreate.humidity reading_in)
                 (SensorReadingCreate.avg_weight reading_in)
                 (SensorReadingCreate.ammonia_level reading_in)
                 (SensorReadingCreate.lux_level reading_in)
         ∧ sensor_readings (pending s') = sensor_readings (pending s) ++ [r]
         ∧ committed s' = pending s')
  ∧ (∀ e s', iot_api.record_sensor_reading now_timestamp utcnow_status reading_in s
             = (inl e, s') → committed s' = committed s).
Proof.
  split_and!.
  - intros Hk. unfold iot_api.record_sensor_reading. unfold mbind at 1, Async_bind at 1.
    by rewrite get_device_by_id_missing.
  - intros d Hu Hd Hid.
    destruct (create_sensor_reading_succeeds now_timestamp utcnow_status reading_in s d
                Hu Hd Hid) as (r & s1 & Hrun).
    exists r, (mkSession (pending s1) (pending s1)).
    pose proof (create_sensor_reading_effect _ _ _ _ _ _ Hrun) as (_ & _ & Hr & _).
    assert (Hreading : r = SensorReading.mk (sensor_readings_id_seq (pending s))
              (Some (SensorReadingCreate.device_id reading_in)) now_timestamp
              (SensorReadingCreate.feed_rate reading_in)
              (SensorReadingCreate.water_intake reading_in)
              (SensorReadingCreate.temperature reading_in)
              (SensorReadingCreate.humidity reading_in)
              (SensorReadingCreate.avg_weight reading_in)
              (SensorReadingCreate.ammonia_level reading_in)
              (SensorReadingCreate.lux_level reading_in)).
    { revert Hrun. unfold iot_crud.create_sensor_reading, iot_crud.update_device_status.
      run_async. destruct (iot_crud.insert_reading_ok _ _); [|done].
      destruct (filter _ _) as [|? [|? ?]]; cbv beta; intros ?; by simplify_eq. }
    split_and!; try done.
    unfold iot_api.record_sensor_reading. unfold mbind at 1, Async_bind at 1.
    rewrite <- Hid, (get_device_by_id_found s d Hu Hd).
    unfold mbind at 1, Async_bind at 1. by rewrite Hrun.
  - intros e s'. unfold iot_api.record_sensor_reading. unfold mbind at 1, Async_bind at 1.
    destruct (iot_crud.get_device_by_id _ s) as [[e0|[d|]] s0] eqn:Hlookup.
    + unfold iot_crud.get_device_by_id in Hlookup. run_async.
      destruct (filter _ _) as [|? [|? ?]]; cbv beta in Hlookup; simplify_eq.
      by intros [= _ <-].
    + apply get_device_by_id_inv in Hlookup as [-> _].
      unfold mbind at 1, Async_bind at 1.
      unfold iot_crud.create_sensor_reading, iot_crud.update_device_status. run_async.
      destruct (iot_crud.insert_reading_ok _ _); [|by intros [= _ <-]].
      destruct (filter _ _) as [|? [|? ?]]; cbv beta; intros ?; by simplify_eq.
    + apply get_device_by_id_inv in Hlookup as [-> _]. run_async. by intros [= _ <-].
Qed.

Lemma record_sensor_reading_exact_witness :
  (99 ∉ IoTDevice.id <$> iot_devices (pending (open_session db_devices)))
  ∧ iot_api.record_sensor_reading noon noon
      (SensorReadingCreate.mk 99 None None None None None None None)
      (open_session db_devices)
    = (inl (HTTPException 404 "Device not found"), open_session db_devices)
  ∧ unique_ids (pending (open_session db_devices))
  ∧ (∃ r s', iot_api.record_sensor_reading noon (noon + 1) reading_C
               (open_session db_devices) = (inr r, s')
       ∧ committed s' = pending s').
Proof.
  assert (Hn : 99 ∉ IoTDevice.id <$> iot_devices (pending (open_session db_devices)))
    by compute_done.
  assert (Hu : unique_ids (pending (open_session db_devices))) by compute_done.
  assert (Hd : device_C ∈ iot_devices (pending (open_session db_devices)))
    by compute_done.
  pose proof (record_sensor_reading_exact noon noon
                (SensorReadingCreate.mk 99 None None None None None None None)
                (open_session db_devices)) as (H404 & _).
  pose proof (record_sensor_reading_exact noon (noon + 1) reading_C
                (open_session db_devices)) as (_ & Hok & _).
  destruct (Hok device_C Hu Hd eq_refl) as (r & s' & Hrun & _ & _ & Hcommit).
  split_and!; [exact Hn|exact (H404 Hn)|exact Hu|].
  exists r, s'. split; [exact Hrun|exact Hcommit].
Defined.

(** X15.  For the owner of a device's farm, in a store with unique ids,
    the update handler is the repository's update followed by a commit:
    it answers what the repository answers and stores it for good, and
    when the repository raises nothing changes.  The delete handler
    answers, and what is then committed holds neither the device nor any
    of its readings, while every other device and reading is kept. *)
Theorem owner_writes_are_committed (d : IoTDevice.t) (current_user : User.t)
    (s : AsyncSession) :
  unique_ids (pending s) → d ∈ iot_devices (pending s) →
  owns_farm (pending s) (User.id current_user) (IoTDevice.farm_id d) →
  (∀ device_in r s1,
     iot_crud.update_device (IoTDevice.id d) device_in s = (inr r, s1) →
     iot_api.update_device (IoTDevice.id d) device_in current_user s
     = (inr r, mkSession (pending s1) (pending s1)))
  ∧ (∀ device_in e s1,
       iot_crud.update_device (IoTDevice.id d) device_in s = (inl e, s1) →
       iot_api.update_device (IoTDevice.id d) device_in current_user s = (inl e, s))
  ∧ (∃ s', iot_api.delete_device (IoTDevice.id d) current_user s = (inr tt, s')
       ∧ committed s' = pending s'
       ∧ (∀ x, x ∈ iot_devices (committed s') ↔
               x ∈ iot_devices (pending s) ∧ IoTDevice.id x ≠ IoTDevice.id d)
       ∧ (∀ r, r ∈ sensor_readings (committed s') ↔
               r ∈ sensor_readings (pending s)
               ∧ SensorReading.device_id r ≠ Some (IoTDevice.id d))).
Proof.
  intros Hu Hd Hown.
  pose proof (get_owned_device_owned d current_user s Hu Hd Hown) as Hcheck.
  split_and!.
  - intros device_in r s1 Hrun. unfold iot_api.update_device.
    unfold mbind at 1, Async_bind at 1. rewrite Hcheck.
    unfold mbind at 1, Async_bind at 1. by rewrite Hrun.
  - intros device_in e s1 Hrun. unfold iot_api.update_device.
    unfold mbind at 1, Async_bind at 1. rewrite Hcheck.
    unfold mbind at 1, Async_bind at 1. rewrite Hrun.
    by apply update_device_inv in Hrun as ->.
  - eexists. split.
    + unfold iot_api.delete_device. unfold mbind at 1, Async_bind at 1. rewrite Hcheck.
      unfold mbind at 1, Async_bind at 1. rewrite (delete_device_run s d Hu Hd).
      reflexivity.
    + cbn [committed pending iot_devices sensor_readings]. split_and!; [done| |].
      * intros x. rewrite list_elem_of_filter. tauto.
      * intros r. rewrite list_elem_of_filter. tauto.
Qed.

Lemma owner_writes_are_committed_witness :
  unique_ids (pending (open_session db_scenario))
  ∧ device_A ∈ iot_devices (pending (open_session db_scenario))
  ∧ owns_farm (pending (open_session db_scenario)) (User.id user_U1)
      (IoTDevice.farm_id device_A)
  ∧ (∃ s', iot_api.delete_device 1 user_U1 (open_session db_scenario) = (inr tt, s')
       ∧ committed s' = pending s').
Proof.
  assert (Hu : unique_ids (pending (open_session db_scenario))) by compute_done.
  assert (Hd : device_A ∈ iot_devices (pending (open_session db_scenario)))
    by compute_done.
  assert (Ho : owns_farm (pending (open_session db_scenario)) (User.id user_U1)
                 (IoTDevice.farm_id device_A)) by compute_done.
  destruct (owner_writes_are_committed device_A user_U1 (open_session db_scenario)
              Hu Hd Ho) as (_ & _ & s' & Hrun & Hcommit & _).
  split_and!; [exact Hu|exact Hd|exact Ho|].
  exists s'. split; [exact Hrun|exact Hcommit].
Defined.

(** ** Handlers that read *)

(** X16.  The owner of a device's farm, in a store with unique ids, gets
    the device together with its latest reading and a [readings_count]
    that is 0 however many readings the device has; asked for the latest
    reading alone, the owner gets it, or 404 when the device has none. *)
Theorem owner_reads_device (d : IoTDevice.t) (current_user : User.t) (s : AsyncSession) :
  unique_ids (pending s) → d ∈ iot_devices (pending s) →
  owns_farm (pending s) (User.id current_user) (IoTDevice.farm_id d) →
  ∃ latest,
    iot_api.get_device (IoTDevice.id d) current_user s
    = (inr (IoTDeviceWithReadings.mk d latest 0), s)
    ∧ iot_api.get_latest_reading (IoTDevice.id d) current_user s
      = (match latest with
         | Some r => inr r
         | None => inl (HTTPException 404 "No readings found for this device")
         end, s)
    ∧ match latest with
      | None => ∀ r, r ∈ sensor_readings (pending s) →
                     SensorReading.device_id r ≠ Some (IoTDevice.id d)
      | Some x =>
          x ∈ sensor_readings (pending s)
          ∧ SensorReading.device_id x = Some (IoTDevice.id d)
          ∧ ∀ r, r ∈ sensor_readings (pending s) →
                 SensorReading.device_id r = Some (IoTDevice.id d) →
                 SensorReading.timestamp r ≤ SensorReading.timestamp x
      end.
Proof.
  intros Hu Hd Hown.
  pose proof (get_owned_device_owned d current_user s Hu Hd Hown) as Hcheck.
  set (mine := filter (λ r, SensorReading.device_id r = Some (IoTDevice.id d))
                 (sensor_readings (pending s))).
  exists (head (merge_sort timestamp_desc mine)). split_and!.
  - unfold iot_api.get_device. unfold mbind at 1, Async_bind at 1. rewrite Hcheck.
    unfold mbind at 1, Async_bind at 1. by rewrite get_latest_reading_run.
  - unfold iot_api.get_latest_reading. unfold mbind at 1, Async_bind at 1. rewrite Hcheck.
    unfold mbind at 1, Async_bind at 1. rewrite get_latest_reading_run. fold mine.
    by destruct (head (merge_sort timestamp_desc mine)).
  - pose proof (latest_of_sorted mine) as H.
    destruct (head (merge_sort timestamp_desc mine)) as [x|].
    + destruct H as [Hx Hmax]. apply list_elem_of_filter in Hx as [Hdev Hx].
      split_and!; [done|done|]. intros r Hr Hrdev. apply Hmax.
      by apply list_elem_of_filter.
    + intros r Hr Hdev.
      eapply (filter_nil_not_elem_of _ _ r); [exact H| |exact Hr]. done.
Qed.

Lemma owner_reads_device_witness :
  unique_ids (pending (open_session db_window))
  ∧ device_A ∈ iot_devices (pending (open_session db_window))
  ∧ owns_farm (pending (open_session db_window)) (User.id user_U1)
      (IoTDevice.farm_id device_A)
  ∧ (∃ latest, iot_api.get_device 1 user_U1 (open_session db_window)
               = (inr (IoTDeviceWithReadings.mk device_A latest 0), open_session db_window))
  ∧ iot_api.get_device 1 user_U1 (open_session db_window)
    = (inr (IoTDeviceWithReadings.mk device_A (Some reading_10min) 0),
       open_session db_window).
Proof.
  assert (Hu : unique_ids (pending (open_session db_window))) by compute_done.
  assert (Hd : device_A ∈ iot_devices (pending (open_session db_window)))
    by compute_done.
  assert (Ho : owns_farm (pending (open_session db_window)) (User.id user_U1)
                 (IoTDevice.farm_id device_A)) by compute_done.
  destruct (owner_reads_device device_A user_U1 (open_session db_window) Hu Hd Ho)
    as (latest & Hget & _).
  split_and!; [exact Hu|exact Hd|exact Ho| |compute_done].
  exists latest. exact Hget.
Defined.





Lemma only_reads_mret {A : Type} (a : A) : only_reads (mret a).
Proof. intros s r s'. run_async. by intros [= _ <-]. Qed.

Lemma only_reads_raise {A : Type} (e : Exception) : only_reads (raise (A := A) e).
Proof. intros s r s'. run_async. by intros [= _ <-]. Qed.

Lemma only_reads_select {A : Type} (q : Database → A) : only_reads (select q).
Proof. intros s r s'. run_async. by intros [= _ <-]. Qed.

Lemma only_reads_bind {A B : Type} (m : Async A) (k : A → Async B) :
  only_reads m → (∀ a, only_reads (k a)) → only_reads (m ≫= k).
Proof.
  intros Hm Hk s r s'. unfold mbind, Async_bind.
  destruct (m s) as [[e|a] s0] eqn:E; apply Hm in E as ->.
  - by intros [= _ <-].
  - apply Hk.
Qed.

Lemma only_reads_scalar_one_or_none {A : Type} (rows : list A) :
  only_reads (scalar_one_or_none rows).
Proof.
  destruct rows as [|? [|? ?]]; [apply only_reads_mret..|apply only_reads_raise].
Qed.

Lemma only_reads_mapM {A B : Type} (f : A → Async B) (l : list A) :
  (∀ x, only_reads (f x)) → only_reads (mapM f l).
Proof.
  intros Hf. induction l as [|x l IH]; [apply only_reads_mret|].
  cbn [mapM]. apply only_reads_bind; [done|]. intros y.
  apply only_reads_bind; [done|]. intros k. apply only_reads_mret.
Qed.

Create HintDb only_reads.
#[local] Hint Resolve only_reads_mret only_reads_raise only_reads_select
  only_reads_scalar_one_or_none : only_reads.

Ltac only_reads :=
  repeat first
    [ progress eauto with only_reads
    | apply only_reads_bind; [|intros ?]
    | apply only_reads_mapM; intros ?
    | match goal with
      | |- only_reads (match ?x with _ => _ end) => destruct x
      | |- only_reads (let '(_, _) := ?x in _) => destruct x
      end ].

Lemma only_reads_get_owned_device (device_id : Z) (current_user : User.t) :
  only_reads (iot_api.get_owned_device device_id current_user).
Proof.
  unfold iot_api.get_owned_device, iot_crud.get_device_by_id, farm_crud.get_farm_by_id.
  only_reads.
Qed.

(** X18.  The handlers that read, and the repository functions under
    them, never write: whatever they answer or raise, for whichever
    caller, the session they hand back is the one they were given,
    nothing pending and nothing committed having changed. *)
Theorem read_paths_only_read :
  (∀ skip limit online_only user, only_reads (iot_api.list_devices skip limit online_only user))
  ∧ (∀ k user, only_reads (iot_api.get_device k user))
  ∧ (∀ farm_id user, only_reads (iot_api.get_farm_devices farm_id user))
  ∧ (∀ t k hours limit user, only_reads (iot_api.get_device_readings t k hours limit user))
  ∧ (∀ k user, only_reads (iot_api.get_latest_reading k user))
  ∧ (∀ t t' k hours user, only_reads (iot_api.get_reading_statistics t t' k hours user))
  ∧ (∀ t farm_id hours limit user,
       only_reads (iot_api.get_farm_readings t farm_id hours limit user))
  ∧ (∀ k, only_reads (iot_crud.get_device_by_id k))
  ∧ (∀ k, only_reads (iot_crud.get_device_by_device_id k))
  ∧ (∀ farm_id skip limit, only_reads (iot_crud.get_devices_by_farm farm_id skip limit))
  ∧ (∀ online_only skip limit, only_reads (iot_crud.get_all_devices online_only skip limit))
  ∧ (∀ k, only_reads (iot_crud.get_latest_reading k))
  ∧ (∀ t k hours limit, only_reads (iot_crud.get_readings_by_device t k hours limit))
  ∧ (∀ t farm_id hours limit, only_reads (iot_crud.get_readings_by_farm t farm_id hours limit))
  ∧ (∀ t k hours, only_reads (iot_crud.get_reading_stats t k hours)).
Proof.
  pose proof only_reads_get_owned_device.
  split_and!; intros;
    unfold iot_api.list_devices, iot_api.get_device, iot_api.get_farm_devices,
      iot_api.get_device_readings, iot_api.get_latest_reading,
      iot_api.get_reading_statistics, iot_api.get_farm_readings,
      iot_crud.get_device_by_id, iot_crud.get_device_by_device_id,
      iot_crud.get_devices_by_farm, iot_crud.get_all_devices,
      iot_crud.get_latest_reading, iot_crud.get_readings_by_device,
      iot_crud.get_readings_by_farm, iot_crud.get_reading_stats,
      farm_crud.get_farm_by_id;
    only_reads.
Qed.

(** X19.  The devices of a farm are refused with 404 to a caller who does
    not own the farm.  The owner gets at most 100 of them, the most
    recently created first: all of them when the farm has no more than
    100, each a stored device of that farm, with its latest reading and a
    [readings_count] of 0. *)
Theorem get_farm_devices_exact (farm_id : Z) (current_user : User.t) (s : AsyncSession) :
  (¬ owns_farm (pending s) (User.id current_user) farm_id →
     iot_api.get_farm_devices farm_id current_user s
     = (inl (HTTPException 404 "Farm not found"), s))
  ∧ (owns_farm (pending s) (User.id current_user) farm_id →
     ∃ l, iot_api.get_farm_devices farm_id current_user s = (inr l, s)
       ∧ length l
         = Nat.min 100 (length (filter (λ d, IoTDevice.farm_id d = farm_id)
                                  (iot_devices (pending s))))
       ∧ StronglySorted (λ d1 d2, IoTDevice.created_at d2 ≤ IoTDevice.created_at d1)
           (IoTDeviceWithReadings.device <$> l)
       ∧ (IoTDeviceWithReadings.device <$> l) ⊆+ iot_devices (pending s)
       ∧ Forall (λ x,
             IoTDevice.farm_id (IoTDeviceWithReadings.device x) = farm_id
             ∧ IoTDeviceWithReadings.readings_count x = 0
             ∧ iot_crud.get_latest_reading (IoTDevice.id (IoTDeviceWithReadings.device x)) s
               = (inr (IoTDeviceWithReadings.latest_reading x), s)) l).
Proof.
  split.
  - intros Hown. unfold iot_api.get_farm_devices. unfold mbind at 1, Async_bind at 1.
    by rewrite (get_farm_by_id_not_owned _ _ s Hown).
  - intros Hown. destruct (get_farm_by_id_owned _ _ s Hown) as [f Hf].
    set (mine := filter (λ d, IoTDevice.farm_id d = farm_id) (iot_devices (pending s))).
    set (page := take 100 (drop 0 (merge_sort created_desc mine))).
    set (with_reading := λ d : IoTDevice.t,
           IoTDeviceWithReadings.mk d
             (head (merge_sort timestamp_desc
                (filter (λ r, SensorReading.device_id r = Some (IoTDevice.id d))
                        (sensor_readings (pending s))))) 0).
    exists (with_reading <$> page). split.
    { unfold iot_api.get_farm_devices. unfold mbind at 1, Async_bind at 1. rewrite Hf.
      unfold iot_crud.get_devices_by_farm. unfold mbind at 1, Async_bind at 1.
      run_async. fold mine page.
      apply (mapM_pure _ with_reading). intros d.
      by rewrite get_latest_reading_run. }
    assert (Hdev : IoTDeviceWithReadings.device <$> (with_reading <$> page) = page).
    { rewrite <- list_fmap_compose. by rewrite <- (list_fmap_id page) at 2. }
    rewrite Hdev, length_fmap. split_and!.
    + unfold page. rewrite (page_length created_desc). by rewrite Nat.sub_0_r.
    + apply (page_sorted created_desc).
    + etrans; [apply (page_submseteq created_desc)|].
      apply sublist_submseteq, sublist_filter.
    + apply Forall_fmap, Forall_forall. intros d Hd. unfold compose. cbn.
      split_and!; [|done|by rewrite get_latest_reading_run].
      eapply elem_of_submseteq in Hd; [|apply (page_submseteq created_desc)].
      by apply list_elem_of_filter in Hd as [? _].
Qed.

Lemma get_farm_devices_exact_witness :
  ¬ owns_farm (pending (open_session db_window)) (User.id user_U2) 1
  ∧ iot_api.get_farm_devices 1 user_U2 (open_session db_window)
    = (inl (HTTPException 404 "Farm not found"), open_session db_window)
  ∧ owns_farm (pending (open_session db_window)) (User.id user_U1) 1
  ∧ iot_api.get_farm_devices 1 user_U1 (open_session db_window)
    = (inr [IoTDeviceWithReadings.mk device_B (Some reading_B) 0;
            IoTDeviceWithReadings.mk device_A (Some reading_10min) 0],
       open_session db_window).
Proof.
  assert (Hno : ¬ owns_farm (pending (open_session db_window)) (User.id user_U2) 1)
    by compute_done.
  assert (Hown : owns_farm (pending (open_session db_window)) (User.id user_U1) 1)
    by compute_done.
  pose proof (get_farm_devices_exact 1 user_U2 (open_session db_window)) as (H404 & _).
  pose proof (get_farm_devices_exact 1 user_U1 (open_session db_window)) as (_ & Hok).
  destruct (Hok Hown) as (l & Hrun & _).
  split_and!; [exact Hno|exact (H404 Hno)|exact Hown|compute_done].
Defined.

(** X20.  The readings of a farm are refused with 404 to a caller who
    does not own the farm; the owner gets what the repository lists for
    the farm over the window, which is the empty list, not an error, when
    the farm has no device. *)
Theorem get_farm_readings_exact (utcnow : Time) (farm_id hours_back : Z) (limit : nat)
    (current_user : User.t) (s : AsyncSession) :
  (¬ owns_farm (pending s) (User.id current_user) farm_id →
     iot_api.get_farm_readings utcnow farm_id hours_back limit current_user s
     = (inl (HTTPException 404 "Farm not found"), s))
  ∧ (owns_farm (pending s) (User.id current_user) farm_id →
     iot_api.get_farm_readings utcnow farm_id hours_back limit current_user s
     = iot_crud.get_readings_by_farm utcnow farm_id (Some hours_back) limit s
     ∧ ((∀ d, d ∈ iot_devices (pending s) → IoTDevice.farm_id d ≠ farm_id) →
        iot_api.get_farm_readings utcnow farm_id hours_back limit current_user s
        = (inr [], s))).
Proof.
  split.
  - intros Hown. unfold iot_api.get_farm_readings. unfold mbind at 1, Async_bind at 1.
    by rewrite (get_farm_by_id_not_owned _ _ s Hown).
  - intros Hown. destruct (get_farm_by_id_owned _ _ s Hown) as [f Hf].
    assert (Hrun : iot_api.get_farm_readings utcnow farm_id hours_back limit current_user s
                   = iot_crud.get_readings_by_farm utcnow farm_id (Some hours_back) limit s).
    { unfold iot_api.get_farm_readings. unfold mbind at 1, Async_bind at 1.
      by rewrite Hf. }
    split; [done|]. intros Hnone. rewrite Hrun.
    unfold iot_crud.get_readings_by_farm. run_async.
    rewrite filter_none; [done|]. apply Forall_forall. intros d Hd. by apply Hnone.
Qed.

Lemma get_farm_readings_exact_witness :
  ¬ owns_farm (pending (open_session db_window)) (User.id user_U2) 1
  ∧ iot_api.get_farm_readings noon 1 1 100 user_U2 (open_session db_window)
    = (inl (HTTPException 404 "Farm not found"), open_session db_window)
  ∧ owns_farm (pending (open_session db_farms)) (User.id user_U1) 1
  ∧ iot_api.get_farm_readings noon 1 1 100 user_U1 (open_session db_farms)
    = (inr [], open_session db_farms).
Proof.
  assert (Hno : ¬ owns_farm (pending (open_session db_window)) (User.id user_U2) 1)
    by compute_done.
  assert (Hown : owns_farm (pending (open_session db_farms)) (User.id user_U1) 1)
    by compute_done.
  pose proof (get_farm_readings_exact noon 1 1 100 user_U2 (open_session db_window))
    as (H404 & _).
  pose proof (get_farm_readings_exact noon 1 1 100 user_U1 (open_session db_farms))
    as (_ & Hok).
  destruct (Hok Hown) as (_ & Hempty).
  split_and!; [exact Hno|exact (H404 Hno)|exact Hown|].
  apply Hempty. intros d Hd. by apply elem_of_nil in Hd.
Defined.

(** X21.  The maintenance endpoint refuses with 403, and changes nothing,
    for every caller whose role is not [admin].  For an administrator it
    runs the sweep, commits it, and answers the number of devices marked
    with the message naming that number. *)
Theorem check_offline_devices_endpoint_exact (utcnow : Time) (timeout_minutes : Z)
    (current_user : User.t) (s : AsyncSession) :
  (User.role current_user ≠ "admin" →
     iot_api.check_offline_devices_endpoint utcnow timeout_minutes current_user s
     = (inl (HTTPException 403 "Admin access required"), s))
  ∧ (User.role current_user = "admin" →
     ∃ n s', iot_api.check_offline_devices_endpoint utcnow timeout_minutes current_user s
             = (inr (MaintenanceResponse.mk n
                       ("Marked " +:+ pretty n +:+ " devices as offline")), s')
       ∧ n = Z.of_nat (length (filter (lapsed utcnow timeout_minutes)
                                 (iot_devices (pending s))))
       ∧ pending s' = pending (iot_crud.mark_offline_devices utcnow timeout_minutes s).2
       ∧ committed s' = pending s').
Proof.
  unfold iot_api.check_offline_devices_endpoint. split; intros Hrole.
  - by rewrite bool_decide_eq_true_2.
  - rewrite bool_decide_eq_false_2 by (intros Hne; by apply Hne).
    unfold mbind at 1, Async_bind at 1. rewrite mark_offline_devices_run.
    eexists _, _. split; [reflexivity|]. done.
Qed.

Lemma check_offline_devices_endpoint_exact_witness :
  User.role user_U1 ≠ "admin"
  ∧ iot_api.check_offline_devices_endpoint noon 30 user_U1 (open_session db_devices)
    = (inl (HTTPException 403 "Admin access required"), open_session db_devices)
  ∧ (∃ n s', iot_api.check_offline_devices_endpoint noon 30 (User.mk 1 "admin")
               (open_session db_devices)
             = (inr (MaintenanceResponse.mk n
                       ("Marked " +:+ pretty n +:+ " devices as offline")), s')
       ∧ n = 1).
Proof.
  assert (Hrole : User.role user_U1 ≠ "admin") by compute_done.
  pose proof (check_offline_devices_endpoint_exact noon 30 user_U1
                (open_session db_devices)) as (H403 & _).
  pose proof (check_offline_devices_endpoint_exact noon 30 (User.mk 1 "admin")
                (open_session db_devices)) as (_ & Hadmin).
  destruct (Hadmin eq_refl) as (n & s' & Hrun & Hn & _).
  split_and!; [exact Hrole|exact (H403 Hrole)|].
  exists n, s'. split; [exact Hrun|]. rewrite Hn. reflexivity.
Defined.

(** ** How the operations compose *)

(** X22.  A device that has just reported is safe from the sweep for the
    length of the timeout: after a successful ingestion whose status
    update read the clock at [utcnow_status], a sweep run at [utcnow]
    with [utcnow - timeout_minutes <= utcnow_status] leaves every row of
    that device online and last seen at [utcnow_status]. *)
Theorem sweep_spares_fresh_device (now_timestamp utcnow_status utcnow : Time)
    (timeout_minutes : Z) (reading_in : SensorReadingCreate.t)
    (s s1 : AsyncSession) (r : SensorReading.t) :
  utcnow - timeout_minutes * 60000000 ≤ utcnow_status →
  iot_crud.create_sensor_reading now_timestamp utcnow_status reading_in s = (inr r, s1) →
  ∀ d, d ∈ iot_devices (pending (iot_crud.mark_offline_devices utcnow timeout_minutes s1).2) →
       IoTDevice.id d = SensorReadingCreate.device_id reading_in →
       IoTDevice.is_online d = Some true ∧ IoTDevice.last_seen d = Some utcnow_status.
Proof.
  intros Hfresh Hrun d. rewrite mark_offline_devices_run.
  cbn [snd pending with_iot_devices iot_devices].
  apply create_sensor_reading_effect in Hrun as (Hdevices & _).
  intros (x & -> & Hx)%list_elem_of_fmap Hid.
  assert (Hfields : IoTDevice.id x = SensorReadingCreate.device_id reading_in →
            IoTDevice.is_online x = Some true ∧ IoTDevice.last_seen x = Some utcnow_status).
  { apply list_elem_of_lookup in Hx as [i Hi].
    destruct (Forall2_lookup_r _ _ _ _ _ Hdevices Hi) as (x0 & _ & Hset & Hkeep).
    intros Hxid.
    destruct (decide (IoTDevice.id x0 = SensorReadingCreate.device_id reading_in))
      as [Heq|Hne].
    - by rewrite (Hset Heq).
    - rewrite (Hkeep Hne) in Hxid. done. }
  destruct (decide (lapsed utcnow timeout_minutes x)) as [[Hon Hseen]|_].
  - cbn in Hid. destruct (Hfields Hid) as [_ Hls]. rewrite Hls in Hseen.
    cbv beta iota in Hseen. lia.
  - by apply Hfields.
Qed.

Lemma sweep_spares_fresh_device_witness :
  noon + 30 * minute - 30 * 60000000 ≤ noon + 1
  ∧ iot_crud.create_sensor_reading noon (noon + 1) reading_C (open_session db_devices)
    = (inr stored_reading_C, session_after_reading_C)
  ∧ ∀ d, d ∈ iot_devices (pending (iot_crud.mark_offline_devices (noon + 30 * minute) 30
                                     session_after_reading_C).2) →
         IoTDevice.id d = 3 →
         IoTDevice.is_online d = Some true ∧ IoTDevice.last_seen d = Some (noon + 1).
Proof.
  assert (Hfresh : noon + 30 * minute - 30 * 60000000 ≤ noon + 1) by compute_done.
  assert (Hrun : iot_crud.create_sensor_reading noon (noon + 1) reading_C
                   (open_session db_devices)
                 = (inr stored_reading_C, session_after_reading_C)) by compute_done.
  split_and!; [exact Hfresh|exact Hrun|].
  exact (sweep_spares_fresh_device noon (noon + 1) (noon + 30 * minute) 30 reading_C
           (open_session db_devices) session_after_reading_C stored_reading_C Hfresh Hrun).
Defined.

(** X23.  Over a window that holds no reading of the device, the
    statistics count 0 and report all nine aggregates as absent; and a
    metric that no reading of the window carries is absent whatever the
    other metrics are. *)
Theorem get_reading_stats_nothing_to_report (utcnow : Time) (device_id hours_back : Z)
    (s : AsyncSession) :
  ∃ st, iot_crud.get_reading_stats utcnow device_id hours_back s = (inr st, s)
    ∧ ((∀ r, r ∈ sensor_readings (pending s) →
             SensorReading.device_id r = Some device_id →
             SensorReading.timestamp r < utcnow - hours_back * 3600000000) →
       st = Stats.mk 0 None None None None None None None None None hours_back)
    ∧ ((∀ r, r ∈ sensor_readings (pending s) →
             SensorReading.device_id r = Some device_id →
             utcnow - hours_back * 3600000000 ≤ SensorReading.timestamp r →
             SensorReading.temperature r = None) →
       Stats.avg_temperature st = None ∧ Stats.min_temperature st = None
       ∧ Stats.max_temperature st = None)
    ∧ ((∀ r, r ∈ sensor_readings (pending s) →
             SensorReading.device_id r = Some device_id →
             utcnow - hours_back * 3600000000 ≤ SensorReading.timestamp r →
             SensorReading.humidity r = None) →
       Stats.avg_humidity st = None).
Proof.
  eexists. split; [reflexivity|].
  set (rows := filter (λ r, SensorReading.device_id r = Some device_id
                            ∧ utcnow - timedelta_hours hours_back ≤ SensorReading.timestamp r)
                 (sensor_readings (pending s))).
  assert (Hrows : ∀ r, r ∈ rows →
            r ∈ sensor_readings (pending s) ∧ SensorReading.device_id r = Some device_id
            ∧ utcnow - hours_back * 3600000000 ≤ SensorReading.timestamp r).
  { intros r [[Hdev Hwin] Hr]%list_elem_of_filter. split_and!; [done|done|].
    unfold timedelta_hours in Hwin. lia. }
  assert (Hcol : ∀ metric : SensorReading.t → option Qc,
            (∀ r, r ∈ rows → metric r = None) → non_null (metric <$> rows) = []).
  { intros metric Hnone. unfold non_null.
    induction rows as [|r rows' IH]; [done|].
    cbn. rewrite (Hnone r) by left. cbn. apply IH.
    - intros x Hx. apply Hrows. by right.
    - intros x Hx. apply Hnone. by right. }
  split_and!.
  - intros Hout. assert (Hnil : rows = []).
    { destruct rows as [|r l]; [done|]. destruct (Hrows r) as (Hr & Hdev & Hwin); [left|].
      specialize (Hout r Hr Hdev). lia. }
    fold rows. by rewrite Hnil.
  - intros Hnone.
    assert (Hc : non_null (SensorReading.temperature <$> rows) = []).
    { apply Hcol. intros r Hr. destruct (Hrows r Hr) as (? & ? & ?). by apply Hnone. }
    cbn [Stats.avg_temperature Stats.min_temperature Stats.max_temperature].
    fold rows. unfold func_avg, func_min, func_max. by rewrite Hc.
  - intros Hnone.
    assert (Hc : non_null (SensorReading.humidity <$> rows) = []).
    { apply Hcol. intros r Hr. destruct (Hrows r Hr) as (? & ? & ?). by apply Hnone. }
    cbn [Stats.avg_humidity]. fold rows. unfold func_avg. by rewrite Hc.
Qed.

Lemma get_reading_stats_nothing_to_report_witness :
  (∀ r, r ∈ sensor_readings (pending (open_session db_window)) →
        SensorReading.device_id r = Some 3 →
        SensorReading.timestamp r < noon - 1 * 3600000000)
  ∧ iot_crud.get_reading_stats noon 3 1 (open_session db_window)
    = (inr (Stats.mk 0 None None None None None None None None None 1),
       open_session db_window).
Proof.
  assert (Hout : ∀ r, r ∈ sensor_readings (pending (open_session db_window)) →
            SensorReading.device_id r = Some 3 →
            SensorReading.timestamp r < noon - 1 * 3600000000).
  { apply (proj1 (Forall_forall
      (λ r, SensorReading.device_id r = Some 3 →
            SensorReading.timestamp r < noon - 1 * 3600000000) _)). compute_done. }
  destruct (get_reading_stats_nothing_to_report noon 3 1 (open_session db_window))
    as (st & Hrun & Hempty & _).
  rewrite (Hempty Hout) in Hrun.
  split; [exact Hout|exact Hrun].
Defined.

(** X24.  In a store with unique ids an update that was stored can be
    repeated without effect: the same body applied again answers the same
    device and leaves the session as the first update left it. *)
Theorem update_device_twice (device_id : Z) (device_in : IoTDeviceUpdate.t)
    (s s1 : AsyncSession) (d' : IoTDevice.t) :
  unique_ids (pending s) →
  iot_crud.update_device device_id device_in s = (inr (Some d'), s1) →
  iot_crud.update_device device_id device_in s1 = (inr (Some d'), s1).
Proof.
  intros Hu Hrun.
  pose proof (update_device_inv _ _ _ _ _ Hrun) as (d & Hd & Hid & Hd' & Hs1).
  assert (Hsame : ∀ x, x ∈ iot_devices (pending s) → IoTDevice.id x = device_id → x = d).
  { intros x Hx Hxid.
    apply (unique_key_eq IoTDevice.id (iot_devices (pending s))); [done..|].
    by rewrite Hxid, Hid. }
  assert (Hid' : IoTDevice.id d' = device_id) by (rewrite Hd', apply_update_fields; done).
  assert (Hu1 : unique_ids (pending s1)).
  { rewrite Hs1. unfold unique_ids. cbn. rewrite <- list_fmap_compose.
    rewrite (list_fmap_ext _ IoTDevice.id); [done|].
    intros i x Hx%list_elem_of_lookup_2. unfold compose. case_bool_decide; [|done].
    by rewrite Hid'. }
  assert (Hin1 : d' ∈ iot_devices (pending s1)).
  { rewrite Hs1. cbn. apply list_elem_of_fmap. exists d. split; [|done].
    by rewrite bool_decide_eq_true_2. }
  assert (Hagain : iot_crud.apply_update device_in d' = d').
  { rewrite Hd', !apply_update_fields. cbn.
    by destruct (IoTDeviceUpdate.is_online device_in),
      (IoTDeviceUpdate.mqtt_topic device_in). }
  unfold iot_crud.update_device. unfold mbind at 1, Async_bind at 1.
  rewrite <- Hid', (get_device_by_id_found s1 d' Hu1 Hin1). run_async.
  rewrite Hagain. unfold iot_crud.update_device_ok.
  rewrite bool_decide_eq_true_2 by done. cbn [orb].
  rewrite fmap_unchanged.
  - rewrite with_iot_devices_same. by destruct s1.
  - intros x Hx. case_bool_decide; [|done]. symmetry.
    by apply (unique_key_eq IoTDevice.id (iot_devices (pending s1))).
Qed.

Lemma update_device_twice_witness :
  unique_ids (pending (open_session db_devices))
  ∧ iot_crud.update_device 1 only_topic_x (open_session db_devices)
    = (inr (Some device_A_topic_x), session_topic_x)
  ∧ iot_crud.update_device 1 only_topic_x session_topic_x
    = (inr (Some device_A_topic_x), session_topic_x).
Proof.
  assert (Hu : unique_ids (pending (open_session db_devices))) by compute_done.
  assert (Hrun : iot_crud.update_device 1 only_topic_x (open_session db_devices)
                 = (inr (Some device_A_topic_x), session_topic_x)) by compute_done.
  split_and!; [exact Hu|exact Hrun|].
  exact (update_device_twice 1 only_topic_x (open_session db_devices) session_topic_x
           device_A_topic_x Hu Hrun).
Defined.

(** X25.  Once the delete handler has answered, the device is gone for
    every caller: reading it, updating it, deleting it again and asking
    for its readings raise 404, and so does posting a reading for it,
    each leaving the session as it was. *)
Theorem deleted_device_is_gone (device_id : Z) (current_user : User.t)
    (s s' : AsyncSession) :
  iot_api.delete_device device_id current_user s = (inr tt, s') →
  ∀ (user : User.t) (device_in : IoTDeviceUpdate.t) (reading_in : SensorReadingCreate.t)
    (t t' : Time) (hours_back : option Z) (limit : nat),
    SensorReadingCreate.device_id reading_in = device_id →
    rejects (iot_api.get_device device_id user) (HTTPException 404 "Device not found") s'
    ∧ rejects (iot_api.update_device device_id device_in user)
        (HTTPException 404 "Device not found") s'
    ∧ rejects (iot_api.delete_device device_id user)
        (HTTPException 404 "Device not found") s'
    ∧ rejects (iot_api.get_device_readings t device_id hours_back limit user)
        (HTTPException 404 "Device not found") s'
    ∧ rejects (iot_api.get_latest_reading device_id user)
        (HTTPException 404 "Device not found") s'
    ∧ rejects (iot_api.record_sensor_reading t t' reading_in)
        (HTTPException 404 "Device not found") s'.
Proof.
  intros Hdel user device_in reading_in t t' hours_back limit Hrid.
  assert (Hgone : device_id ∉ IoTDevice.id <$> iot_devices (pending s')).
  { revert Hdel. unfold iot_api.delete_device. unfold mbind at 1, Async_bind at 1.
    destruct (iot_api.get_owned_device device_id current_user s) as [[e|d] s0] eqn:Hcheck;
      [done|].
    assert (s0 = s) as -> by (by eapply only_reads_get_owned_device).
    unfold mbind at 1, Async_bind at 1. unfold iot_crud.delete_device.
    unfold mbind at 1, Async_bind at 1.
    destruct (iot_crud.get_device_by_id device_id s) as [[e|[x|]] s0] eqn:Hlookup.
    - done.
    - apply get_device_by_id_inv in Hlookup as [-> (_ & Hxid & _)]. run_async.
      intros [= <-]. cbn.
      intros (y & Hy & [Hne _]%list_elem_of_filter)%list_elem_of_fmap. congruence.
    - apply get_device_by_id_inv in Hlookup as [-> Hmissing]. run_async.
      by intros [= <-]. }
  pose proof (get_owned_device_missing device_id user s' Hgone) as Hcheck.
  destruct (per_device_handlers_reject device_id user s' _ device_in t t' hours_back 0 limit
              Hcheck) as (Hget & Hupd & Hdelete & Hreadings & Hlatest & _).
  split_and!; try done.
  unfold rejects, iot_api.record_sensor_reading. unfold mbind at 1, Async_bind at 1.
  rewrite Hrid. by rewrite get_device_by_id_missing.
Qed.

Lemma deleted_device_is_gone_witness :
  (∃ s', iot_api.delete_device 1 user_U1 (open_session db_scenario) = (inr tt, s')
     ∧ rejects (iot_api.get_device 1 user_U1) (HTTPException 404 "Device not found") s'
     ∧ rejects (iot_api.delete_device 1 user_U1) (HTTPException 404 "Device not found") s').
Proof.
  destruct (iot_api.delete_device 1 user_U1 (open_session db_scenario)) as [r s'] eqn:Hrun.
  assert (Hr : r = inr tt).
  { assert (H : (iot_api.delete_device 1 user_U1 (open_session db_scenario)).1 = inr tt)
      by (vm_compute; reflexivity).
    by rewrite Hrun in H. }
  subst r. exists s'.
  destruct (deleted_device_is_gone 1 user_U1 (open_session db_scenario) s' Hrun user_U1
              only_topic_x (SensorReadingCreate.mk 1 None None None None None None None)
              noon noon None 10 eq_refl) as (Hget & _ & Hdelete & _).
  split_and!; [reflexivity|exact Hget|exact Hdelete].
Defined.

(** X26.  In a well-formed store, once a registration has answered, its
    [device_id] is taken: every later registration with that [device_id]
    by a caller who owns the farm it targets is refused with 400 and
    changes nothing. *)
Theorem registered_device_id_is_taken (t1 t2 t3 t4 : Time)
    (first second : IoTDeviceCreate.t) (user user' : User.t)
    (s s' : AsyncSession) (d : IoTDevice.t) :
  well_formed (pending s) →
  iot_api.register_device t1 t2 first user s = (inr d, s') →
  IoTDeviceCreate.device_id second = IoTDeviceCreate.device_id first →
  owns_farm (pending s') (User.id user') (IoTDeviceCreate.farm_id second) →
  iot_api.register_device t3 t4 second user' s'
  = (inl (HTTPException 400
            ("Device with ID " +:+ IoTDeviceCreate.device_id first +:+ " already exists")),
     s').
Proof.
  intros Hwf Hrun Hsame Hown. rewrite register_device_run in Hrun.
  destruct (decide (owns_farm _ _ _)); [|done].
  destruct (filter _ (iot_devices (pending s))) as [|? [|? ?]]; [|done..].
  destruct (iot_crud.create_device t1 t2 first s) as [[e|d0] s1] eqn:Hcreate; [done|].
  injection Hrun as <- <-.
  pose proof (create_device_well_formed t1 t2 first s Hwf) as Hwf1.
  rewrite Hcreate in Hwf1. cbn [snd] in Hwf1. destruct Hwf1 as (_ & Hdev & _).
  apply create_device_inv in Hcreate as (Hd & _ & Hs1).
  assert (Hin : d0 ∈ iot_devices (pending s1)).
  { rewrite Hs1. cbn. apply elem_of_app. right. by apply list_elem_of_singleton. }
  rewrite register_device_run. cbn [pending].
  rewrite decide_True by done. rewrite Hsame.
  rewrite (filter_key_unique IoTDevice.device_id (iot_devices (pending s1)) d0); try done.
  by rewrite Hd.
Qed.

Lemma registered_device_id_is_taken_witness :
  well_formed (pending (open_session db_farms))
  ∧ iot_api.register_device noon noon registration_A user_U1 (open_session db_farms)
    = (inr registered_A, open_session db_registered_A)
  ∧ owns_farm (pending (open_session db_registered_A)) (User.id user_U2) 2
  ∧ iot_api.register_device (noon + 1) (noon + 1)
      (IoTDeviceCreate.mk 2 "IOT-0001-M" (Some "coop")) user_U2
      (open_session db_registered_A)
    = (inl (HTTPException 400 "Device with ID IOT-0001-M already exists"),
       open_session db_registered_A).
Proof.
  assert (Hwf : well_formed (pending (open_session db_farms))) by compute_done.
  assert (Hrun : iot_api.register_device noon noon registration_A user_U1
                   (open_session db_farms)
                 = (inr registered_A, open_session db_registered_A)) by compute_done.
  assert (Hown : owns_farm (pending (open_session db_registered_A)) (User.id user_U2) 2)
    by compute_done.
  split_and!; [exact Hwf|exact Hrun|exact Hown|].
  exact (registered_device_id_is_taken noon noon (noon + 1) (noon + 1) registration_A
           (IoTDeviceCreate.mk 2 "IOT-0001-M" (Some "coop")) user_U1 user_U2
           (open_session db_farms) (open_session db_registered_A) registered_A
           Hwf Hrun eq_refl Hown).
Defined.
